(** * miniclawd: session store, model provider, message tool and agent loop

    A shallow embedding of the TypeScript sources

      - [src/utils/paths.ts]                           ([safeFilename])
      - [src/infrastructure/storage/session-store.ts]  ([SessionManager])
      - [src/infrastructure/llm/ai-sdk-provider.ts]    ([AIProvider])
      - [src/tools/message.ts]                         ([MessageTool])
      - [src/agent/loop.ts]                            ([AgentLoop])

    Stateful code is written in a state-and-exception monad over an explicit
    agent state (session cache, sessions directory on disk, tool contexts,
    the external world).  Everything supplied by the JavaScript runtime or by
    collaborators outside these files (JSON, Date, the AI SDK, the tool
    registry, the context builder) is an operation of the class [Runtime]. *)

From Stdlib Require Import ZArith QArith Qround Ascii String List Lia.
From stdpp Require Import base option list strings gmap.
From Equations Require Import Equations.

Set Warnings "-register-all".
Local Open Scope Z_scope.

(* ===================================================================== *)
(** * Part I: definitions                                                 *)
(* ===================================================================== *)

(** ** JavaScript strings

    A string is a sequence of code units; the operations below are the
    [String.prototype] methods the sources call. *)

Module JS.

(** Code units that [String.prototype.trim] strips (those below 256):
    TAB, LF, VT, FF, CR, SPACE and NBSP. *)
Definition is_whitespace (c : ascii) : bool :=
  match nat_of_ascii c with
  | 9%nat | 10%nat | 11%nat | 12%nat | 13%nat | 32%nat | 160%nat => true
  | _ => false
  end.

Fixpoint trimStart (s : string) : string :=
  match s with
  | EmptyString => EmptyString
  | String c s' => if is_whitespace c then trimStart s' else s
  end.

Definition trimEnd (s : string) : string :=
  String.rev (trimStart (String.rev s)).

Definition trim (s : string) : string := trimEnd (trimStart s).

(** [s.slice(n)] for [0 <= n]. *)
Fixpoint drop (n : nat) (s : string) : string :=
  match n, s with
  | O, _ => s
  | S n', String _ s' => drop n' s'
  | S _, EmptyString => EmptyString
  end.

Definition startsWith (s pre : string) : bool := String.prefix pre s.

Definition endsWith (s suf : string) : bool :=
  String.prefix (String.rev suf) (String.rev s).

(** [s.includes(sub)]. *)
Fixpoint includes (s sub : string) : bool :=
  String.prefix sub s
  || match s with
     | EmptyString => false
     | String _ s' => includes s' sub
     end.

(** [s.replace(pat, rep)] with a string pattern: the first occurrence
    only. *)
Fixpoint replace (s pat rep : string) : string :=
  if String.prefix pat s then rep +:+ drop (String.length pat) s
  else match s with
       | EmptyString => EmptyString
       | String c s' => String c (replace s' pat rep)
       end.

(** [s.replace(new RegExp("\\" + c, "g"), rep)]: every occurrence of the
    literal character [c]. *)
Fixpoint replaceAllChar (s : string) (c : ascii) (rep : string) : string :=
  match s with
  | EmptyString => EmptyString
  | String d s' =>
      (if Ascii.eqb d c then rep else String d EmptyString)
      +:+ replaceAllChar s' c rep
  end.

(** [s.split(sep)] for a one-character separator (the sources split on
    ":", "/" and "\n" only); splitting the empty string gives one
    empty piece. *)
Fixpoint split (s : string) (sep : ascii) : list string :=
  match s with
  | EmptyString => [EmptyString]
  | String c s' =>
      if Ascii.eqb c sep then EmptyString :: split s' sep
      else match split s' sep with
           | h :: t => String c h :: t
           | [] => [String c EmptyString]
           end
  end.

(** [s.split(sep, limit)]: the pieces beyond [limit] are discarded. *)
Definition splitLimit (s : string) (sep : ascii) (limit : nat) : list string :=
  take limit (split s sep).

(** [parts.join(sep)]. *)
Fixpoint join (parts : list string) (sep : string) : string :=
  match parts with
  | [] => EmptyString
  | [p] => p
  | p :: rest => p +:+ sep +:+ join rest sep
  end.

Definition lowerChar (c : ascii) : ascii :=
  let n := nat_of_ascii c in
  if (65 <=? n)%nat && (n <=? 90)%nat then ascii_of_nat (n + 32) else c.

Fixpoint toLowerCase (s : string) : string :=
  match s with
  | EmptyString => EmptyString
  | String c s' => String (lowerChar c) (toLowerCase s')
  end.

Definition chars (s : string) : list ascii := list_ascii_of_string s.

(** [arr.slice(-n)]: the last [n] elements; [slice(-0)] is [slice(0)], the
    whole array. *)
Definition sliceLast {A} (n : nat) (l : list A) : list A :=
  match n with
  | O => l
  | S _ => List.skipn (List.length l - n) l
  end.

End JS.

Definition LF : ascii := ascii_of_nat 10.
Definition COLON : ascii := ":"%char.

(** ** JSON values, as [JSON.parse] produces them

    An object is the list of its properties in insertion order, the first
    entry of a name being the property ([assoc]); of the numbers only the
    whole ones are represented, the sources compute with none of them. *)

Inductive json : Type :=
| JNull
| JBool (b : bool)
| JNum (n : Z)
| JStr (s : string)
| JArr (items : list json)
| JObj (fields : list (string * json)).

(** The empty object literal. *)
Definition emptyObject : json := JObj [].

(** ToBoolean: what [x ? a : b], [!x] and [x || y] test. *)
Definition truthy (v : json) : bool :=
  match v with
  | JNull => false
  | JBool b => b
  | JNum n => negb (n =? 0)
  | JStr s => negb (String.eqb s EmptyString)
  | JArr _ | JObj _ => true
  end.

Fixpoint assoc (k : string) (fields : list (string * json)) : option json :=
  match fields with
  | [] => None
  | (k', v) :: rest => if String.eqb k k' then Some v else assoc k rest
  end.

(** ** Exceptions and mutable state *)

Inductive result (A : Type) : Type :=
| Ok (a : A)
| Throw (error : string).
Arguments Ok {A} a.
Arguments Throw {A} error.

(** Property read [data.k] on a parsed value: [None] is [undefined];
    reading a property of [null] throws a TypeError. *)
Definition getProp (data : json) (k : string) : result (option json) :=
  match data with
  | JNull => Throw ("TypeError: Cannot read properties of null (reading '" +:+ k +:+ "')")
  | JObj fields => Ok (assoc k fields)
  | _ => Ok None
  end.

(** [x === "s"] where [x] may be [undefined]. *)
Definition strictEquals (x : option json) (s : string) : bool :=
  match x with
  | Some (JStr v) => String.eqb v s
  | _ => false
  end.

(** [x || y] where [x] may be [undefined]. *)
Definition orElse (x : option json) (y : json) : json :=
  match x with
  | Some v => if truthy v then v else y
  | None => y
  end.

(** [Date] objects: a time value in milliseconds, or Invalid Date. *)
Inductive Date : Type :=
| ValidDate (ms : Z)
| InvalidDate.

(** ** Data model *)

(** [core/types/session.ts] ([Session]).  A message is the object that
    [addMessage] builds or that [load] parsed from a line of the file (the
    cast [data as SessionMessage] is unchecked), hence a JSON value. *)
Module Session.
Record t : Type := mk {
  key : string;
  messages : list json;
  createdAt : Date;
  updatedAt : Date;
  metadata : json;
}.
End Session.
Abbreviation Session := Session.t.

Module SessionInfo.
Record t : Type := mk {
  key : string;
  createdAt : option json;
  updatedAt : option json;
  path : string;
}.
End SessionInfo.
Abbreviation SessionInfo := SessionInfo.t.

(** [core/types/message.ts]. *)
Module InboundMessage.
Record t : Type := mk {
  channel : string;
  senderId : string;
  chatId : string;
  content : string;
  timestamp : Date;
  media : list string;
  metadata : json;
}.
End InboundMessage.
Abbreviation InboundMessage := InboundMessage.t.

Module OutboundMessage.
Record t : Type := mk {
  channel : string;
  chatId : string;
  content : string;
  media : list string;
  metadata : json;
}.
End OutboundMessage.
Abbreviation OutboundMessage := OutboundMessage.t.

(** [core/types/tool.ts] and [core/types/llm.ts]. *)
Module ToolCallRequest.
Record t : Type := mk {
  id : string;
  name : string;
  arguments : json;
}.
End ToolCallRequest.
Abbreviation ToolCallRequest := ToolCallRequest.t.

Module LLMResponse.
Record t : Type := mk {
  content : option string;
  toolCalls : list ToolCallRequest;
  finishReason : string;
  usage : Z * Z;
}.
End LLMResponse.
Abbreviation LLMResponse := LLMResponse.t.

(** The parts of the AI SDK's [CoreMessage] and [generateText] result that
    the sources read or build. *)
Inductive ContentPart : Type :=
| TextPart (text : string)
| ToolCallPart (toolCallId toolName : string) (args : json)
| ToolResultPart (toolCallId toolName : string) (result : string)
| OtherPart (payload : json).

Module CoreMessage.
Record t : Type := mk {
  role : string;
  content : string + list ContentPart;
}.
End CoreMessage.
Abbreviation CoreMessage := CoreMessage.t.

Module SdkToolCall.
Record t : Type := mk {
  toolCallId : string;
  toolName : string;
  args : json;
}.
End SdkToolCall.

Module SdkStep.
Record t : Type := mk { toolCalls : option (list SdkToolCall.t) }.
End SdkStep.

Module GenerateTextResult.
Record t : Type := mk {
  text : string;
  steps : list SdkStep.t;
  finishReason : string;
  usage : option (option Z * option Z);
}.
End GenerateTextResult.

(** What [getHistory] hands to the context builder: [m.role] and
    [m.content] of each stored message ([None] is [undefined]). *)
Module HistoryEntry.
Record t : Type := mk {
  role : option json;
  content : option json;
}.
End HistoryEntry.

(** [core/types/config.ts], the parts read by the provider and the loop. *)
Module ProviderConfig.
Record t : Type := mk { apiKey : string; apiBase : option string }.
End ProviderConfig.

Module BedrockConfig.
Record t : Type := mk {
  region : string;
  accessKeyId : option string;
  secretAccessKey : option string;
  sessionToken : option string;
}.
End BedrockConfig.

Module Config.
Record t : Type := mk {
  model : string;               (* agents.defaults.model *)
  maxTokens : Z;                (* agents.defaults.maxTokens *)
  temperature : Q;              (* agents.defaults.temperature *)
  maxToolIterations : Q;        (* agents.defaults.maxToolIterations *)
  anthropic : ProviderConfig.t; (* providers.* *)
  openai : ProviderConfig.t;
  openrouter : ProviderConfig.t;
  groq : ProviderConfig.t;
  google : ProviderConfig.t;
  bedrock : BedrockConfig.t;
}.
End Config.
Abbreviation Config := Config.t.

(** An entry of the sessions directory: a regular file with its text, or an
    entry that exists but cannot be read ([readFileSync] throws).  Failing
    writes are outside the model. *)
Inductive FsEntry : Type :=
| File (content : string)
| Unreadable.

(** The context that [setContext] stores in the message and spawn tools. *)
Module ToolContext.
Record t : Type := mk {
  defaultChannel : string;
  defaultChatId : string;
  defaultMetadata : json;
}.
End ToolContext.

(** ** The runtime and the collaborators outside the modelled files *)

Class Runtime : Type := {
  (** everything external that changes over time: the clock, the model
      provider, the channels, the workspace *)
  World : Type;
  LanguageModel : Type;
  (** [JSON.parse] ([None]: a SyntaxError is thrown) and [JSON.stringify] *)
  JSON_parse : string -> option json;
  JSON_stringify : json -> string;
  (** [new Date(value)]; [new Date()]: its time value and the world after
      the clock was read (two readings need not agree); [toISOString] of a
      valid date *)
  Date_of : json -> Date;
  Date_now : World -> Z * World;
  Date_toISO : Z -> string;
  (** [Array.prototype.sort] with a comparator *)
  Array_sort : forall A : Type, (A -> A -> result Z) -> list A -> result (list A);
  localeCompare : string -> string -> Z;
  (** [String(n)] of a number *)
  Number_toString : Z -> string;
  (** [join(homedir(), ".miniclawd", "sessions")] and [process.env] *)
  homeSessionsDir : string;
  process_env : string -> option string;
  (** the AI SDK: a provider factory applied to its settings and a model
      name, and [generateText] *)
  sdkModel : string -> list (string * option string) -> string -> result LanguageModel;
  generateText :
    LanguageModel -> list CoreMessage -> json -> Z -> Q -> World ->
    result GenerateTextResult.t * World;
  (** Modelled from the spec: the Context Builder ([agent/context-builder.ts]
      is not among the sources), [buildMessages(history, newContent, system?,
      media?)] returning the message list. *)
  buildMessages :
    list HistoryEntry.t -> string -> option string -> option (list string) ->
    World -> list CoreMessage * World;
  (** Modelled from the spec: the Tool Registry ([tools/registry.ts] is not
      among the sources).  [execute(name, args)] returns a text, a failure
      being converted into an error text rather than thrown; a tool may
      change the world and any file.  [getDefinitions()] is the schema list
      for the model. *)
  tools_execute :
    string -> json -> ToolContext.t -> string * string ->
    World -> gmap string FsEntry -> string * World * gmap string FsEntry;
  tools_getDefinitions : json;
}.

(** ** Agent state *)

Record AgentState `{Runtime} : Type := mkState {
  world : World;
  (** files, by path *)
  disk : gmap string FsEntry;
  (** [SessionManager.cache] *)
  cache : gmap string Session;
  (** the context of the registered message and spawn tools *)
  messageContext : ToolContext.t;
  spawnContext : string * string;
  (** ghost log: the responses that [AIProvider.chat] returned so far,
      oldest first *)
  chatLog : list LLMResponse;
}.
Arguments mkState {_} _ _ _ _ _ _.

Section Model.
Context `{RT : Runtime}.

(** Computations that read and write the agent state and may throw; the
    state reached when an exception is thrown is kept, as in JavaScript. *)
Definition M (A : Type) : Type := AgentState -> result A * AgentState.

Definition ret {A} (a : A) : M A := fun st => (Ok a, st).

Definition throw {A} (error : string) : M A := fun st => (Throw error, st).

Definition bind {A B} (m : M A) (k : A -> M B) : M B :=
  fun st =>
    match m st with
    | (Ok a, st') => k a st'
    | (Throw error, st') => (Throw error, st')
    end.

(** [try { body } catch (error) { handler }]. *)
Definition tryCatch {A} (body : M A) (handler : string -> M A) : M A :=
  fun st =>
    match body st with
    | (Ok a, st') => (Ok a, st')
    | (Throw error, st') => handler error st'
    end.

Definition get : M AgentState := fun st => (Ok st, st).

Definition modify (f : AgentState -> AgentState) : M unit :=
  fun st => (Ok tt, f st).

Definition lift {A} (r : result A) : M A := fun st => (r, st).

End Model.

Declare Scope agent_scope.
Delimit Scope agent_scope with agent.
Notation "'do' x <- m ; k" := (bind m (fun x => k))
  (at level 10, x name, m at level 100, k at level 200,
   format "'[v' 'do'  x  <-  m ; '/' k ']'") : agent_scope.
Notation "m ;; k" := (bind m (fun _ => k))
  (at level 100, k at level 200, right associativity) : agent_scope.

Local Open Scope agent_scope.

(** ** [src/utils/paths.ts] *)

Definition DQUOTE : ascii := ascii_of_nat 34.

(** The characters of the literal [unsafe] of [safeFilename]: less-than,
    greater-than, colon, double quote, slash, backslash, bar, question
    mark, star. *)
Definition unsafe : list ascii :=
  ["<"; ">"; ":"; DQUOTE; "/"; "\"; "|"; "?"; "*"]%char.

(** [safeFilename]: one character of [unsafe] after the other, every
    occurrence becomes ["_"]; the result is trimmed. *)
Definition safeFilename (name : string) : string :=
  JS.trim (fold_left (fun result char => JS.replaceAllChar result char "_") unsafe name).

(** [parseSessionKey]. *)
Definition parseSessionKey (key : string) : result (string * string) :=
  match JS.splitLimit key COLON 2 with
  | [p0; p1] => Ok (p0, p1)
  | _ => Throw ("Error: Invalid session key: " +:+ key)
  end.

(** ** [src/infrastructure/storage/session-store.ts] *)

Section SessionStore.
Context `{RT : Runtime}.

Definition setWorld (w : World) (st : AgentState) : AgentState :=
  mkState w (disk st) (cache st) (messageContext st) (spawnContext st) (chatLog st).

(** The time value of [new Date()]. *)
Definition now : M Z :=
  fun st => let '(t, w) := Date_now (world st) in (Ok t, setWorld w st).

(** [date.toISOString()]: a RangeError on an Invalid Date. *)
Definition toISOString (d : Date) : result string :=
  match d with
  | ValidDate ms => Ok (Date_toISO ms)
  | InvalidDate => Throw "RangeError: Invalid time value"
  end.

Definition setCache (f : gmap string Session -> gmap string Session) (st : AgentState) : AgentState :=
  mkState (world st) (disk st) (f (cache st)) (messageContext st) (spawnContext st) (chatLog st).

Definition setDisk (f : gmap string FsEntry -> gmap string FsEntry) (st : AgentState) : AgentState :=
  mkState (world st) (f (disk st)) (cache st) (messageContext st) (spawnContext st) (chatLog st).

Definition existsSync (path : string) (d : gmap string FsEntry) : bool :=
  bool_decide (is_Some (d !! path)).

Definition readFileSync (path : string) : M string :=
  fun st =>
    match disk st !! path with
    | Some (File content) => (Ok content, st)
    | Some Unreadable => (Throw ("Error: EACCES: permission denied, open '" +:+ path +:+ "'"), st)
    | None => (Throw ("Error: ENOENT: no such file or directory, open '" +:+ path +:+ "'"), st)
    end.

Definition writeFileSync (path content : string) : M unit :=
  modify (setDisk (fun d => <[path := File content]> d)).

Definition unlinkSync (path : string) : M unit :=
  modify (setDisk (fun d => delete path d)).

(** [createSession]. *)
Definition createSession (key : string) : M Session :=
  do created <- now;
  do updated <- now;
  ret (Session.mk key [] (ValidDate created) (ValidDate updated) emptyObject).

(** [{ ...obj, k: v }]: an existing property keeps its place. *)
Fixpoint setField (k : string) (v : json) (fields : list (string * json)) : list (string * json) :=
  match fields with
  | [] => [(k, v)]
  | (k', v') :: rest =>
      if String.eqb k k' then (k, v) :: rest else (k', v') :: setField k v rest
  end.

Definition spread (fields extras : list (string * json)) : list (string * json) :=
  fold_left (fun acc kv => setField (fst kv) (snd kv) acc) extras fields.

(** [addMessage]: the message object, and the session after the push.
    [t] and [u] are the time values of its two [new Date()] calls, for the
    timestamp and for [updatedAt]. *)
Definition newMessage (role content : string) (extras : list (string * json)) (t : Z) : json :=
  JObj (spread [("role", JStr role); ("content", JStr content);
                ("timestamp", JStr (Date_toISO t))] extras).

Definition addMessage (session : Session) (role content : string)
    (extras : list (string * json)) (t u : Z) : Session :=
  Session.mk (Session.key session)
    (Session.messages session ++ [newMessage role content extras t])
    (Session.createdAt session) (ValidDate u) (Session.metadata session).

(** [getHistory]: [{ role: m.role, content: m.content }] of each recent
    message; the property reads throw on a message that is [null]. *)
Definition historyEntry (m : json) : result HistoryEntry.t :=
  match getProp m "role", getProp m "content" with
  | Ok role, Ok content => Ok (HistoryEntry.mk role content)
  | Throw error, _ => Throw error
  | _, Throw error => Throw error
  end.

Fixpoint historyEntries (recent : list json) : result (list HistoryEntry.t) :=
  match recent with
  | [] => Ok []
  | m :: rest =>
      match historyEntry m with
      | Throw error => Throw error
      | Ok entry =>
          match historyEntries rest with
          | Throw error => Throw error
          | Ok entries => Ok (entry :: entries)
          end
      end
  end.

Definition getHistory (session : Session) (maxMessages : nat)
  : result (list HistoryEntry.t) :=
  let recent :=
    if (maxMessages <? List.length (Session.messages session))%nat
    then JS.sliceLast maxMessages (Session.messages session)
    else Session.messages session in
  historyEntries recent.

(** [clearSession]. *)
Definition clearSession (session : Session) (t : Z) : Session :=
  Session.mk (Session.key session) [] (Session.createdAt session) (ValidDate t)
    (Session.metadata session).

(** [SessionManager.getSessionPath]; [join] of a directory and a name
    without separators. *)
Definition pathJoin (dir name : string) : string := dir +:+ "/" +:+ name.

Definition getSessionPath (key : string) : string :=
  let safeKey := safeFilename (JS.replace key ":" "_") in
  pathJoin homeSessionsDir (safeKey +:+ ".jsonl").

(** The body of the [for (const line of lines)] loop of [load]. *)
Definition loadLine (acc : list json * json * option Date) (line : string)
  : result (list json * json * option Date) :=
  let '(messages, metadata, createdAt) := acc in
  match JSON_parse line with
  | None => Throw "SyntaxError: Unexpected token in JSON"
  | Some data =>
      match getProp data "_type" with
      | Throw error => Throw error
      | Ok type =>
          if strictEquals type "metadata" then
            (* [data] is an object here *)
            let md := match data with JObj f => assoc "metadata" f | _ => None end in
            let ca := match data with JObj f => assoc "createdAt" f | _ => None end in
            Ok (messages,
                orElse md emptyObject,
                match ca with
                | Some v => if truthy v then Some (Date_of v) else None
                | None => None
                end)
          else Ok (messages ++ [data], metadata, createdAt)
      end
  end.

Fixpoint loadLines (lines : list string) (acc : list json * json * option Date)
  : result (list json * json * option Date) :=
  match lines with
  | [] => Ok acc
  | line :: rest =>
      match loadLine acc line with
      | Ok acc' => loadLines rest acc'
      | Throw error => Throw error
      end
  end.

Definition nonBlank (line : string) : bool :=
  negb (String.eqb (JS.trim line) EmptyString).

(** [SessionManager.load]. *)
Definition load (key : string) : M (option Session) :=
  let path := getSessionPath key in
  do st <- get;
  if negb (existsSync path (disk st)) then ret None
  else
    tryCatch
      (do content <- readFileSync path;
       let lines := List.filter nonBlank (JS.split content LF) in
       do parsed <- lift (loadLines lines ([], emptyObject, None));
       let '(messages, metadata, createdAt) := parsed in
       do created <- match createdAt with
                     | Some d => ret d
                     | None => do t <- now; ret (ValidDate t)
                     end;
       do updated <- now;
       ret (Some (Session.mk key messages created (ValidDate updated) metadata)))
      (fun error => (* logger.warn *) ret None).

(** [SessionManager.getOrCreate]. *)
Definition getOrCreate (key : string) : M Session :=
  do st <- get;
  match cache st !! key with
  | Some cached => ret cached
  | None =>
      do loaded <- load key;
      do session <- match loaded with
                    | Some s => ret s
                    | None => createSession key
                    end;
      modify (setCache (fun c => <[key := session]> c));;
      ret session
  end.

(** The lines that [save] builds: the metadata object first, then the
    messages. *)
Definition metadataLine (session : Session) : result json :=
  match toISOString (Session.createdAt session) with
  | Throw error => Throw error
  | Ok created =>
      match toISOString (Session.updatedAt session) with
      | Throw error => Throw error
      | Ok updated =>
          Ok (JObj [("_type", JStr "metadata"); ("createdAt", JStr created);
                    ("updatedAt", JStr updated);
                    ("metadata", Session.metadata session)])
      end
  end.

(** [lines.join("\n") + "\n"]. *)
Definition fileText (lines : list string) : string :=
  JS.join lines (String LF EmptyString) +:+ String LF EmptyString.

Definition sessionText (session : Session) : result string :=
  match metadataLine session with
  | Throw error => Throw error
  | Ok meta =>
      Ok (fileText (JSON_stringify meta :: map JSON_stringify (Session.messages session)))
  end.

(** [SessionManager.save]. *)
Definition save (session : Session) : M unit :=
  let path := getSessionPath (Session.key session) in
  do text <- lift (sessionText session);
  writeFileSync path text;;
  modify (setCache (fun c => <[Session.key session := session]> c)).

(** [SessionManager.delete]. *)
Definition delete (key : string) : M bool :=
  modify (setCache (fun c => base.delete key c));;
  let path := getSessionPath key in
  do st <- get;
  if existsSync path (disk st) then unlinkSync path;; ret true
  else ret false.

(** [readdirSync(dir)]: the names of the entries directly inside [dir], in
    no specified order. *)
Definition entryName (dir path : string) : option string :=
  if JS.startsWith path (dir +:+ "/") then
    let name := JS.drop (String.length dir + 1) path in
    if JS.includes name "/" then None else Some name
  else None.

Definition readdirSync (dir : string) (d : gmap string FsEntry) : list string :=
  omap (fun kv => entryName dir (fst kv)) (map_to_list d).

(** The key that [listSessions] shows for a file name. *)
Definition listedKey (file : string) : string :=
  JS.replace (JS.replace file ".jsonl" EmptyString) "_" ":".

(** The body of the [for (const file of files)] loop of [listSessions]:
    the entry pushed, if any. *)
Definition sessionInfo (file : string) : M (option SessionInfo) :=
  let path := pathJoin homeSessionsDir file in
  tryCatch
    (do content <- readFileSync path;
     match JS.split content LF with
     | firstLine :: _ =>
         if String.eqb firstLine EmptyString then ret None
         else
           match JSON_parse firstLine with
           | None => throw "SyntaxError: Unexpected token in JSON"
           | Some data =>
               do type <- lift (getProp data "_type");
               if strictEquals type "metadata" then
                 match data with
                 | JObj f =>
                     ret (Some (SessionInfo.mk (listedKey file)
                                  (assoc "createdAt" f) (assoc "updatedAt" f) path))
                 | _ => ret None
                 end
               else ret None
           end
     | [] => ret None
     end)
    (fun _ => ret None).

Fixpoint sessionInfos (files : list string) : M (list SessionInfo) :=
  match files with
  | [] => ret []
  | file :: rest =>
      do info <- sessionInfo file;
      do infos <- sessionInfos rest;
      ret (match info with Some i => i :: infos | None => infos end)
  end.

(** [String(v)] of a parsed value, the conversion that [localeCompare]
    applies to its argument.  An array is its elements joined by commas,
    with the empty text for an element that is [null].  An object is the
    text [[object Object]]; when it has a property [toString] of its own,
    which after [JSON.parse] is no function, the conversion finds no
    primitive value and throws a TypeError. *)
Fixpoint toStringValue (v : json) : result string :=
  match v with
  | JNull => Ok "null"
  | JBool b => Ok (if b then "true" else "false")
  | JNum n => Ok (Number_toString n)
  | JStr s => Ok s
  | JArr items =>
      match
        (fix elements (items : list json) : result (list string) :=
           match items with
           | [] => Ok []
           | item :: rest =>
               match match item with
                     | JNull => Ok EmptyString
                     | _ => toStringValue item
                     end with
               | Throw error => Throw error
               | Ok text =>
                   match elements rest with
                   | Throw error => Throw error
                   | Ok texts => Ok (text :: texts)
                   end
               end
           end) items
      with
      | Throw error => Throw error
      | Ok texts => Ok (JS.join texts ",")
      end
  | JObj fields =>
      match assoc "toString" fields with
      | Some _ => Throw "TypeError: Cannot convert object to primitive value"
      | None => Ok "[object Object]"
      end
  end.

(** The comparator of the sort of [listSessions]: [aTime] and [bTime] are
    [a.updatedAt || ""] and [b.updatedAt || ""], the result is
    [bTime.localeCompare(aTime)].  The call is a TypeError when [bTime] is
    not a string, for only strings have the method; [aTime], the argument,
    is converted to a string. *)
Definition byUpdatedDesc (a b : SessionInfo) : result Z :=
  let aTime := orElse (SessionInfo.updatedAt a) (JStr EmptyString) in
  let bTime := orElse (SessionInfo.updatedAt b) (JStr EmptyString) in
  match bTime with
  | JStr s =>
      match toStringValue aTime with
      | Ok text => Ok (localeCompare s text)
      | Throw error => Throw error
      end
  | _ => Throw "TypeError: bTime.localeCompare is not a function"
  end.

(** [SessionManager.listSessions]. *)
Definition listSessions : M (list SessionInfo) :=
  do st <- get;
  let files := List.filter (fun f => JS.endsWith f ".jsonl")
                 (readdirSync homeSessionsDir (disk st)) in
  do sessions <- sessionInfos files;
  lift (Array_sort _ byUpdatedDesc sessions).

End SessionStore.

(** ** [src/infrastructure/llm/ai-sdk-provider.ts] *)

Module AIProvider.
Record t : Type := mk {
  config : Config;
  defaultModel : string;
}.
End AIProvider.
Abbreviation AIProvider := AIProvider.t.

Section Provider.
Context `{RT : Runtime}.

(** [s || d] on strings and on an optional string. *)
Definition strOr (s d : string) : string :=
  if String.eqb s EmptyString then d else s.

Definition optStrOr (s : option string) (d : string) : string :=
  match s with
  | Some v => strOr v d
  | None => d
  end.

(** [config.providers.p.apiKey || process.env.NAME]. *)
Definition keyOrEnv (apiKey envName : string) : option string :=
  if String.eqb apiKey EmptyString then process_env envName else Some apiKey.

Definition optOrEnv (v : option string) (envName : string) : option string :=
  match v with
  | Some s => keyOrEnv s envName
  | None => process_env envName
  end.

(** [new AIProvider(options)]. *)
Definition newAIProvider (config : Config) (defaultModel : option string) : AIProvider :=
  AIProvider.mk config (optStrOr defaultModel (Config.model config)).

(** [AIProvider.getProvider]. *)
Definition getProvider (self : AIProvider) (modelId : string) : result LanguageModel :=
  let cfg := AIProvider.config self in
  let parts :=
    if JS.includes modelId "/" then JS.split modelId "/"%char
    else ["anthropic"; modelId] in
  let providerName := match parts with p :: _ => p | [] => EmptyString end in
  let modelName := JS.join (List.tl parts) "/" in
  let name := JS.toLowerCase providerName in
  if String.eqb name "anthropic" then
    sdkModel "anthropic"
      [("apiKey", keyOrEnv (ProviderConfig.apiKey (Config.anthropic cfg)) "ANTHROPIC_API_KEY")]
      (strOr modelName "claude-sonnet-4-20250514")
  else if String.eqb name "openai" then
    sdkModel "openai"
      [("apiKey", keyOrEnv (ProviderConfig.apiKey (Config.openai cfg)) "OPENAI_API_KEY");
       ("baseURL", Some (optStrOr (ProviderConfig.apiBase (Config.openai cfg))
                           "https://api.openai.com/v1"))]
      (strOr modelName "gpt-4o")
  else if String.eqb name "openrouter" then
    sdkModel "openai"
      [("apiKey", keyOrEnv (ProviderConfig.apiKey (Config.openrouter cfg)) "OPENROUTER_API_KEY");
       ("baseURL", Some (optStrOr (ProviderConfig.apiBase (Config.openrouter cfg))
                           "https://openrouter.ai/api/v1"))]
      modelName
  else if String.eqb name "google" || String.eqb name "gemini" then
    sdkModel "google"
      [("apiKey", keyOrEnv (ProviderConfig.apiKey (Config.google cfg)) "GOOGLE_API_KEY")]
      (strOr modelName "gemini-2.0-flash")
  else if String.eqb name "bedrock" then
    sdkModel "amazon-bedrock"
      [("region", keyOrEnv (BedrockConfig.region (Config.bedrock cfg)) "AWS_REGION");
       ("accessKeyId", optOrEnv (BedrockConfig.accessKeyId (Config.bedrock cfg)) "AWS_ACCESS_KEY_ID");
       ("secretAccessKey",
        optOrEnv (BedrockConfig.secretAccessKey (Config.bedrock cfg)) "AWS_SECRET_ACCESS_KEY");
       ("sessionToken", optOrEnv (BedrockConfig.sessionToken (Config.bedrock cfg)) "AWS_SESSION_TOKEN")]
      (strOr modelName "anthropic.claude-3-5-sonnet-20241022-v2:0")
  else if String.eqb name "groq" then
    sdkModel "openai"
      [("apiKey", keyOrEnv (ProviderConfig.apiKey (Config.groq cfg)) "GROQ_API_KEY");
       ("baseURL", Some "https://api.groq.com/openai/v1")]
      (strOr modelName "llama-3.3-70b-versatile")
  else
    sdkModel "anthropic"
      [("apiKey", keyOrEnv (ProviderConfig.apiKey (Config.anthropic cfg)) "ANTHROPIC_API_KEY")]
      modelId.

(** The tool calls of all steps, in order. *)
Definition parseToolCalls (steps : list SdkStep.t) : list ToolCallRequest :=
  flat_map
    (fun step =>
       match SdkStep.toolCalls step with
       | Some tcs =>
           map (fun tc => ToolCallRequest.mk (SdkToolCall.toolCallId tc)
                            (SdkToolCall.toolName tc) (SdkToolCall.args tc)) tcs
       | None => []
       end)
    steps.

(** [n || 0] on an optional number. *)
Definition numOrZero (n : option Z) : Z :=
  match n with
  | Some v => v
  | None => 0
  end.

Definition sdkGenerate (provider : LanguageModel) (messages : list CoreMessage)
    (tools : json) (maxTokens : Z) (temperature : Q) : M GenerateTextResult.t :=
  fun st =>
    let '(r, w) := generateText provider messages tools maxTokens temperature (world st) in
    (r, mkState w (disk st) (cache st) (messageContext st) (spawnContext st) (chatLog st)).

Definition logResponse (response : LLMResponse) : M unit :=
  modify (fun st => mkState (world st) (disk st) (cache st) (messageContext st)
                      (spawnContext st) (chatLog st ++ [response])).

(** The response built in the [catch] block of [chat]. *)
Definition errorResponse (error : string) : LLMResponse :=
  LLMResponse.mk (Some ("Error calling LLM: " +:+ error)) [] "error" (0, 0).

(** [AIProvider.chat]: the three constants computed before the [try]
    block, the [try] block, then the whole body. *)
Definition resolveModel (self : AIProvider) (model : option string) : string :=
  optStrOr model (AIProvider.defaultModel self).

Definition resolveMaxTokens (self : AIProvider) (maxTokens : option Z) : Z :=
  match maxTokens with
  | Some n => if n =? 0 then Config.maxTokens (AIProvider.config self) else n
  | None => Config.maxTokens (AIProvider.config self)
  end.

Definition resolveTemperature (self : AIProvider) (temperature : option Q) : Q :=
  match temperature with
  | Some q => q
  | None => Config.temperature (AIProvider.config self)
  end.

(** [tools || {}]. *)
Definition toolsOrEmpty (tools : option json) : json :=
  match tools with
  | Some t => t
  | None => emptyObject
  end.

Definition chatTry (self : AIProvider) (messages : list CoreMessage) (tools : option json)
    (model : option string) (maxTokens : option Z) (temperature : option Q) : M LLMResponse :=
  do provider <- lift (getProvider self (resolveModel self model));
  do result <- sdkGenerate provider messages (toolsOrEmpty tools)
                 (resolveMaxTokens self maxTokens) (resolveTemperature self temperature);
  let toolCalls := parseToolCalls (GenerateTextResult.steps result) in
  ret (LLMResponse.mk
         (if String.eqb (GenerateTextResult.text result) EmptyString then None
          else Some (GenerateTextResult.text result))
         toolCalls
         (GenerateTextResult.finishReason result)
         (match GenerateTextResult.usage result with
          | Some (p, c) => (numOrZero p, numOrZero c)
          | None => (0, 0)
          end)).

Definition chatBody (self : AIProvider) (messages : list CoreMessage) (tools : option json)
    (model : option string) (maxTokens : option Z) (temperature : option Q) : M LLMResponse :=
  tryCatch (chatTry self messages tools model maxTokens temperature)
    (fun error => (* logger.error *) ret (errorResponse error)).

(** [AIProvider.chat], with the response it returns entered in the ghost
    log. *)
Definition chat (self : AIProvider) (messages : list CoreMessage) (tools : option json)
    (model : option string) (maxTokens : option Z) (temperature : option Q) : M LLMResponse :=
  do response <- chatBody self messages tools model maxTokens temperature;
  logResponse response;;
  ret response.

(** [AIProvider.hasToolCalls]. *)
Definition hasToolCalls (response : LLMResponse) : bool :=
  (0 <? List.length (LLMResponse.toolCalls response))%nat.

End Provider.

(** ** [src/tools/message.ts] *)

(** [createOutboundMessage] of [tools/message.ts]:
    [{ media: [], metadata: {}, ...partial }]. *)
Definition createOutboundMessage (channel chatId content : string)
    (media : option (list string)) (metadata : option json) : OutboundMessage :=
  OutboundMessage.mk channel chatId content
    (match media with Some m => m | None => [] end)
    (match metadata with Some m => m | None => emptyObject end).

Module MessageParams.
Record t : Type := mk {
  content : string;
  channel : option string;
  chat_id : option string;
}.
End MessageParams.

Section MessageTool.
Context `{RT : Runtime}.

(** A message tool: its send callback (or [null]) and its context. *)
Record MessageTool : Type := mkMessageTool {
  sendCallback : option (OutboundMessage -> M unit);
  context : ToolContext.t;
}.

(** [MessageTool.setContext]: [metadata || {}]. *)
Definition setContext (channel chatId : string) (metadata : option json) : ToolContext.t :=
  ToolContext.mk channel chatId (orElse metadata emptyObject).

(** [MessageTool.execute]. *)
Definition execute (self : MessageTool) (params : MessageParams.t) : M string :=
  let channel := optStrOr (MessageParams.channel params)
                   (ToolContext.defaultChannel (context self)) in
  let chatId := optStrOr (MessageParams.chat_id params)
                  (ToolContext.defaultChatId (context self)) in
  if String.eqb channel EmptyString || String.eqb chatId EmptyString then
    ret "Error: No target channel/chat specified"
  else
    match sendCallback self with
    | None => ret "Error: Message sending not configured"
    | Some callback =>
        let msg := createOutboundMessage channel chatId (MessageParams.content params)
                     None (Some (ToolContext.defaultMetadata (context self))) in
        tryCatch
          (callback msg;;
           ret ("Message sent to " +:+ channel +:+ ":" +:+ chatId))
          (fun error => ret ("Error sending message: " +:+ error))
    end.

End MessageTool.

(** ** [src/agent/loop.ts] *)

Module AgentLoop.
Record t : Type := mk {
  provider : AIProvider;
  model : string;
  maxIterations : Q;
}.
End AgentLoop.
Abbreviation AgentLoop := AgentLoop.t.

(** [src/infrastructure/queue/events.ts], which the loop imports and which
    is not among the sources. *)
Module Events.

(** Modelled from the spec: [getSessionKey]; the session key of an inbound
    message is [channel:chatId]. *)
Definition getSessionKey (msg : InboundMessage) : string :=
  InboundMessage.channel msg +:+ ":" +:+ InboundMessage.chatId msg.

(** Modelled from the spec: [createOutboundMessage]; the media and the
    metadata of an outbound message default to empty, as in the function of
    the same name of [tools/message.ts]. *)
Definition createOutboundMessage (channel chatId content : string)
    (media : option (list string)) (metadata : option json) : OutboundMessage :=
  OutboundMessage.mk channel chatId content
    (match media with Some m => m | None => [] end)
    (match metadata with Some m => m | None => emptyObject end).

End Events.

(** The fallback answers of [processMessage] and [processSystemMessage]. *)
Definition noResponseFallback : string :=
  "I've completed processing but have no response to give.".

Definition backgroundFallback : string := "Background task completed.".

Section Agent.
Context `{RT : Runtime}.

(** [new AgentLoop(options)]: [options.model || config...model] and
    [options.maxIterations || config...maxToolIterations]. *)
Definition newAgentLoop (config : Config) (model : option string)
    (maxIterations : option Q) : AgentLoop :=
  AgentLoop.mk (newAIProvider config model)
    (optStrOr model (Config.model config))
    (match maxIterations with
     | Some n => if Qeq_bool n 0 then Config.maxToolIterations config else n
     | None => Config.maxToolIterations config
     end).

Definition contextBuild (history : list HistoryEntry.t) (content : string)
    (media : option (list string)) : M (list CoreMessage) :=
  fun st =>
    let '(messages, w) := buildMessages history content None media (world st) in
    (Ok messages,
     mkState w (disk st) (cache st) (messageContext st) (spawnContext st) (chatLog st)).

(** [this.tools.execute(name, args)]. *)
Definition toolsExecute (name : string) (args : json) : M string :=
  fun st =>
    let '(text, w, d) :=
      tools_execute name args (messageContext st) (spawnContext st) (world st) (disk st) in
    (Ok text, mkState w d (cache st) (messageContext st) (spawnContext st) (chatLog st)).

(** [messageTool.setContext] and [spawnTool.setContext] on the registered
    tools. *)
Definition setToolContexts (channel chatId : string) (metadata : json) : M unit :=
  modify (fun st => mkState (world st) (disk st) (cache st)
                      (setContext channel chatId (Some metadata))
                      (channel, chatId) (chatLog st)).

(** The assistant message pushed for a response with tool calls. *)
Definition assistantMessage (response : LLMResponse) : CoreMessage :=
  let toolCallParts :=
    map (fun tc => ToolCallPart (ToolCallRequest.id tc) (ToolCallRequest.name tc)
                     (ToolCallRequest.arguments tc))
      (LLMResponse.toolCalls response) in
  CoreMessage.mk "assistant"
    (inr (match LLMResponse.content response with
          | Some text => if String.eqb text EmptyString then [] else [TextPart text]
          | None => []
          end ++ toolCallParts)).

(** [for (const toolCall of response.toolCalls)]: the calls run one after
    the other, each result is pushed as a tool message. *)
Fixpoint executeToolCalls (toolCalls : list ToolCallRequest)
    (messages : list CoreMessage) : M (list CoreMessage) :=
  match toolCalls with
  | [] => ret messages
  | toolCall :: rest =>
      do result <- toolsExecute (ToolCallRequest.name toolCall)
                     (ToolCallRequest.arguments toolCall);
      executeToolCalls rest
        (messages ++
         [CoreMessage.mk "tool"
            (inr [ToolResultPart (ToolCallRequest.id toolCall)
                    (ToolCallRequest.name toolCall) result])])
  end.

(** [while (iteration < this.maxIterations)]: the value is [finalContent]
    when the loop is left.  The loops of [processMessage] and of
    [processSystemMessage] are the same text.  The counter is a whole
    number, the cap any (finite) number: the schema of the configuration
    asks for [z.number()]. *)
Equations turnLoop (self : AgentLoop) (iteration : Z) (messages : list CoreMessage)
  : M (option string)
  by wf (Z.to_nat (Qceiling (AgentLoop.maxIterations self) - iteration)) lt :=
turnLoop self iteration messages
  with Qlt_le_dec (inject_Z iteration) (AgentLoop.maxIterations self) := {
  | left _ =>
      do response <- chat (AgentLoop.provider self) messages
                       (Some tools_getDefinitions) (Some (AgentLoop.model self)) None None;
      if hasToolCalls response then
        do messages' <- executeToolCalls (LLMResponse.toolCalls response)
                          (messages ++ [assistantMessage response]);
        turnLoop self (iteration + 1) messages'
      else
        ret (LLMResponse.content response)
  | right _ => ret None
  }.
Next Obligation.
  assert (H : iteration < Qceiling (AgentLoop.maxIterations self)).
  { rewrite Zlt_Qlt. eapply Qlt_le_trans; [eassumption|apply Qle_ceiling]. }
  lia.
Qed.

(** The session object obtained from [getOrCreate(slot)] is the one the
    cache holds under [slot]: a mutation of it is seen through the cache. *)
Definition mutateCached (slot : string) (session : Session) : M unit :=
  modify (setCache (fun c => <[slot := session]> c)).

(** The end of both turn functions: the two [addMessage] calls and
    [save]. *)
Definition persistTurn (sessionKey : string) (session : Session)
    (userContent finalContent : string) : M unit :=
  do t1 <- now;
  do u1 <- now;
  let session1 := addMessage session "user" userContent [] t1 u1 in
  mutateCached sessionKey session1;;
  do t2 <- now;
  do u2 <- now;
  let session2 := addMessage session1 "assistant" finalContent [] t2 u2 in
  mutateCached sessionKey session2;;
  save session2.

(** [AgentLoop.processSystemMessage]. *)
Definition parseOrigin (chatId : string) : string * string :=
  if JS.includes chatId ":" then
    match JS.splitLimit chatId COLON 2 with
    | [p0; p1] => (p0, p1)
    | _ => ("cli", chatId)
    end
  else ("cli", chatId).

Definition processSystemMessage (self : AgentLoop) (msg : InboundMessage)
  : M (option OutboundMessage) :=
  let '(originChannel, originChatId) := parseOrigin (InboundMessage.chatId msg) in
  let sessionKey := originChannel +:+ ":" +:+ originChatId in
  do session <- getOrCreate sessionKey;
  setToolContexts originChannel originChatId (InboundMessage.metadata msg);;
  do history <- lift (getHistory session 50);
  do messages <- contextBuild history (InboundMessage.content msg) None;
  do final <- turnLoop self 0 messages;
  let finalContent := match final with Some c => c | None => backgroundFallback end in
  persistTurn sessionKey session
    ("[System: " +:+ InboundMessage.senderId msg +:+ "] " +:+ InboundMessage.content msg)
    finalContent;;
  ret (Some (Events.createOutboundMessage originChannel originChatId finalContent None None)).

(** [AgentLoop.processMessage]. *)
Definition processMessage (self : AgentLoop) (msg : InboundMessage)
  : M (option OutboundMessage) :=
  if String.eqb (InboundMessage.channel msg) "system" then processSystemMessage self msg
  else
    let sessionKey := Events.getSessionKey msg in
    do session <- getOrCreate sessionKey;
    setToolContexts (InboundMessage.channel msg) (InboundMessage.chatId msg)
      (InboundMessage.metadata msg);;
    do history <- lift (getHistory session 50);
    do messages <- contextBuild history (InboundMessage.content msg)
                     (Some (InboundMessage.media msg));
    do final <- turnLoop self 0 messages;
    let finalContent := match final with Some c => c | None => noResponseFallback end in
    persistTurn sessionKey session (InboundMessage.content msg) finalContent;;
    ret (Some (Events.createOutboundMessage (InboundMessage.channel msg)
                 (InboundMessage.chatId msg) finalContent None
                 (Some (InboundMessage.metadata msg)))).

(** [AgentLoop.processDirect]: [sessionKey] is not used in the body. *)
Definition processDirect (self : AgentLoop) (content : string) (sessionKey : string)
  : M string :=
  do t <- now;
  let msg := InboundMessage.mk "cli" "user" "direct" content (ValidDate t) [] emptyObject in
  do response <- processMessage self msg;
  ret (match response with
       | Some r => strOr (OutboundMessage.content r) EmptyString
       | None => EmptyString
       end).

End Agent.

(** ** Vocabulary of the properties *)

Definition isValidDate (d : Date) : bool :=
  match d with
  | ValidDate _ => true
  | InvalidDate => false
  end.

Definition isString (v : option json) : bool :=
  match v with
  | Some (JStr _) => true
  | _ => false
  end.

(** Modelled from the spec: the type [SessionMessage] of
    [core/types/session.ts], which is not among the sources: an object with
    a role, a content and a timestamp (and optional tool-call fields); it has
    no property [_type]. *)
Definition isSessionMessage (m : json) : bool :=
  match m with
  | JObj fields =>
      isString (assoc "role" fields) && isString (assoc "content" fields)
      && isString (assoc "timestamp" fields)
      && negb (bool_decide (is_Some (assoc "_type" fields)))
  | _ => false
  end.

Definition isObject (v : json) : bool :=
  match v with
  | JObj _ => true
  | _ => false
  end.

(** [s] has no occurrence of the character [c]. *)
Fixpoint lacks (c : ascii) (s : string) : bool :=
  match s with
  | EmptyString => true
  | String d s' => negb (Ascii.eqb d c) && lacks c s'
  end.

Definition noLineFeed (s : string) : bool := lacks LF s.

(** The operations of [session-store.ts] on a session object. *)
Inductive SessionOp : Type :=
| OpAddMessage (role content : string) (extras : list (string * json))
| OpGetHistory (maxMessages : nat)
| OpClearSession.

Section Properties.
Context `{RT : Runtime}.

(** The session that [createSession] builds in the world [w], with the
    world after its two clock readings. *)
Definition freshSession (key : string) (w : World) : Session * World :=
  let '(created, w1) := Date_now w in
  let '(updated, w2) := Date_now w1 in
  (Session.mk key [] (ValidDate created) (ValidDate updated) emptyObject, w2).

(** What the loop of [load] computes from the text of a file, and the
    session that [load] makes of it in the world [w]: the clock is read for
    [updatedAt], and before that for [createdAt] when the file gave none. *)
Definition readRecord (content : string) : result (list json * json * option Date) :=
  loadLines (List.filter nonBlank (JS.split content LF)) ([], emptyObject, None).

Definition loadedSession (key : string) (parsed : list json * json * option Date)
    (w : World) : Session * World :=
  let '(messages, metadata, createdAt) := parsed in
  match createdAt with
  | Some d =>
      let '(updated, w1) := Date_now w in
      (Session.mk key messages d (ValidDate updated) metadata, w1)
  | None =>
      let '(created, w1) := Date_now w in
      let '(updated, w2) := Date_now w1 in
      (Session.mk key messages (ValidDate created) (ValidDate updated) metadata, w2)
  end.

(** The session after an operation ([getHistory] only reads); [t] and [u]
    are the clock readings of the operation. *)
Definition applyOp (op : SessionOp) (session : Session) (t u : Z) : Session :=
  match op with
  | OpAddMessage role content extras => addMessage session role content extras t u
  | OpGetHistory _ => session
  | OpClearSession => clearSession session u
  end.

(** What is asked of [JSON.stringify] and [JSON.parse] on one value: the
    text is one non-blank line and parses back to the value. *)
Definition codecOk (v : json) : Prop :=
  JSON_parse (JSON_stringify v) = Some v
  /\ noLineFeed (JSON_stringify v) = true
  /\ nonBlank (JSON_stringify v) = true.

(** The session that [getOrCreate] returns when the cache has no entry for
    the key, with the world afterwards: the one read from the file if it
    can be read and every line is accepted, a fresh one otherwise. *)
Definition resolved (key : string) (st : AgentState) : Session * World :=
  match disk st !! getSessionPath key with
  | Some (File content) =>
      match readRecord content with
      | Ok parsed => loadedSession key parsed (world st)
      | Throw _ => freshSession key (world st)
      end
  | _ => freshSession key (world st)
  end.

(** The session that [getOrCreate] returns for [key] in [st]. *)
Definition sessionOf (key : string) (st : AgentState) : Session :=
  match cache st !! key with
  | Some cached => cached
  | None => fst (resolved key st)
  end.

(** A session that a turn can work on.  No stored message is [null]
    ([getHistory] reads [m.role]; [load] never stores [null], [addMessage]
    stores an object), and the creation date is a valid date: [save] calls
    [toISOString] on it, which throws on an Invalid Date, and [load] keeps
    the date that [new Date] makes of the [createdAt] of the file, also
    when that is an Invalid Date. *)
Definition usable (session : Session) : Prop :=
  isValidDate (Session.createdAt session) = true
  /\ Forall (fun m => m <> JNull) (Session.messages session).

Definition usableAt (key : string) (st : AgentState) : Prop :=
  usable (sessionOf key st).

(** The target of a message-tool call. *)
Definition messageTarget (self : MessageTool) (params : MessageParams.t) : string * string :=
  (optStrOr (MessageParams.channel params) (ToolContext.defaultChannel (context self)),
   optStrOr (MessageParams.chat_id params) (ToolContext.defaultChatId (context self))).

(** A session as the data model types it. *)
Definition wellTyped (session : Session) : Prop :=
  isValidDate (Session.createdAt session) = true
  /\ isValidDate (Session.updatedAt session) = true
  /\ isObject (Session.metadata session) = true
  /\ Forall (fun m => isSessionMessage m = true) (Session.messages session).

(** A message that [load] takes for a message when it reads it back: not
    [null], on which [data._type] throws, and not tagged as the metadata
    record. *)
Definition storable (m : json) : bool :=
  match getProp m "_type" with
  | Ok type => negb (strictEquals type "metadata")
  | Throw _ => false
  end.

(** The records of a session file as values: the metadata record, if the
    file begins with one, then the messages.  A metadata record is an
    object whose [_type] is the text [metadata]; a message is any value that
    is neither [null] nor such an object. *)
Definition recordValues (meta : option (list (string * json))) (msgs : list json)
  : list json :=
  match meta with
  | Some fields => JObj fields :: msgs
  | None => msgs
  end.

Definition isMetadataRecord (meta : option (list (string * json))) : Prop :=
  match meta with
  | Some fields => assoc "_type" fields = Some (JStr "metadata")
  | None => True
  end.

Definition isMessageValue (v : json) : Prop :=
  v <> JNull
  /\ forall fields, v = JObj fields -> assoc "_type" fields <> Some (JStr "metadata").

(** The metadata and the creation date that a metadata record gives to the
    session: [metadata], or the empty object when it is missing or falsy,
    and [new Date(createdAt)] when [createdAt] is there and not falsy. *)
Definition fileMetadata (meta : option (list (string * json))) : json :=
  match meta with
  | Some fields =>
      match assoc "metadata" fields with
      | Some md => if truthy md then md else emptyObject
      | None => emptyObject
      end
  | None => emptyObject
  end.

Definition fileCreatedAt (meta : option (list (string * json))) : option Date :=
  match meta with
  | Some fields =>
      match assoc "createdAt" fields with
      | Some created => if truthy created then Some (Date_of created) else None
      | None => None
      end
  | None => None
  end.

(** A session that [save] can write and [load] can tell apart from its
    metadata record: both dates are valid ([toISOString]), the metadata is
    not replaced by the default of [data.metadata || {}], and every message
    is storable. *)
Definition writable (session : Session) : Prop :=
  isValidDate (Session.createdAt session) = true
  /\ isValidDate (Session.updatedAt session) = true
  /\ truthy (Session.metadata session) = true
  /\ Forall (fun m => storable m = true) (Session.messages session).

(** The session key that a turn on [msg] works on. *)
Definition turnSessionKey (msg : InboundMessage) : string :=
  if String.eqb (InboundMessage.channel msg) "system" then
    let '(originChannel, originChatId) := parseOrigin (InboundMessage.chatId msg) in
    originChannel +:+ ":" +:+ originChatId
  else Events.getSessionKey msg.

(** Per kind of inbound message: the content of the user entry that the
    turn stores, the fallback answer, and the outbound message that carries
    an answer. *)
Definition isSystem (msg : InboundMessage) : bool :=
  String.eqb (InboundMessage.channel msg) "system".

Definition userEntry (msg : InboundMessage) : string :=
  if isSystem msg then
    "[System: " +:+ InboundMessage.senderId msg +:+ "] " +:+ InboundMessage.content msg
  else InboundMessage.content msg.

Definition fallbackOf (msg : InboundMessage) : string :=
  if isSystem msg then backgroundFallback else noResponseFallback.

Definition replyTo (msg : InboundMessage) (answer : string) : OutboundMessage :=
  if isSystem msg then
    Events.createOutboundMessage (fst (parseOrigin (InboundMessage.chatId msg)))
      (snd (parseOrigin (InboundMessage.chatId msg))) answer None None
  else
    Events.createOutboundMessage (InboundMessage.channel msg) (InboundMessage.chatId msg)
      answer None (Some (InboundMessage.metadata msg)).

(** Inbound messages processed one at a time. *)
Fixpoint processSequence (self : AgentLoop) (msgs : list InboundMessage)
  : M (list (option OutboundMessage)) :=
  match msgs with
  | [] => ret []
  | msg :: rest =>
      do out <- processMessage self msg;
      do outs <- processSequence self rest;
      ret (out :: outs)
  end.

(** The number of passes that the loop of a turn allows: the least whole
    number that is not below [maxIterations], none if that is negative. *)
Definition iterationCap (self : AgentLoop) : nat :=
  Z.to_nat (Qceiling (AgentLoop.maxIterations self)).

(** The session after the two [addMessage] calls of a turn; [times] are the
    four clock readings, a timestamp and an [updatedAt] per call. *)
Definition withTurn (session : Session) (userContent answer : string)
    (times : Z * Z * Z * Z) : Session :=
  let '(t1, u1, t2, u2) := times in
  addMessage (addMessage session "user" userContent [] t1 u1) "assistant" answer [] t2 u2.

(** The entry that a turn stores for a role: the object with the
    properties [role], [content] and [timestamp], in this order. *)
Definition turnEntry (role content : string) (t : Z) : json :=
  JObj [("role", JStr role); ("content", JStr content);
        ("timestamp", JStr (Date_toISO t))].

(** The entries that the turns on [msgs] append when their answers are
    [outs]: per turn the inbound content as user, then the content of the
    outbound message as assistant; [times] are the clock readings of each
    turn. *)
Fixpoint appended (msgs : list InboundMessage) (outs : list OutboundMessage)
    (times : list (Z * Z * Z * Z)) : list json :=
  match msgs, outs, times with
  | msg :: msgs', out :: outs', (t1, _, t2, _) :: times' =>
      turnEntry "user" (InboundMessage.content msg) t1
      :: turnEntry "assistant" (OutboundMessage.content out) t2
      :: appended msgs' outs' times'
  | _, _, _ => []
  end.

(** The record that [save] writes on the first line of a file, and the
    text of a file with the given lines: each line is followed by a line
    feed. *)
Definition metadataRecord (created updated : Z) (metadata : json) : list (string * json) :=
  [("_type", JStr "metadata"); ("createdAt", JStr (Date_toISO created));
   ("updatedAt", JStr (Date_toISO updated)); ("metadata", metadata)].

Definition linesText (lines : list string) : string :=
  JS.join lines (String LF EmptyString) +:+ String LF EmptyString.

(** The cache holds a session under its own key: true of the empty cache
    and kept by every operation of the session manager. *)
Definition cacheConsistent (st : AgentState) : Prop :=
  forall key session, cache st !! key = Some session -> Session.key session = key.

(** The shape that [processMessage] and [processSystemMessage] share: the
    session of [sessionKey], the tool contexts, the context builder, the
    loop, the two entries and [save], the outbound message. *)
Definition turn (self : AgentLoop) (sessionKey channel chatId : string) (metadata : json)
    (content : string) (media : option (list string)) (userContent fallback : string)
    (outMetadata : option json) : M (option OutboundMessage) :=
  do session <- getOrCreate sessionKey;
  setToolContexts channel chatId metadata;;
  do history <- lift (getHistory session 50);
  do messages <- contextBuild history content media;
  do final <- turnLoop self 0 messages;
  let finalContent := match final with Some c => c | None => fallback end in
  persistTurn sessionKey session userContent finalContent;;
  ret (Some (Events.createOutboundMessage channel chatId finalContent None outMetadata)).

End Properties.

(** ** A reference runtime

    A concrete instance of [Runtime] on which the model runs: a compact JSON
    printer with its parser, a clock that counts in milliseconds, a stable
    insertion sort, and a scripted model provider. *)

Module Ref.

(** *** JSON text *)

Definition digitChar (d : Z) : ascii := ascii_of_nat (48 + Z.to_nat d).

Fixpoint digitsOf (fuel : nat) (n : Z) (acc : string) : string :=
  match fuel with
  | O => acc
  | S fuel' =>
      let acc' := String (digitChar (n mod 10)) acc in
      if n / 10 =? 0 then acc' else digitsOf fuel' (n / 10) acc'
  end.

Definition printZ (n : Z) : string :=
  if n <? 0 then "-" +:+ digitsOf (S (Z.to_nat (Z.log2 (- n)))) (- n) EmptyString
  else digitsOf (S (Z.to_nat (Z.log2 n))) n EmptyString.

Definition quote : string := String DQUOTE EmptyString.

Fixpoint escape (s : string) : string :=
  match s with
  | EmptyString => EmptyString
  | String c s' =>
      (if Ascii.eqb c DQUOTE then "\" +:+ quote
       else if Ascii.eqb c "\" then "\\"
       else if Ascii.eqb c LF then "\n"
       else String c EmptyString) +:+ escape s'
  end.

Definition printString (s : string) : string := quote +:+ escape s +:+ quote.

Fixpoint stringify (v : json) : string :=
  match v with
  | JNull => "null"
  | JBool true => "true"
  | JBool false => "false"
  | JNum n => printZ n
  | JStr s => printString s
  | JArr items => "[" +:+ JS.join (map stringify items) "," +:+ "]"
  | JObj fields =>
      "{" +:+ JS.join (map (fun kv => printString (fst kv) +:+ ":" +:+ stringify (snd kv)) fields) ","
      +:+ "}"
  end.

Definition isDigit (c : ascii) : bool :=
  let n := nat_of_ascii c in (48 <=? n)%nat && (n <=? 57)%nat.

Fixpoint skipSpace (s : string) : string :=
  match s with
  | String c s' => if JS.is_whitespace c then skipSpace s' else s
  | EmptyString => EmptyString
  end.

Fixpoint readDigits (s : string) (acc : Z) : Z * string :=
  match s with
  | String c s' =>
      if isDigit c then readDigits s' (10 * acc + (Z.of_nat (nat_of_ascii c) - 48))
      else (acc, s)
  | EmptyString => (acc, s)
  end.

(** The characters of a string literal after its opening quote. *)
Fixpoint readString (s : string) : option (string * string) :=
  match s with
  | EmptyString => None
  | String c s' =>
      if Ascii.eqb c DQUOTE then Some (EmptyString, s')
      else if Ascii.eqb c "\" then
        match s' with
        | String e s'' =>
            let put (d : ascii) :=
              match readString s'' with
              | Some (t, rest) => Some (String d t, rest)
              | None => None
              end in
            if Ascii.eqb e "n" then put LF
            else if Ascii.eqb e DQUOTE then put DQUOTE
            else if Ascii.eqb e "\" then put "\"%char
            else if Ascii.eqb e "/" then put "/"%char
            else None
        | EmptyString => None
        end
      else if Ascii.eqb c LF then None
      else match readString s' with
           | Some (t, rest) => Some (String c t, rest)
           | None => None
           end
  end.

Definition expect (c : ascii) (s : string) : option string :=
  match skipSpace s with
  | String d s' => if Ascii.eqb c d then Some s' else None
  | EmptyString => None
  end.

Fixpoint readValue (fuel : nat) (s : string) : option (json * string) :=
  match fuel with
  | O => None
  | S fuel' =>
      let fix readItems (n : nat) (s : string) (acc : list json) : option (list json * string) :=
        match n with
        | O => None
        | S n' =>
            match readValue fuel' s with
            | None => None
            | Some (v, rest) =>
                match skipSpace rest with
                | String "," rest' => readItems n' rest' (acc ++ [v])
                | String "]" rest' => Some (acc ++ [v], rest')
                | _ => None
                end
            end
        end in
      let fix readFields (n : nat) (s : string) (acc : list (string * json))
        : option (list (string * json) * string) :=
        match n with
        | O => None
        | S n' =>
            match expect DQUOTE s with
            | None => None
            | Some s1 =>
                match readString s1 with
                | None => None
                | Some (k, s2) =>
                    match expect ":" s2 with
                    | None => None
                    | Some s3 =>
                        match readValue fuel' s3 with
                        | None => None
                        | Some (v, rest) =>
                            match skipSpace rest with
                            | String "," rest' => readFields n' rest' (acc ++ [(k, v)])
                            | String "}" rest' => Some (acc ++ [(k, v)], rest')
                            | _ => None
                            end
                        end
                    end
                end
            end
        end in
      match skipSpace s with
      | EmptyString => None
      | String c s' =>
          if Ascii.eqb c DQUOTE then
            match readString s' with
            | Some (t, rest) => Some (JStr t, rest)
            | None => None
            end
          else if Ascii.eqb c "[" then
            match skipSpace s' with
            | String "]" rest => Some (JArr [], rest)
            | _ =>
                match readItems (String.length s') s' [] with
                | Some (items, rest) => Some (JArr items, rest)
                | None => None
                end
            end
          else if Ascii.eqb c "{" then
            match skipSpace s' with
            | String "}" rest => Some (JObj [], rest)
            | _ =>
                match readFields (String.length s') s' [] with
                | Some (fields, rest) => Some (JObj fields, rest)
                | None => None
                end
            end
          else if Ascii.eqb c "-" then
            match s' with
            | String d _ =>
                if isDigit d then let '(n, rest) := readDigits s' 0 in Some (JNum (- n), rest)
                else None
            | EmptyString => None
            end
          else if isDigit c then
            let '(n, rest) := readDigits (String c s') 0 in Some (JNum n, rest)
          else if String.prefix "null" (String c s') then Some (JNull, JS.drop 4 (String c s'))
          else if String.prefix "true" (String c s') then Some (JBool true, JS.drop 4 (String c s'))
          else if String.prefix "false" (String c s') then Some (JBool false, JS.drop 5 (String c s'))
          else None
      end
  end.

Definition parse (text : string) : option json :=
  match readValue (S (String.length text)) text with
  | Some (v, rest) =>
      match skipSpace rest with
      | EmptyString => Some v
      | _ => None
      end
  | None => None
  end.

(** *** Dates: the ISO text of a time value is its decimal numeral here *)

Definition dateOf (v : json) : Date :=
  match v with
  | JNum n => ValidDate n
  | JStr s =>
      match parse s with
      | Some (JNum n) => ValidDate n
      | _ => InvalidDate
      end
  | JBool true => ValidDate 1
  | _ => InvalidDate
  end.

(** *** Sorting *)

Section Sort.
Context {A : Type} (cmp : A -> A -> result Z).

Fixpoint insertSorted (x : A) (l : list A) : result (list A) :=
  match l with
  | [] => Ok [x]
  | y :: rest =>
      match cmp x y with
      | Throw error => Throw error
      | Ok c =>
          if c <? 0 then Ok (x :: y :: rest)
          else match insertSorted x rest with
               | Ok rest' => Ok (y :: rest')
               | Throw error => Throw error
               end
      end
  end.

Fixpoint sortWith (l : list A) : result (list A) :=
  match l with
  | [] => Ok []
  | x :: rest =>
      match sortWith rest with
      | Ok sorted => insertSorted x sorted
      | Throw error => Throw error
      end
  end.

End Sort.

Definition compareStrings (a b : string) : Z :=
  match String.compare a b with
  | Lt => -1
  | Eq => 0
  | Gt => 1
  end.

(** *** The world: a clock and the scripted answers of the model *)

Record world : Type := mkWorld {
  clock : Z;
  script : list (result GenerateTextResult.t);
}.

Definition generate (w : world) : result GenerateTextResult.t * world :=
  match script w with
  | r :: rest => (r, mkWorld (clock w + 1) rest)
  | [] => (Ok (GenerateTextResult.mk "done" [] "stop" None), mkWorld (clock w + 1) [])
  end.

Definition runtime : Runtime := {|
  World := world;
  LanguageModel := string;
  JSON_parse := parse;
  JSON_stringify := stringify;
  Date_of := dateOf;
  Date_now := fun w => (clock w, mkWorld (clock w + 1) (script w));
  Date_toISO := printZ;
  Array_sort := fun A cmp l => sortWith cmp l;
  localeCompare := compareStrings;
  Number_toString := printZ;
  homeSessionsDir := "/home/user/.miniclawd/sessions";
  process_env := fun _ => None;
  sdkModel := fun _ _ name => Ok name;
  generateText := fun _ _ _ _ _ w => generate w;
  buildMessages := fun _ content _ _ w => ([CoreMessage.mk "user" (inl content)], w);
  tools_execute := fun name _ _ _ w d => ("Error: Tool '" +:+ name +:+ "' not found", w, d);
  tools_getDefinitions := emptyObject;
|}.

(** *** Sample data *)

Definition config : Config :=
  Config.mk "anthropic/claude-sonnet-4" 8192 (7 # 10) (20 # 1)
    (ProviderConfig.mk "k" None) (ProviderConfig.mk EmptyString None)
    (ProviderConfig.mk EmptyString None) (ProviderConfig.mk EmptyString None)
    (ProviderConfig.mk EmptyString None)
    (BedrockConfig.mk "us-east-1" None None None).

(** An answer of the model that asks for one tool call, and a final one. *)
Definition toolAnswer : result GenerateTextResult.t :=
  Ok (GenerateTextResult.mk EmptyString
        [SdkStep.mk (Some [SdkToolCall.mk "call_1" "list_dir" (JObj [("path", JStr ".")])])]
        "tool-calls" None).

Definition textAnswer (text : string) : result GenerateTextResult.t :=
  Ok (GenerateTextResult.mk text [] "stop" None).

Definition state (w : world) (d : gmap string FsEntry) (c : gmap string Session)
  : @AgentState runtime :=
  @mkState runtime w d c (ToolContext.mk EmptyString EmptyString emptyObject)
    (EmptyString, EmptyString) [].

Definition inbound (channel chatId content : string) (metadata : json) : InboundMessage :=
  InboundMessage.mk channel "user" chatId content (ValidDate 0) [] metadata.

End Ref.

(* ===================================================================== *)
(** * Part I, continued: the code around the claims                       *)
(* ===================================================================== *)

(** ** More of [String.prototype] *)

Module JSText.

(** The first [n] code units of a string. *)
Fixpoint firstChars (n : nat) (s : string) : string :=
  match n, s with
  | S n', String c s' => String c (firstChars n' s')
  | _, _ => EmptyString
  end.

(** [s.slice(0, e)] for a whole number [e]: a negative [e] counts from the
    end of the string. *)
Definition sliceTo (s : string) (e : Z) : string :=
  let len := Z.of_nat (String.length s) in
  firstChars (Z.to_nat (if e <? 0 then Z.max (len + e) 0 else Z.min e len)) s.

(** The character classes [[A-Z]] and [[a-z]], and [toUpperCase] on one
    code unit. *)
Definition isUpper (c : ascii) : bool :=
  let n := nat_of_ascii c in (65 <=? n)%nat && (n <=? 90)%nat.

Definition isLower (c : ascii) : bool :=
  let n := nat_of_ascii c in (97 <=? n)%nat && (n <=? 122)%nat.

Definition upperChar (c : ascii) : ascii :=
  let n := nat_of_ascii c in
  if (97 <=? n)%nat && (n <=? 122)%nat then ascii_of_nat (n - 32) else c.

End JSText.

(** ** [src/utils/paths.ts], continued *)

(** [truncateString(s, maxLen = 100, suffix = "...")], for a whole number
    [maxLen]. *)
Definition truncateString (s : string) (maxLen : option Z) (suffix : option string) : string :=
  let maxLen := match maxLen with Some n => n | None => 100 end in
  let suffix := match suffix with Some x => x | None => "..." end in
  if Z.of_nat (String.length s) <=? maxLen then s
  else JSText.sliceTo s (maxLen - Z.of_nat (String.length suffix)) +:+ suffix.

(** ** The configuration loader ([src/unnamed/part_000]): names of keys *)

(** [camelToSnake]: [name.replace(/([A-Z])/g, ...)], where a capital at an
    offset above zero becomes an underscore and its small letter, and a
    capital at offset zero its small letter; [camelToSnakeFrom offset] is
    the replacement of the part of the name that begins at [offset]. *)
Fixpoint camelToSnakeFrom (offset : nat) (name : string) : string :=
  match name with
  | EmptyString => EmptyString
  | String c rest =>
      (if JSText.isUpper c then
         if (0 <? offset)%nat then String "_" (String (JS.lowerChar c) EmptyString)
         else String (JS.lowerChar c) EmptyString
       else String c EmptyString)
      +:+ camelToSnakeFrom (S offset) rest
  end.

Definition camelToSnake (name : string) : string := camelToSnakeFrom 0 name.

(** [snakeToCamel]: [name.replace(/_([a-z])/g, (_, p1) => p1.toUpperCase())];
    the matches are taken from left to right and do not overlap. *)
Fixpoint snakeToCamel (name : string) : string :=
  match name with
  | EmptyString => EmptyString
  | String c rest =>
      if Ascii.eqb c "_" then
        match rest with
        | String d rest' =>
            if JSText.isLower d then String (JSText.upperChar d) (snakeToCamel rest')
            else String c (snakeToCamel rest)
        | EmptyString => String c EmptyString
        end
      else String c (snakeToCamel rest)
  end.

(** Names that the two conversions take back to themselves: a name in
    which no underscore is followed by a small letter and which does not
    begin with a capital, and a name without capitals that does not begin
    with an underscore and a small letter. *)
Definition headIsLower (s : string) : bool :=
  match s with
  | String c _ => JSText.isLower c
  | EmptyString => false
  end.

Definition headIsUpper (s : string) : bool :=
  match s with
  | String c _ => JSText.isUpper c
  | EmptyString => false
  end.

Fixpoint noSnakePair (name : string) : bool :=
  match name with
  | EmptyString => true
  | String c rest => negb (Ascii.eqb c "_" && headIsLower rest) && noSnakePair rest
  end.

Fixpoint noUpper (name : string) : bool :=
  match name with
  | EmptyString => true
  | String c rest => negb (JSText.isUpper c) && noUpper rest
  end.

Definition isCamelName (name : string) : bool :=
  negb (headIsUpper name) && noSnakePair name.

Definition isSnakeName (name : string) : bool :=
  noUpper name
  && negb match name with
          | String c rest => Ascii.eqb c "_" && headIsLower rest
          | EmptyString => false
          end.

(** [result[key] = value] on the object literal that the two conversions
    fill: the key [__proto__] names the setter of the prototype, so that
    assignment adds no field of the object's own; every other key is set as
    [setField] does. *)
Definition assignField (key : string) (value : json) (result : list (string * json))
    : list (string * json) :=
  if String.eqb key "__proto__" then result else setField key value result.

(** [convertToCamel] and [convertToSnake]: the keys of all objects inside a
    value are converted, the entries taken in the order of
    [Object.entries]. *)
Fixpoint convertToCamel (data : json) : json :=
  match data with
  | JArr items => JArr (map convertToCamel items)
  | JObj fields =>
      JObj (fold_left
              (fun result entry =>
                 assignField (snakeToCamel (fst entry)) (convertToCamel (snd entry)) result)
              fields [])
  | _ => data
  end.

Fixpoint convertToSnake (data : json) : json :=
  match data with
  | JArr items => JArr (map convertToSnake items)
  | JObj fields =>
      JObj (fold_left
              (fun result entry =>
                 assignField (camelToSnake (fst entry)) (convertToSnake (snd entry)) result)
              fields [])
  | _ => data
  end.

Fixpoint distinct (names : list string) : bool :=
  match names with
  | [] => true
  | name :: rest => negb (existsb (String.eqb name) rest) && distinct rest
  end.

(** A key of a configuration object: a camel name whose snake form is not
    [__proto__]. *)
Definition isConfigKey (name : string) : bool :=
  isCamelName name && negb (String.eqb (camelToSnake name) "__proto__").

(** A value all of whose objects have such keys, each key once. *)
Fixpoint camelKeys (data : json) : bool :=
  match data with
  | JArr items => forallb camelKeys items
  | JObj fields =>
      forallb (fun entry => isConfigKey (fst entry) && camelKeys (snd entry)) fields
      && distinct (map fst fields)
  | _ => true
  end.

(** ** The configuration schema ([schema.ts], in
    [src/infrastructure/storage/session-store.ts]) *)

(** [getApiKey]: the first key that is not empty, in the order OpenRouter,
    Anthropic, OpenAI, Google, Groq. *)
Definition getApiKey (config : Config) : option string :=
  let key (p : ProviderConfig.t) := ProviderConfig.apiKey p in
  if negb (String.eqb (key (Config.openrouter config)) EmptyString)
  then Some (key (Config.openrouter config))
  else if negb (String.eqb (key (Config.anthropic config)) EmptyString)
  then Some (key (Config.anthropic config))
  else if negb (String.eqb (key (Config.openai config)) EmptyString)
  then Some (key (Config.openai config))
  else if negb (String.eqb (key (Config.google config)) EmptyString)
  then Some (key (Config.google config))
  else if negb (String.eqb (key (Config.groq config)) EmptyString)
  then Some (key (Config.groq config))
  else None.

(** [getApiBase]. *)
Definition getApiBase (config : Config) : option string :=
  if negb (String.eqb (ProviderConfig.apiKey (Config.openrouter config)) EmptyString)
  then Some (match ProviderConfig.apiBase (Config.openrouter config) with
             | Some base =>
                 if String.eqb base EmptyString then "https://openrouter.ai/api/v1" else base
             | None => "https://openrouter.ai/api/v1"
             end)
  else None.

(** ** Callers of the agent loop *)

Section Callers.
Context `{RT : Runtime}.

(** [!!process.env.NAME]. *)
Definition envSet (name : string) : bool :=
  match process_env name with
  | Some value => negb (String.eqb value EmptyString)
  | None => false
  end.

(** [hasApiKey] of the command line ([src/unnamed/part_003]). *)
Definition hasApiKey (config : Config) : bool :=
  let set (p : ProviderConfig.t) := negb (String.eqb (ProviderConfig.apiKey p) EmptyString) in
  set (Config.anthropic config) || set (Config.openai config)
  || set (Config.openrouter config) || set (Config.google config)
  || set (Config.groq config)
  || envSet "ANTHROPIC_API_KEY" || envSet "OPENAI_API_KEY" || envSet "OPENROUTER_API_KEY"
  || envSet "GOOGLE_API_KEY" || envSet "GROQ_API_KEY".

(** The key that [getProvider] hands to the factory of a provider, from the
    configuration or the environment, is there and not empty. *)
Definition usableKey (apiKey envName : string) : Prop :=
  exists k, keyOrEnv apiKey envName = Some k /\ k <> EmptyString.

(** The message that [AgentLoop.run] publishes when a turn throws. *)
Definition errorReply (msg : InboundMessage) (error : string) : OutboundMessage :=
  Events.createOutboundMessage (InboundMessage.channel msg) (InboundMessage.chatId msg)
    ("Sorry, I encountered an error: " +:+ error) None
    (Some (InboundMessage.metadata msg)).

(** [AgentLoop.run]: the body of the [while] loop for a message that was
    consumed from the bus.  [publishOutbound] is the method of the message
    bus, which is not among the sources. *)
Definition runStep (self : AgentLoop) (publishOutbound : OutboundMessage -> M unit)
    (msg : InboundMessage) : M unit :=
  tryCatch
    (do response <- processMessage self msg;
     match response with
     | Some r => publishOutbound r
     | None => ret tt
     end)
    (fun error => (* logger.error *) publishOutbound (errorReply msg error)).

End Callers.

(** ** A reference runtime without a model provider

    The reference runtime, with a provider factory that throws. *)

Module Offline.

Definition runtime : Runtime := {|
  World := Ref.world;
  LanguageModel := string;
  JSON_parse := Ref.parse;
  JSON_stringify := Ref.stringify;
  Date_of := Ref.dateOf;
  Date_now := fun w => (Ref.clock w, Ref.mkWorld (Ref.clock w + 1) (Ref.script w));
  Date_toISO := Ref.printZ;
  Array_sort := fun A cmp l => Ref.sortWith cmp l;
  localeCompare := Ref.compareStrings;
  Number_toString := Ref.printZ;
  homeSessionsDir := "/home/user/.miniclawd/sessions";
  process_env := fun _ => None;
  sdkModel := fun _ _ _ => Throw "Error: API key is missing";
  generateText := fun _ _ _ _ _ w => Ref.generate w;
  buildMessages := fun _ content _ _ w => ([CoreMessage.mk "user" (inl content)], w);
  tools_execute := fun name _ _ _ w d => ("Error: Tool '" +:+ name +:+ "' not found", w, d);
  tools_getDefinitions := emptyObject;
|}.

Definition state (w : Ref.world) (d : gmap string FsEntry) (c : gmap string Session)
  : @AgentState runtime :=
  @mkState runtime w d c (ToolContext.mk EmptyString EmptyString emptyObject)
    (EmptyString, EmptyString) [].

End Offline.

(* ===================================================================== *)
(** * Part II: theorems                                                   *)
(* ===================================================================== *)

(** ** The session store *)

Section StoreFacts.
Context `{RT : Runtime}.

Lemma existsSync_lookup (path : string) (d : gmap string FsEntry) :
  existsSync path d = match d !! path with Some _ => true | None => false end.
Proof.
  unfold existsSync. destruct (d !! path) as [e|] eqn:Hd.
  - apply bool_decide_eq_true_2. eauto.
  - apply bool_decide_eq_false_2. apply is_Some_None.
Qed.

Lemma load_cases (key : string) (st : AgentState) :
  load key st =
    match disk st !! getSessionPath key with
    | Some (File content) =>
        match readRecord content with
        | Ok parsed =>
            (Ok (Some (fst (loadedSession key parsed (world st)))),
             setWorld (snd (loadedSession key parsed (world st))) st)
        | Throw _ => (Ok None, st)
        end
    | Some Unreadable => (Ok None, st)
    | None => (Ok None, st)
    end.
Proof.
  unfold load, bind, get. cbn beta iota. rewrite existsSync_lookup.
  unfold tryCatch, readFileSync, lift, now, ret, readRecord, loadedSession.
  destruct (disk st !! getSessionPath key) as [[content|]|] eqn:Hd; cbn;
    rewrite ?Hd; try reflexivity.
  destruct (loadLines _ _) as [[[messages metadata] [d|]]|error]; try reflexivity.
  - destruct (Date_now (world st)) as [updated w1]. reflexivity.
  - destruct (Date_now (world st)) as [created w1]. cbn.
    destruct (Date_now w1) as [updated w2]. reflexivity.
Qed.

Lemma getOrCreate_cached key st cached :
  cache st !! key = Some cached -> getOrCreate key st = (Ok cached, st).
Proof. intros H. unfold getOrCreate, bind, get, ret. cbn beta iota. rewrite H. reflexivity. Qed.

Lemma createSession_fresh key st :
  createSession key st
  = (Ok (fst (freshSession key (world st))), setWorld (snd (freshSession key (world st))) st).
Proof.
  unfold createSession, freshSession, bind, now, ret.
  destruct (Date_now (world st)) as [created w1]. cbn.
  destruct (Date_now w1) as [updated w2]. reflexivity.
Qed.

Lemma getOrCreate_miss key st :
  cache st !! key = None ->
  getOrCreate key st =
    (Ok (fst (resolved key st)),
     setCache (fun c => <[key := fst (resolved key st)]> c)
       (setWorld (snd (resolved key st)) st)).
Proof.
  intros H. unfold getOrCreate, bind, get. cbn beta iota. rewrite H. rewrite load_cases.
  unfold resolved, ret, modify.
  destruct (disk st !! getSessionPath key) as [[content|]|];
    try (rewrite createSession_fresh; reflexivity).
  destruct (readRecord content); [reflexivity|].
  rewrite createSession_fresh. reflexivity.
Qed.

Lemma loadLines_parse_error lines acc line :
  In line lines -> JSON_parse line = None ->
  exists error, loadLines lines acc = Throw error.
Proof.
  revert acc. induction lines as [|l lines IH]; intros acc Hin Hp; [destruct Hin|].
  simpl. destruct (loadLine acc l) as [acc'|error] eqn:Hl; [|eauto].
  destruct Hin as [->|Hin]; [|eauto].
  unfold loadLine in Hl. destruct acc as [[m md] ca]. rewrite Hp in Hl. discriminate.
Qed.



(** The loop of [load] on a line that parses to a metadata record, and on
    lines that parse to values that are neither [null] nor tagged as
    metadata. *)
Lemma loadLine_metadata_record (line : string) (fields : list (string * json)) messages md ca :
  JSON_parse line = Some (JObj fields) ->
  assoc "_type" fields = Some (JStr "metadata") ->
  loadLine (messages, md, ca) line
  = Ok (messages, orElse (assoc "metadata" fields) emptyObject, fileCreatedAt (Some fields)).
Proof.
  intros Hp Hty. unfold loadLine. rewrite Hp. cbn [getProp]. rewrite Hty.
  cbn [strictEquals]. rewrite String.eqb_refl. reflexivity.
Qed.

Lemma loadLines_values (lines : list string) (values : list json) messages md ca :
  Forall2 (fun line v => JSON_parse line = Some v) lines values ->
  Forall isMessageValue values ->
  loadLines lines (messages, md, ca) = Ok (messages ++ values, md, ca).
Proof.
  intros Hparse. revert messages.
  induction Hparse as [|line v lines values Hp _ IH]; intros messages Hvalues.
  - cbn. rewrite app_nil_r. reflexivity.
  - inversion Hvalues as [|? ? [Hnull Htag] Hrest]; subst.
    cbn [loadLines]. unfold loadLine. rewrite Hp.
    assert (Hty : exists type, getProp v "_type" = Ok type
                               /\ strictEquals type "metadata" = false).
    { destruct v as [| | | | |fields]; try (eexists; split; reflexivity).
      - congruence.
      - exists (assoc "_type" fields). split; [reflexivity|].
        destruct (assoc "_type" fields) as [[| | |s| |]|] eqn:Ha; try reflexivity.
        cbn. apply String.eqb_neq. intros ->. apply (Htag fields eq_refl). exact Ha. }
    destruct Hty as (type & -> & ->).
    rewrite (IH _ Hrest). rewrite <- app_assoc. reflexivity.
Qed.

Lemma readRecord_values (content : string) (lines : list string)
    (meta : option (list (string * json))) (msgs : list json) :
  List.filter nonBlank (JS.split content LF) = lines ->
  Forall2 (fun line v => JSON_parse line = Some v) lines (recordValues meta msgs) ->
  isMetadataRecord meta ->
  Forall isMessageValue msgs ->
  readRecord content = Ok (msgs, fileMetadata meta, fileCreatedAt meta).
Proof.
  intros Hlines Hparse Hmeta Hmsgs. unfold readRecord. rewrite Hlines.
  destruct meta as [fields|]; cbn [recordValues] in Hparse.
  - inversion Hparse as [|line v lines' values' Hp Hrest]; subst.
    cbn [loadLines]. rewrite (loadLine_metadata_record _ _ _ _ _ Hp Hmeta).
    rewrite (loadLines_values _ _ _ _ _ Hrest Hmsgs). reflexivity.
  - rewrite (loadLines_values _ _ _ _ _ Hparse Hmsgs). reflexivity.
Qed.


End StoreFacts.

Section ProviderFacts.
Context `{RT : Runtime}.

Lemma chatBody_total self messages tools model maxTokens temperature st :
  exists response st',
    chatBody self messages tools model maxTokens temperature st = (Ok response, st')
    /\ cache st' = cache st /\ disk st' = disk st /\ chatLog st' = chatLog st
    /\ messageContext st' = messageContext st /\ spawnContext st' = spawnContext st
    /\ (forall error st1,
          chatTry self messages tools model maxTokens temperature st = (Throw error, st1) ->
          response = errorResponse error).
Proof.
  unfold chatBody, tryCatch.
  assert (Hframe : forall r st1,
            chatTry self messages tools model maxTokens temperature st = (r, st1) ->
            cache st1 = cache st /\ disk st1 = disk st /\ chatLog st1 = chatLog st
            /\ messageContext st1 = messageContext st /\ spawnContext st1 = spawnContext st).
  { intros r st1. unfold chatTry, bind, lift, sdkGenerate, ret.
    destruct (getProvider self _) as [provider|error]; [|intros [= <- <-]; auto].
    destruct (generateText _ _ _ _ _ _) as [[result|error] w]; intros [= <- <-]; auto. }
  destruct (chatTry self messages tools model maxTokens temperature st) as [[response|error] st1] eqn:Ht.
  - exists response, st1. split; [reflexivity|].
    destruct (Hframe _ _ eq_refl) as (? & ? & ? & ? & ?). repeat split; try assumption.
    intros error st2 [=].
  - exists (errorResponse error), st1. split; [reflexivity|].
    destruct (Hframe _ _ eq_refl) as (? & ? & ? & ? & ?). repeat split; try assumption.
    intros error' st2 [= -> ->]. reflexivity.
Qed.

Lemma chat_total self messages tools model maxTokens temperature st :
  exists response st',
    chat self messages tools model maxTokens temperature st = (Ok response, st')
    /\ cache st' = cache st /\ disk st' = disk st
    /\ chatLog st' = chatLog st ++ [response]
    /\ messageContext st' = messageContext st /\ spawnContext st' = spawnContext st
    /\ (forall error st1,
          chatTry self messages tools model maxTokens temperature st = (Throw error, st1) ->
          response = errorResponse error).
Proof.
  destruct (chatBody_total self messages tools model maxTokens temperature st)
    as (response & st1 & Hb & Hc & Hd & Hl & Hm & Hs & He).
  unfold chat, bind. rewrite Hb. unfold logResponse, modify, ret. cbn.
  eexists _, _. split; [reflexivity|]. cbn. rewrite Hl. auto 10.
Qed.

Lemma chatTry_provider_failure self messages tools model maxTokens temperature st error :
  getProvider self (resolveModel self model) = Throw error ->
  chatTry self messages tools model maxTokens temperature st = (Throw error, st).
Proof. intros H. unfold chatTry, bind, lift. rewrite H. reflexivity. Qed.

Lemma chatTry_sdk_failure self messages tools model maxTokens temperature st provider error w :
  getProvider self (resolveModel self model) = Ok provider ->
  generateText provider messages (toolsOrEmpty tools) (resolveMaxTokens self maxTokens)
    (resolveTemperature self temperature) (world st) = (Throw error, w) ->
  exists st1, chatTry self messages tools model maxTokens temperature st = (Throw error, st1).
Proof.
  intros Hp Hg. unfold chatTry, bind, lift, sdkGenerate. rewrite Hp, Hg. eauto.
Qed.

Lemma execute_total (tool : MessageTool) params st :
  exists text st',
    execute tool params st = (Ok text, st')
    /\ ((exists callback,
           sendCallback tool = Some callback
           /\ callback (createOutboundMessage (fst (messageTarget tool params))
                          (snd (messageTarget tool params)) (MessageParams.content params)
                          None (Some (ToolContext.defaultMetadata (context tool)))) st
              = (Ok tt, st')
           /\ text = "Message sent to " +:+ fst (messageTarget tool params) +:+ ":"
                     +:+ snd (messageTarget tool params))
        \/ JS.startsWith text "Error" = true).
Proof.
  unfold execute, messageTarget. cbn [fst snd].
  destruct (_ || _).
  { eexists _, _. split; [reflexivity|]. right. reflexivity. }
  destruct (sendCallback tool) as [callback|] eqn:Hcb.
  2:{ eexists _, _. split; [reflexivity|]. right. reflexivity. }
  unfold tryCatch, bind, ret.
  destruct (callback _ st) as [[[]|error] st1] eqn:Hsend.
  - eexists _, _. split; [reflexivity|]. left. exists callback. auto.
  - eexists _, _. split; [reflexivity|]. right. reflexivity.
Qed.

(** C7. A failure of the model call or of the message tool becomes a text
    that is returned, never an exception: [chat] always returns a response,
    and when the provider cannot be built or [generateText] throws, the
    response has the content "Error calling LLM: " followed by the error and
    no tool call; [execute] of the message tool always returns a text, which
    reports the message as sent only when the send callback returned, and
    begins with "Error" in every other case. *)
Theorem C7_failures_become_text :
  (forall self messages tools model maxTokens temperature st,
     exists response st',
       chat self messages tools model maxTokens temperature st = (Ok response, st')
       /\ (forall error,
             getProvider self (resolveModel self model) = Throw error ->
             LLMResponse.content response = Some ("Error calling LLM: " +:+ error)
             /\ LLMResponse.toolCalls response = [])
       /\ (forall provider error w,
             getProvider self (resolveModel self model) = Ok provider ->
             generateText provider messages (toolsOrEmpty tools)
               (resolveMaxTokens self maxTokens) (resolveTemperature self temperature)
               (world st) = (Throw error, w) ->
             LLMResponse.content response = Some ("Error calling LLM: " +:+ error)
             /\ LLMResponse.toolCalls response = []))
  /\ (forall (tool : MessageTool) params st,
        exists text st',
          execute tool params st = (Ok text, st')
          /\ ((exists callback,
                 sendCallback tool = Some callback
                 /\ callback (createOutboundMessage (fst (messageTarget tool params))
                                (snd (messageTarget tool params))
                                (MessageParams.content params)
                                None (Some (ToolContext.defaultMetadata (context tool)))) st
                    = (Ok tt, st')
                 /\ text = "Message sent to " +:+ fst (messageTarget tool params) +:+ ":"
                           +:+ snd (messageTarget tool params))
              \/ JS.startsWith text "Error" = true)).
Proof.
  split.
  - intros self messages tools model maxTokens temperature st.
    destruct (chat_total self messages tools model maxTokens temperature st)
      as (response & st' & Hchat & _ & _ & _ & _ & _ & Herr).
    exists response, st'. split; [exact Hchat|]. split.
    + intros error Hp.
      rewrite (Herr error st (chatTry_provider_failure _ _ _ _ _ _ _ _ Hp)). auto.
    + intros provider error w Hp Hg.
      destruct (chatTry_sdk_failure _ _ _ _ _ _ _ _ _ _ Hp Hg) as [st1 Ht].
      rewrite (Herr error st1 Ht). auto.
  - intros tool params st. apply execute_total.
Qed.

End ProviderFacts.

Section SessionFacts.
Context `{RT : Runtime}.

Lemma toISOString_valid d :
  isValidDate d = true -> exists text, toISOString d = Ok text.
Proof. destruct d; [eauto|discriminate]. Qed.

Lemma sessionText_valid session :
  isValidDate (Session.createdAt session) = true ->
  isValidDate (Session.updatedAt session) = true ->
  exists text, sessionText session = Ok text.
Proof.
  intros Hc Hu. unfold sessionText, metadataLine.
  destruct (toISOString_valid _ Hc) as [c ->], (toISOString_valid _ Hu) as [u ->]. eauto.
Qed.

Lemma save_ok session text st :
  sessionText session = Ok text ->
  save session st =
    (Ok tt,
     setCache (fun c => <[Session.key session := session]> c)
       (setDisk (fun d => <[getSessionPath (Session.key session) := File text]> d) st)).
Proof. intros H. unfold save, bind, lift. rewrite H. reflexivity. Qed.

Lemma save_throws session error st :
  sessionText session = Throw error -> save session st = (Throw error, st).
Proof. intros H. unfold save, bind, lift. rewrite H. reflexivity. Qed.

(** C8, as amended.  [addMessage] appends one entry and [getHistory] changes
    nothing, so that after each of them the prior sequence is a prefix of
    the new one; [clearSession] replaces the sequence by the empty one. *)
Theorem C8_append_only_except_clear (op : SessionOp) (session : Session) (t u : Z) :
  match op with
  | OpAddMessage role content extras =>
      Session.messages (applyOp op session t u)
      = Session.messages session ++ [newMessage role content extras t]
  | OpGetHistory _ => applyOp op session t u = session
  | OpClearSession => Session.messages (applyOp op session t u) = []
  end
  /\ (op <> OpClearSession ->
      Session.messages session `prefix_of` Session.messages (applyOp op session t u)).
Proof.
  split.
  - destruct op; reflexivity.
  - intros Hop. destruct op as [role content extras|n|]; cbn.
    + eexists. reflexivity.
    + reflexivity.
    + contradiction.
Qed.

(** The entry that [listSessions] makes for a file carries the key computed
    from the file name. *)
Lemma sessionInfo_key (file : string) (st st' : AgentState) (info : SessionInfo) :
  sessionInfo file st = (Ok (Some info), st') ->
  SessionInfo.key info = listedKey file.
Proof.
  unfold sessionInfo, tryCatch, bind, readFileSync, get, throw, ret, lift.
  intros H.
  destruct (disk st !! pathJoin homeSessionsDir file) as [[content|]|];
    try discriminate.
  destruct (JS.split content LF) as [|firstLine rest]; [discriminate|].
  destruct (String.eqb firstLine EmptyString); [discriminate|].
  destruct (JSON_parse firstLine) as [data|]; [|discriminate].
  destruct (getProp data "_type") as [type|error]; [|discriminate].
  destruct (strictEquals type "metadata"); [|discriminate].
  destruct data; try discriminate.
  injection H as <- _. reflexivity.
Qed.

(** C9. The keys "a:b_c" and "a_b:c" are distinct and have the same file
    path; saving a session of the first key and then one of the second
    leaves at that path the text of the second; the key that [listSessions]
    shows for the file is "a:b_c", whichever key wrote it. *)
Theorem C9_session_path_not_injective :
  "a:b_c" <> "a_b:c"
  /\ getSessionPath "a:b_c" = pathJoin homeSessionsDir "a_b_c.jsonl"
  /\ getSessionPath "a_b:c" = pathJoin homeSessionsDir "a_b_c.jsonl"
  /\ (forall s1 s2 text1 text2 st,
        Session.key s1 = "a:b_c" -> Session.key s2 = "a_b:c" ->
        sessionText s1 = Ok text1 -> sessionText s2 = Ok text2 ->
        exists st1 st2,
          save s1 st = (Ok tt, st1)
          /\ disk st1 !! getSessionPath "a:b_c" = Some (File text1)
          /\ save s2 st1 = (Ok tt, st2)
          /\ disk st2 !! getSessionPath "a:b_c" = Some (File text2))
  /\ (forall st st' info,
        sessionInfo "a_b_c.jsonl" st = (Ok (Some info), st') ->
        SessionInfo.key info = "a:b_c" /\ SessionInfo.key info <> "a_b:c").
Proof.
  split; [discriminate|]. split; [reflexivity|]. split; [reflexivity|].
  split.
  2:{ intros st st' info H. rewrite (sessionInfo_key _ _ _ _ H).
      split; [reflexivity|discriminate]. }
  intros s1 s2 text1 text2 st Hk1 Hk2 Ht1 Ht2.
  rewrite (save_ok _ _ st Ht1).
  eexists _, _. split; [reflexivity|].
  rewrite (save_ok _ _ _ Ht2). rewrite Hk1, Hk2.
  split; [|split; [reflexivity|]].
  - cbn. apply lookup_insert_eq.
  - cbn. change (getSessionPath "a_b:c") with (getSessionPath "a:b_c").
    apply lookup_insert_eq.
Qed.

End SessionFacts.

(** C8, as stated, fails: [clearSession] drops the entries of a session. *)
Lemma C8_counterexample :
  ~ (forall (op : SessionOp) (session : Session) (t u : Z),
       Session.messages session
       `prefix_of` Session.messages (applyOp (RT := Ref.runtime) op session t u)).
Proof.
  intros H.
  specialize (H OpClearSession
                (Session.mk "telegram:42" [JStr "m"] (ValidDate 0) (ValidDate 0) emptyObject)
                1 1).
  destruct H as [k Hk]. discriminate Hk.
Qed.

(** C9 on the reference runtime: two sessions that can be saved, one per
    key; the file of the first holds the text of the second. *)
Lemma C9_witness :
  let s1 := Session.mk "a:b_c" [JStr "one"] (ValidDate 1) (ValidDate 1) emptyObject in
  let s2 := Session.mk "a_b:c" [JStr "two"] (ValidDate 2) (ValidDate 2) emptyObject in
  exists text2 st1 st2,
    sessionText (RT := Ref.runtime) s2 = Ok text2
    /\ save (RT := Ref.runtime) s1 (Ref.state (Ref.mkWorld 0 []) ∅ ∅) = (Ok tt, st1)
    /\ save (RT := Ref.runtime) s2 st1 = (Ok tt, st2)
    /\ disk st2 !! getSessionPath (RT := Ref.runtime) "a:b_c" = Some (File text2).
Proof.
  intros s1 s2.
  destruct (C9_session_path_not_injective (RT := Ref.runtime)) as (_ & _ & _ & H & _).
  destruct (H s1 s2 _ _ (Ref.state (Ref.mkWorld 0 []) ∅ ∅)
              eq_refl eq_refl eq_refl eq_refl) as (st1 & st2 & H1 & _ & H2 & H3).
  eexists _, st1, st2. split; [reflexivity|]. auto.
Defined.

(** ** The text of a session file read back *)

Section RoundTrip.
Context `{RT : Runtime}.

Lemma append_nil (s : string) : EmptyString +:+ s = s.
Proof. reflexivity. Qed.

Lemma append_cons (c : ascii) (a b : string) : String c a +:+ b = String c (a +:+ b).
Proof. reflexivity. Qed.

Lemma append_assoc (a b c : string) : (a +:+ b) +:+ c = a +:+ (b +:+ c).
Proof.
  induction a as [|d a IH]; [reflexivity|].
  rewrite !append_cons. f_equal. exact IH.
Qed.

Lemma split_at (sep : ascii) (a b : string) :
  lacks sep a = true -> JS.split (a +:+ String sep b) sep = a :: JS.split b sep.
Proof.
  induction a as [|c a IH]; intros Ha.
  - rewrite append_nil. cbn [JS.split]. rewrite Ascii.eqb_refl. reflexivity.
  - cbn in Ha. apply andb_true_iff in Ha as [Hc Ha].
    rewrite append_cons. cbn [JS.split]. apply negb_true_iff in Hc.
    rewrite Hc, (IH Ha). reflexivity.
Qed.

Lemma split_lacks (sep : ascii) (a : string) :
  lacks sep a = true -> JS.split a sep = [a].
Proof.
  induction a as [|c a IH]; intros Ha; [reflexivity|].
  cbn in Ha. apply andb_true_iff in Ha as [Hc Ha]. apply negb_true_iff in Hc.
  cbn [JS.split]. rewrite Hc, (IH Ha). reflexivity.
Qed.

Lemma split_line (a b : string) :
  noLineFeed a = true -> JS.split (a +:+ String LF b) LF = a :: JS.split b LF.
Proof. apply split_at. Qed.

Lemma split_fileText (lines : list string) :
  lines <> [] ->
  Forall (fun line => noLineFeed line = true) lines ->
  JS.split (fileText lines) LF = lines ++ [EmptyString].
Proof.
  unfold fileText. induction lines as [|l rest IH]; [congruence|]. intros _ Hall.
  inversion Hall as [|? ? Hl Hrest]; subst.
  destruct rest as [|l2 rest].
  - cbn [JS.join]. rewrite split_line by assumption. reflexivity.
  - change (JS.join (l :: l2 :: rest) (String LF EmptyString))
      with (l +:+ String LF EmptyString +:+ JS.join (l2 :: rest) (String LF EmptyString)).
    rewrite !append_assoc, append_cons, append_nil.
    rewrite split_line by assumption.
    change ((l :: l2 :: rest) ++ [EmptyString]) with (l :: ((l2 :: rest) ++ [EmptyString])).
    f_equal. apply IH; [discriminate|assumption].
Qed.

Lemma filter_nonBlank_lines (lines : list string) :
  Forall (fun line => nonBlank line = true) lines ->
  List.filter nonBlank (lines ++ [EmptyString]) = lines.
Proof.
  induction 1 as [|l lines Hl _ IH]; [reflexivity|].
  cbn [app List.filter]. rewrite Hl, IH. reflexivity.
Qed.

(** Typed sessions are writable. *)
Lemma isSessionMessage_storable (m : json) :
  isSessionMessage m = true -> storable m = true.
Proof.
  intros Hm. destruct m as [| | | | |fields]; try discriminate.
  unfold isSessionMessage in Hm. rewrite !andb_true_iff in Hm.
  destruct Hm as (_ & Hty). apply negb_true_iff, bool_decide_eq_false in Hty.
  unfold storable. cbn [getProp].
  destruct (assoc "_type" fields) as [v|]; [|reflexivity].
  exfalso. apply Hty. eauto.
Qed.

Lemma wellTyped_writable (session : Session) :
  wellTyped session -> writable session.
Proof.
  intros (Hc & Hu & Hmd & Hms). repeat split; try assumption.
  - destruct (Session.metadata session); try discriminate. reflexivity.
  - eapply Forall_impl; [exact Hms|]. apply isSessionMessage_storable.
Qed.

Lemma loadLine_message (m : json) messages metadata createdAt :
  JSON_parse (JSON_stringify m) = Some m ->
  storable m = true ->
  loadLine (messages, metadata, createdAt) (JSON_stringify m)
  = Ok (messages ++ [m], metadata, createdAt).
Proof.
  intros Hp Hm. unfold loadLine. rewrite Hp.
  unfold storable in Hm.
  destruct (getProp m "_type") as [type|error]; [|discriminate].
  apply negb_true_iff in Hm. rewrite Hm. reflexivity.
Qed.

Lemma loadLines_messages (ms : list json) messages metadata createdAt :
  Forall codecOk ms ->
  Forall (fun m => storable m = true) ms ->
  loadLines (map JSON_stringify ms) (messages, metadata, createdAt)
  = Ok (messages ++ ms, metadata, createdAt).
Proof.
  revert messages. induction ms as [|m ms IH]; intros messages Hc Ht.
  - cbn. rewrite app_nil_r. reflexivity.
  - inversion Hc as [|? ? [Hp _] Hc']; inversion Ht as [|? ? Hm Ht']; subst.
    cbn [map loadLines]. rewrite (loadLine_message _ _ _ _ Hp Hm).
    rewrite (IH _ Hc' Ht'). rewrite <- app_assoc. reflexivity.
Qed.

Lemma loadLine_metadata (created updated : string) (md : json) :
  let meta := JObj [("_type", JStr "metadata"); ("createdAt", JStr created);
                    ("updatedAt", JStr updated); ("metadata", md)] in
  JSON_parse (JSON_stringify meta) = Some meta ->
  truthy md = true ->
  exists createdAt,
    loadLine ([], emptyObject, None) (JSON_stringify meta) = Ok ([], md, createdAt).
Proof.
  intros meta Hp Hmd. unfold loadLine. rewrite Hp. cbn.
  rewrite Hmd. eauto.
Qed.

Lemma readRecord_sessionText (session : Session) (text : string) :
  writable session ->
  (forall meta, metadataLine session = Ok meta -> codecOk meta) ->
  Forall codecOk (Session.messages session) ->
  sessionText session = Ok text ->
  exists createdAt,
    readRecord text = Ok (Session.messages session, Session.metadata session, createdAt).
Proof.
  intros (Hc & Hu & Hmd & Hms) Hmeta Hcodec Htext.
  unfold sessionText in Htext.
  destruct (metadataLine session) as [meta|error] eqn:Hml; [|discriminate].
  injection Htext as <-.
  destruct (Hmeta meta eq_refl) as (Hp & Hlf & Hnb).
  unfold readRecord.
  rewrite split_fileText; [|discriminate|].
  2:{ constructor; [exact Hlf|]. apply Forall_map.
      eapply Forall_impl; [exact Hcodec|]. intros m (_ & H & _). exact H. }
  rewrite filter_nonBlank_lines.
  2:{ constructor; [exact Hnb|]. apply Forall_map.
      eapply Forall_impl; [exact Hcodec|]. intros m (_ & _ & H). exact H. }
  unfold metadataLine in Hml.
  destruct (toISOString (Session.createdAt session)) as [created|]; [|discriminate].
  destruct (toISOString (Session.updatedAt session)) as [updated|]; [|discriminate].
  injection Hml as <-.
  destruct (loadLine_metadata created updated (Session.metadata session) Hp Hmd)
    as [createdAt Hline].
  exists createdAt. cbn [loadLines]. rewrite Hline.
  rewrite (loadLines_messages _ _ _ _ Hcodec Hms). reflexivity.
Qed.

(** A file that holds the text of a writable session is read by [load] as
    a session with the same messages and metadata: what a turn leaves in the
    file of its key is the message sequence of the session it worked on. *)
Lemma load_sessionText (session : Session) (key text : string) (st : AgentState) :
  writable session ->
  (forall meta, metadataLine session = Ok meta -> codecOk meta) ->
  Forall codecOk (Session.messages session) ->
  sessionText session = Ok text ->
  disk st !! getSessionPath key = Some (File text) ->
  exists loaded st',
    load key st = (Ok (Some loaded), st')
    /\ Session.key loaded = key
    /\ Session.messages loaded = Session.messages session
    /\ Session.metadata loaded = Session.metadata session
    /\ disk st' = disk st /\ cache st' = cache st.
Proof.
  intros Hw Hmeta Hcodec Htext Hdisk.
  destruct (readRecord_sessionText session text Hw Hmeta Hcodec Htext)
    as [createdAt Hread].
  rewrite load_cases, Hdisk, Hread. eexists _, _. split; [reflexivity|].
  unfold loadedSession. destruct createdAt as [d|].
  - destruct (Date_now (world st)) as [updated w1]. cbn. auto.
  - destruct (Date_now (world st)) as [created w1], (Date_now w1) as [updated w2].
    cbn. auto.
Qed.

(** The text that [save] writes, spelled out. *)
Lemma sessionText_explicit (session : Session) (text : string) :
  sessionText session = Ok text ->
  exists created updated,
    Session.createdAt session = ValidDate created
    /\ Session.updatedAt session = ValidDate updated
    /\ text = linesText (map JSON_stringify
                           (JObj (metadataRecord created updated (Session.metadata session))
                            :: Session.messages session)).
Proof.
  unfold sessionText, metadataLine, toISOString. intros H.
  destruct (Session.createdAt session) as [created|]; [|discriminate].
  destruct (Session.updatedAt session) as [updated|]; [|discriminate].
  injection H as <-. exists created, updated. auto.
Qed.

(** A file of one record per line, a metadata record and then messages, is
    read by [load] as the session with these messages, when the JSON codec
    reads back what it wrote. *)
Lemma load_written (key : string) (fields : list (string * json)) (msgs : list json)
    (st : AgentState) :
  disk st !! getSessionPath key
  = Some (File (linesText (map JSON_stringify (JObj fields :: msgs)))) ->
  assoc "_type" fields = Some (JStr "metadata") ->
  codecOk (JObj fields) ->
  Forall codecOk msgs ->
  Forall isMessageValue msgs ->
  exists loaded st',
    load key st = (Ok (Some loaded), st')
    /\ Session.key loaded = key
    /\ Session.messages loaded = msgs
    /\ Session.metadata loaded = fileMetadata (Some fields).
Proof.
  intros Hdisk Hty Hrecord Hcodec Hmsgs.
  assert (Hall : Forall codecOk (JObj fields :: msgs)) by (constructor; assumption).
  assert (Hread : readRecord (linesText (map JSON_stringify (JObj fields :: msgs)))
                  = Ok (msgs, fileMetadata (Some fields), fileCreatedAt (Some fields))).
  { apply (readRecord_values _ (map JSON_stringify (JObj fields :: msgs))).
    - change (linesText ?l) with (fileText l).
      rewrite split_fileText; [|discriminate|].
      2:{ apply Forall_map. eapply Forall_impl; [exact Hall|]. intros v (_ & H & _). exact H. }
      apply filter_nonBlank_lines.
      apply Forall_map. eapply Forall_impl; [exact Hall|]. intros v (_ & _ & H). exact H.
    - change (recordValues (Some fields) msgs) with (JObj fields :: msgs).
      clear Hdisk. induction Hall as [|v vs [Hp _] _ IH]; constructor; assumption.
    - exact Hty.
    - exact Hmsgs. }
  rewrite load_cases, Hdisk, Hread. eexists _, _. split; [reflexivity|].
  unfold loadedSession. destruct (fileCreatedAt (Some fields)) as [d|].
  - destruct (Date_now (world st)) as [updated w1]. cbn. auto.
  - destruct (Date_now (world st)) as [created w1], (Date_now w1) as [updated w2].
    cbn. auto.
Qed.

(** C5, as amended. A writable session (both dates are valid dates, the
    metadata is not falsy, no message is [null] or tagged as the metadata
    record; with valid dates every session typed as in the data model is
    one), whose records the JSON codec writes as one line each and reads
    back, is written by [save] and read by [load] under the same key with
    the same ordered messages and the same metadata. *)
Theorem C5_save_load_roundtrip (session : Session) (st : AgentState) :
  writable session ->
  (forall meta, metadataLine session = Ok meta -> codecOk meta) ->
  Forall codecOk (Session.messages session) ->
  exists st1 loaded st2,
    save session st = (Ok tt, st1)
    /\ load (Session.key session) st1 = (Ok (Some loaded), st2)
    /\ Session.key loaded = Session.key session
    /\ Session.messages loaded = Session.messages session
    /\ Session.metadata loaded = Session.metadata session.
Proof.
  intros Hwt Hmeta Hcodec.
  destruct (sessionText_valid session (proj1 Hwt) (proj1 (proj2 Hwt))) as [text Htext].
  rewrite (save_ok _ _ st Htext).
  edestruct (load_sessionText session (Session.key session) text)
    as (loaded & st2 & Hload & Hk & Hm & Hmd & _);
    [exact Hwt|exact Hmeta|exact Hcodec|exact Htext| |].
  2:{ eexists _, loaded, st2. split; [reflexivity|]. split; [exact Hload|]. auto. }
  cbn [disk setCache setDisk]. apply lookup_insert_eq.
Qed.

End RoundTrip.

(** ** The turn loop *)

Section LoopFacts.
Context `{RT : Runtime}.

(** [processMessage] and [processSystemMessage] are instances of [turn]. *)
Lemma processMessage_turn (self : AgentLoop) (msg : InboundMessage) :
  processMessage self msg =
    if String.eqb (InboundMessage.channel msg) "system" then
      turn self (turnSessionKey msg)
        (fst (parseOrigin (InboundMessage.chatId msg)))
        (snd (parseOrigin (InboundMessage.chatId msg)))
        (InboundMessage.metadata msg) (InboundMessage.content msg) None
        ("[System: " +:+ InboundMessage.senderId msg +:+ "] " +:+ InboundMessage.content msg)
        backgroundFallback None
    else
      turn self (turnSessionKey msg) (InboundMessage.channel msg) (InboundMessage.chatId msg)
        (InboundMessage.metadata msg) (InboundMessage.content msg)
        (Some (InboundMessage.media msg)) (InboundMessage.content msg)
        noResponseFallback (Some (InboundMessage.metadata msg)).
Proof.
  unfold processMessage, processSystemMessage, turnSessionKey.
  destruct (String.eqb (InboundMessage.channel msg) "system"); [|reflexivity].
  destruct (parseOrigin (InboundMessage.chatId msg)) as [originChannel originChatId].
  reflexivity.
Qed.

(** The [while] loop, unfolded once. *)
Lemma turnLoop_while (self : AgentLoop) (iteration : Z) (messages : list CoreMessage) :
  turnLoop self iteration messages =
    if Qlt_le_dec (inject_Z iteration) (AgentLoop.maxIterations self) then
      do response <- chat (AgentLoop.provider self) messages
                       (Some tools_getDefinitions) (Some (AgentLoop.model self)) None None;
      if hasToolCalls response then
        do messages' <- executeToolCalls (LLMResponse.toolCalls response)
                          (messages ++ [assistantMessage response]);
        turnLoop self (iteration + 1) messages'
      else ret (LLMResponse.content response)
    else ret None.
Proof.
  rewrite turnLoop_equation_1.
  destruct (Qlt_le_dec (inject_Z iteration) (AgentLoop.maxIterations self)); reflexivity.
Qed.

Lemma executeToolCalls_frame toolCalls messages st :
  exists messages' st',
    executeToolCalls toolCalls messages st = (Ok messages', st')
    /\ cache st' = cache st /\ chatLog st' = chatLog st.
Proof.
  revert messages st. induction toolCalls as [|tc rest IH]; intros messages st.
  - eexists _, _. split; [reflexivity|]. auto.
  - cbn [executeToolCalls]. unfold bind at 1. unfold toolsExecute.
    destruct (tools_execute _ _ _ _ _ _) as [[text w] d].
    destruct (IH (messages ++
                  [CoreMessage.mk "tool"
                     (inr [ToolResultPart (ToolCallRequest.id tc) (ToolCallRequest.name tc) text])])
                (mkState w d (cache st) (messageContext st) (spawnContext st) (chatLog st)))
      as (messages' & st' & Hrun & Hc & Hl).
    rewrite Hrun. eexists _, _. split; [reflexivity|]. auto.
Qed.

(** The test of the loop, on whole numbers. *)
Lemma below_cap (self : AgentLoop) (iteration : Z) :
  (inject_Z iteration < AgentLoop.maxIterations self)%Q
  <-> iteration < Qceiling (AgentLoop.maxIterations self).
Proof.
  split; intros H.
  - rewrite Zlt_Qlt. eapply Qlt_le_trans; [exact H|apply Qle_ceiling].
  - eapply Qle_lt_trans; [|apply Qceiling_lt]. rewrite <- Zle_Qle. lia.
Qed.

Lemma turnLoop_spec (self : AgentLoop) (n : nat) :
  forall iteration messages st,
    Z.to_nat (Qceiling (AgentLoop.maxIterations self) - iteration) = n ->
    exists final st' new,
      turnLoop self iteration messages st = (Ok final, st')
      /\ cache st' = cache st
      /\ chatLog st' = chatLog st ++ new
      /\ (List.length new <= n)%nat
      /\ (Forall (fun r => hasToolCalls r = true) new ->
          final = None /\ List.length new = n).
Proof.
  induction n as [|n IH]; intros iteration messages st Hn; rewrite turnLoop_while;
    destruct (Qlt_le_dec (inject_Z iteration) (AgentLoop.maxIterations self)) as [Hlt|Hge].
  1:{ exfalso. apply (below_cap self iteration) in Hlt. lia. }
  3:{ exfalso. apply (Qle_not_lt _ _ Hge). apply below_cap. lia. }
  - exists None, st, []. rewrite app_nil_r. repeat split; auto.
  - destruct (chat_total (AgentLoop.provider self) messages (Some tools_getDefinitions)
                (Some (AgentLoop.model self)) None None st)
      as (response & st1 & Hchat & Hc1 & _ & Hl1 & _).
    unfold bind at 1. rewrite Hchat.
    destruct (hasToolCalls response) eqn:Htc.
    + destruct (executeToolCalls_frame (LLMResponse.toolCalls response)
                  (messages ++ [assistantMessage response]) st1)
        as (messages' & st2 & Hexec & Hc2 & Hl2).
      unfold bind at 1. rewrite Hexec.
      destruct (IH (iteration + 1) messages' st2 ltac:(lia))
        as (final & st3 & new & Hloop & Hc3 & Hl3 & Hlen & Hall).
      exists final, st3, (response :: new). split; [exact Hloop|].
      split; [congruence|]. split.
      { rewrite Hl3, Hl2, Hl1, <- app_assoc. reflexivity. }
      split; [cbn; lia|].
      intros Hf. inversion Hf as [|? ? _ Hf']; subst.
      destruct (Hall Hf') as [-> Hlen']. cbn. auto.
    + exists (LLMResponse.content response), st1, [response].
      split; [reflexivity|]. split; [exact Hc1|]. split; [exact Hl1|].
      split; [cbn; lia|].
      intros Hf. inversion Hf as [|? ? Hr _]; subst. congruence.
Qed.

End LoopFacts.

Section TurnFacts.
Context `{RT : Runtime}.

Lemma getOrCreate_inv key st session st0 :
  getOrCreate key st = (Ok session, st0) ->
  cache st0 !! key = Some session
  /\ (forall key', key' <> key -> cache st0 !! key' = cache st !! key')
  /\ chatLog st0 = chatLog st
  /\ (cache st !! key = None -> session = fst (resolved key st))
  /\ (forall cached, cache st !! key = Some cached -> session = cached /\ st0 = st).
Proof.
  intros H. destruct (cache st !! key) as [cached|] eqn:Hc.
  - rewrite (getOrCreate_cached _ _ _ Hc) in H. injection H as <- <-.
    split; [exact Hc|]. split; [reflexivity|]. split; [reflexivity|].
    split; [discriminate|]. intros cached' [= <-]. auto.
  - rewrite (getOrCreate_miss _ _ Hc) in H. injection H as <- <-. cbn.
    split; [apply lookup_insert_eq|].
    split; [intros key' Hne; apply lookup_insert_ne; congruence|].
    split; [reflexivity|]. split; [reflexivity|]. discriminate.
Qed.

Lemma addMessage_key session role content extras t u :
  Session.key (addMessage session role content extras t u) = Session.key session.
Proof. reflexivity. Qed.

Lemma sessionText_addMessage session role content extras t u :
  isValidDate (Session.createdAt session) = true ->
  exists text, sessionText (addMessage session role content extras t u) = Ok text.
Proof. intros Hc. apply sessionText_valid; [exact Hc|reflexivity]. Qed.

Lemma sessionText_invalid session role content extras t u :
  isValidDate (Session.createdAt session) = false ->
  sessionText (addMessage session role content extras t u)
  = Throw "RangeError: Invalid time value".
Proof.
  intros Hc. unfold sessionText, metadataLine. cbn.
  destruct (Session.createdAt session); [discriminate|reflexivity].
Qed.

Lemma persistTurn_cases sessionKey session userContent finalContent st :
  exists t1 u1 t2 u2 w,
    let session1 := addMessage session "user" userContent [] t1 u1 in
    let session2 := addMessage session1 "assistant" finalContent [] t2 u2 in
    let st2 := setCache (fun c => <[sessionKey := session2]> (<[sessionKey := session1]> c))
                 (setWorld w st) in
    persistTurn sessionKey session userContent finalContent st =
      match sessionText session2 with
      | Ok text =>
          (Ok tt,
           setCache (fun c => <[Session.key session := session2]> c)
             (setDisk (fun d => <[getSessionPath (Session.key session) := File text]> d) st2))
      | Throw error => (Throw error, st2)
      end.
Proof.
  unfold persistTurn, bind, now, mutateCached, modify. cbn beta iota.
  destruct (Date_now (world st)) as [t1 w1]. cbn.
  destruct (Date_now w1) as [u1 w2]. cbn.
  destruct (Date_now w2) as [t2 w3]. cbn.
  destruct (Date_now w3) as [u2 w4]. cbn.
  exists t1, u1, t2, u2, w4. cbn zeta.
  set (session2 := addMessage (addMessage session "user" userContent [] t1 u1)
                     "assistant" finalContent [] t2 u2).
  destruct (sessionText session2) as [text|error]; reflexivity.
Qed.

Lemma historyEntries_ok (recent : list json) :
  Forall (fun m => m <> JNull) recent -> exists entries, historyEntries recent = Ok entries.
Proof.
  induction 1 as [|m rest Hm _ [entries IH]]; [eexists; reflexivity|].
  cbn [historyEntries]. rewrite IH.
  destruct m; try contradiction; eexists; reflexivity.
Qed.

Lemma getHistory_ok (session : Session) (maxMessages : nat) :
  Forall (fun m => m <> JNull) (Session.messages session) ->
  exists history, getHistory session maxMessages = Ok history.
Proof.
  intros H. unfold getHistory.
  destruct (maxMessages <? List.length (Session.messages session))%nat.
  - apply historyEntries_ok. unfold JS.sliceLast.
    destruct maxMessages; [exact H|]. apply Forall_drop. exact H.
  - apply historyEntries_ok. exact H.
Qed.

Lemma turn_spec (self : AgentLoop) (sessionKey channel chatId : string) (metadata : json)
    (content : string) (media : option (list string)) (userContent fallback : string)
    (outMetadata : option json) (st : AgentState) (session : Session) (st0 : AgentState) :
  getOrCreate sessionKey st = (Ok session, st0) ->
  exists new st',
    snd (turn self sessionKey channel chatId metadata content media userContent fallback
           outMetadata st) = st'
    /\ chatLog st' = chatLog st ++ new
    /\ (List.length new <= iterationCap self)%nat
    /\ (exists session', cache st' !! sessionKey = Some session')
    /\ (forall key', key' <> sessionKey -> key' <> Session.key session ->
          cache st' !! key' = cache st !! key')
    /\ (Forall (fun m => m <> JNull) (Session.messages session) ->
        exists answer times,
          let session2 := withTurn session userContent answer times in
          (Forall (fun r => hasToolCalls r = true) new ->
           answer = fallback
           /\ List.length new = iterationCap self)
          /\ cache st' !! sessionKey = Some session2
          /\ (isValidDate (Session.createdAt session) = true ->
              exists text,
                sessionText session2 = Ok text
                /\ fst (turn self sessionKey channel chatId metadata content media
                          userContent fallback outMetadata st)
                   = Ok (Some (Events.createOutboundMessage channel chatId answer None outMetadata))
                /\ disk st' !! getSessionPath (Session.key session) = Some (File text)
                /\ cache st' !! Session.key session = Some session2)
          /\ (isValidDate (Session.createdAt session) = false ->
              fst (turn self sessionKey channel chatId metadata content media userContent
                     fallback outMetadata st)
              = Throw "RangeError: Invalid time value")).
Proof.
  intros Hget.
  destruct (getOrCreate_inv _ _ _ _ Hget) as (Hk0 & Hother0 & Hlog0 & _).
  set (st1 := mkState (world st0) (disk st0) (cache st0)
                (setContext channel chatId (Some metadata)) (channel, chatId) (chatLog st0)).
  destruct (getHistory session 50) as [history|herror] eqn:Hhist.
  2:{ (* [getHistory] throws: nothing else happens *)
    assert (Hturn :
      turn self sessionKey channel chatId metadata content media userContent fallback
        outMetadata st = (Throw herror, st1)).
    { unfold turn. unfold bind at 1. rewrite Hget.
      unfold bind at 1. unfold setToolContexts, modify. cbn beta iota. fold st1.
      unfold bind at 1. unfold lift. rewrite Hhist. reflexivity. }
    exists [], st1. rewrite Hturn. cbn [fst snd]. rewrite app_nil_r.
    split; [reflexivity|]. split; [exact Hlog0|]. split; [cbn; lia|].
    split; [exists session; exact Hk0|].
    split; [intros key' Hne _; apply Hother0; exact Hne|].
    intros Hnn. destruct (getHistory_ok session 50 Hnn) as [history Hok]. congruence. }
  destruct (buildMessages history content None media (world st1))
    as [messages w] eqn:Hbuild.
  set (st2 := mkState w (disk st1) (cache st1) (messageContext st1) (spawnContext st1)
                (chatLog st1)).
  destruct (turnLoop_spec self (iterationCap self) 0 messages st2
              ltac:(unfold iterationCap; f_equal; lia))
    as (final & st3 & new & Hloop & Hc3 & Hl3 & Hlen & Hall).
  set (answer := match final with Some c => c | None => fallback end).
  destruct (persistTurn_cases sessionKey session userContent answer st3)
    as (t1 & u1 & t2 & u2 & w4 & Hpersist). cbn zeta in Hpersist.
  set (session1 := addMessage session "user" userContent [] t1 u1) in *.
  set (session2 := addMessage session1 "assistant" answer [] t2 u2) in *.
  set (st4 := setCache (fun c => <[sessionKey := session2]> (<[sessionKey := session1]> c))
                (setWorld w4 st3)) in *.
  assert (Hturn :
    turn self sessionKey channel chatId metadata content media userContent fallback
      outMetadata st =
    match sessionText session2 with
    | Ok text =>
        (Ok (Some (Events.createOutboundMessage channel chatId answer None outMetadata)),
         setCache (fun c => <[Session.key session := session2]> c)
           (setDisk (fun d => <[getSessionPath (Session.key session) := File text]> d) st4))
    | Throw error => (Throw error, st4)
    end).
  { unfold turn. unfold bind at 1. rewrite Hget.
    unfold bind at 1. unfold setToolContexts, modify. cbn beta iota. fold st1.
    unfold bind at 1. unfold lift. rewrite Hhist.
    unfold bind at 1. unfold contextBuild. rewrite Hbuild. fold st2.
    unfold bind at 1. rewrite Hloop. fold answer.
    unfold bind at 1. rewrite Hpersist.
    destruct (sessionText session2); reflexivity. }
  exists new. rewrite Hturn. clear Hturn.
  assert (Hc3' : cache st3 = cache st0) by (rewrite Hc3; reflexivity).
  assert (Hl3' : chatLog st3 = chatLog st ++ new)
    by (rewrite Hl3; unfold st2, st1; cbn; rewrite Hlog0; reflexivity).
  assert (Hcap : Forall (fun r => hasToolCalls r = true) new ->
                 answer = fallback
                 /\ List.length new = iterationCap self).
  { intros Hf. destruct (Hall Hf) as [Hfinal ?]. unfold answer. rewrite Hfinal. auto. }
  destruct (sessionText session2) as [text|error] eqn:Htext.
  - eexists. split; [reflexivity|]. cbn.
    split; [exact Hl3'|]. split; [exact Hlen|].
    assert (Hat : <[Session.key session := session2]>
                    (<[sessionKey := session2]> (<[sessionKey := session1]> (cache st3)))
                  !! sessionKey = Some session2).
    { destruct (decide (Session.key session = sessionKey)) as [->|Hne].
      - apply lookup_insert_eq.
      - rewrite lookup_insert_ne by exact Hne. apply lookup_insert_eq. }
    split; [exists session2; exact Hat|].
    split. { intros key' Hne1 Hne2. rewrite !lookup_insert_ne by congruence.
             rewrite Hc3'. apply Hother0. exact Hne1. }
    intros _. exists answer, (t1, u1, t2, u2). cbn zeta. unfold withTurn.
    fold session1. fold session2.
    split; [exact Hcap|]. split; [exact Hat|]. split.
    + intros _. exists text. split; [exact Htext|]. split; [reflexivity|].
      split; apply lookup_insert_eq.
    + intros Hinv. unfold session2 in Htext.
      rewrite sessionText_invalid in Htext by exact Hinv. discriminate.
  - eexists. split; [reflexivity|]. cbn.
    split; [exact Hl3'|]. split; [exact Hlen|].
    split; [exists session2; apply lookup_insert_eq|].
    split. { intros key' Hne1 Hne2. rewrite !lookup_insert_ne by congruence.
             rewrite Hc3'. apply Hother0. exact Hne1. }
    intros _. exists answer, (t1, u1, t2, u2). cbn zeta. unfold withTurn.
    fold session1. fold session2.
    split; [exact Hcap|]. split; [apply lookup_insert_eq|]. split.
    + intros Hv. destruct (sessionText_addMessage session1 "assistant" answer [] t2 u2 Hv)
        as [text Htext']. unfold session2 in Htext. congruence.
    + intros Hinv. unfold session2 in Htext.
      rewrite sessionText_invalid in Htext by exact Hinv. congruence.
Qed.

End TurnFacts.

(** ** Turns *)

Section MessageFacts.
Context `{RT : Runtime}.

Lemma getOrCreate_sessionOf key st :
  exists st0, getOrCreate key st = (Ok (sessionOf key st), st0).
Proof.
  unfold sessionOf. destruct (cache st !! key) as [cached|] eqn:Hc.
  - rewrite (getOrCreate_cached _ _ _ Hc). eauto.
  - rewrite (getOrCreate_miss _ _ Hc). eauto.
Qed.

Lemma freshSession_shape key w :
  exists created updated,
    fst (freshSession key w)
    = Session.mk key [] (ValidDate created) (ValidDate updated) emptyObject.
Proof.
  unfold freshSession. destruct (Date_now w) as [created w1].
  destruct (Date_now w1) as [updated w2]. eauto.
Qed.

Lemma loadedSession_shape key messages metadata createdAt w :
  exists created updated,
    fst (loadedSession key (messages, metadata, createdAt) w)
    = Session.mk key messages created (ValidDate updated) metadata
    /\ created = match createdAt with Some d => d | None => created end
    /\ (createdAt = None -> isValidDate created = true).
Proof.
  unfold loadedSession. destruct createdAt as [d|].
  - destruct (Date_now w) as [updated w1]. exists d, updated.
    split; [reflexivity|]. split; [reflexivity|discriminate].
  - destruct (Date_now w) as [created w1]. destruct (Date_now w1) as [updated w2].
    exists (ValidDate created), updated. split; [reflexivity|]. split; reflexivity.
Qed.

Lemma resolved_key key st : Session.key (fst (resolved key st)) = key.
Proof.
  unfold resolved.
  destruct (disk st !! getSessionPath key) as [[content|]|];
    try (destruct (freshSession_shape key (world st)) as (c & u & ->); reflexivity).
  destruct (readRecord content) as [[[messages metadata] createdAt]|].
  - destruct (loadedSession_shape key messages metadata createdAt (world st))
      as (c & u & -> & _). reflexivity.
  - destruct (freshSession_shape key (world st)) as (c & u & ->). reflexivity.
Qed.

Lemma sessionOf_key key st : cacheConsistent st -> Session.key (sessionOf key st) = key.
Proof.
  intros Hcons. unfold sessionOf. destruct (cache st !! key) as [cached|] eqn:Hc.
  - apply (Hcons _ _ Hc).
  - apply resolved_key.
Qed.

Lemma sessionOf_cached key st session :
  cache st !! key = Some session -> sessionOf key st = session.
Proof. intros H. unfold sessionOf. rewrite H. reflexivity. Qed.

Lemma loadLines_not_null lines messages metadata createdAt messages' metadata' createdAt' :
  loadLines lines (messages, metadata, createdAt) = Ok (messages', metadata', createdAt') ->
  Forall (fun m => m <> JNull) messages ->
  Forall (fun m => m <> JNull) messages'.
Proof.
  revert messages metadata createdAt.
  induction lines as [|line lines IH]; intros messages metadata createdAt Hrun Hnn.
  - cbn in Hrun. injection Hrun as <- _ _. exact Hnn.
  - cbn [loadLines] in Hrun.
    destruct (loadLine (messages, metadata, createdAt) line) as [[[m1 md1] ca1]|] eqn:Hline;
      [|discriminate].
    apply (IH _ _ _ Hrun). unfold loadLine in Hline.
    destruct (JSON_parse line) as [data|]; [|discriminate].
    destruct (getProp data "_type") as [type|] eqn:Hprop; [|discriminate].
    destruct (strictEquals type "metadata").
    + injection Hline as <- _ _. exact Hnn.
    + injection Hline as <- _ _. apply Forall_app. split; [exact Hnn|].
      repeat constructor. intros ->. discriminate Hprop.
Qed.

(** A session read from a file or freshly created holds no [null]. *)
Lemma resolved_not_null key st :
  Forall (fun m => m <> JNull) (Session.messages (fst (resolved key st))).
Proof.
  unfold resolved.
  destruct (disk st !! getSessionPath key) as [[content|]|];
    try (destruct (freshSession_shape key (world st)) as (c & u & ->); constructor).
  destruct (readRecord content) as [[[messages metadata] createdAt]|] eqn:Hread.
  - destruct (loadedSession_shape key messages metadata createdAt (world st))
      as (c & u & -> & _).
    cbn. unfold readRecord in Hread.
    apply (loadLines_not_null _ _ _ _ _ _ _ Hread). constructor.
  - destruct (freshSession_shape key (world st)) as (c & u & ->). constructor.
Qed.

(** Whether the session of a key is usable does not depend on the clock. *)
Lemma usableAt_setWorld key st w :
  usableAt key st -> usableAt key (setWorld w st).
Proof.
  unfold usableAt, sessionOf, resolved. cbn [cache disk world setWorld].
  destruct (cache st !! key) as [cached|]; [auto|].
  assert (Hfresh : forall w', usable (fst (freshSession key w'))).
  { intros w'. destruct (freshSession_shape key w') as (c & u & ->).
    split; [reflexivity|constructor]. }
  destruct (disk st !! getSessionPath key) as [[content|]|]; try (intros _; apply Hfresh).
  destruct (readRecord content) as [[[messages metadata] createdAt]|];
    [|intros _; apply Hfresh].
  destruct (loadedSession_shape key messages metadata createdAt (world st))
    as (c & u & -> & Hc & _).
  destruct (loadedSession_shape key messages metadata createdAt w)
    as (c' & u' & -> & Hc' & Hnone).
  intros [Hvalid Hnn]. split; [|exact Hnn]. cbn in *.
  destruct createdAt as [d|].
  - rewrite Hc'. rewrite Hc in Hvalid. exact Hvalid.
  - apply Hnone. reflexivity.
Qed.

(** What a turn on [msg] does, from any state. *)
Lemma processMessage_spec (self : AgentLoop) (msg : InboundMessage) (st : AgentState) :
  exists new st',
    let session := sessionOf (turnSessionKey msg) st in
    snd (processMessage self msg st) = st'
    /\ chatLog st' = chatLog st ++ new
    /\ (List.length new <= iterationCap self)%nat
    /\ (exists session', cache st' !! turnSessionKey msg = Some session')
    /\ (forall key', key' <> turnSessionKey msg -> key' <> Session.key session ->
          cache st' !! key' = cache st !! key')
    /\ (Forall (fun m => m <> JNull) (Session.messages session) ->
        exists answer times,
          let session2 := withTurn session (userEntry msg) answer times in
          (Forall (fun r => hasToolCalls r = true) new ->
           answer = fallbackOf msg
           /\ List.length new = iterationCap self)
          /\ cache st' !! turnSessionKey msg = Some session2
          /\ (isValidDate (Session.createdAt session) = true ->
              exists text,
                sessionText session2 = Ok text
                /\ fst (processMessage self msg st) = Ok (Some (replyTo msg answer))
                /\ disk st' !! getSessionPath (Session.key session) = Some (File text)
                /\ cache st' !! Session.key session = Some session2)
          /\ (isValidDate (Session.createdAt session) = false ->
              fst (processMessage self msg st) = Throw "RangeError: Invalid time value")).
Proof.
  destruct (getOrCreate_sessionOf (turnSessionKey msg) st) as [st0 Hget].
  rewrite processMessage_turn. unfold userEntry, fallbackOf, replyTo, isSystem.
  destruct (String.eqb (InboundMessage.channel msg) "system").
  - exact (turn_spec self (turnSessionKey msg)
             (fst (parseOrigin (InboundMessage.chatId msg)))
             (snd (parseOrigin (InboundMessage.chatId msg)))
             (InboundMessage.metadata msg) (InboundMessage.content msg) None
             ("[System: " +:+ InboundMessage.senderId msg +:+ "] "
              +:+ InboundMessage.content msg)
             backgroundFallback None st _ _ Hget).
  - exact (turn_spec self (turnSessionKey msg) (InboundMessage.channel msg)
             (InboundMessage.chatId msg) (InboundMessage.metadata msg)
             (InboundMessage.content msg) (Some (InboundMessage.media msg))
             (InboundMessage.content msg) noResponseFallback
             (Some (InboundMessage.metadata msg)) st _ _ Hget).
Qed.

End MessageFacts.

Section Claims.
Context `{RT : Runtime}.

Lemma pair_eta {A B} (p : A * B) a b : fst p = a -> snd p = b -> p = (a, b).
Proof. destruct p. cbn. congruence. Qed.

Lemma turnSessionKey_plain msg :
  InboundMessage.channel msg <> "system" -> turnSessionKey msg = Events.getSessionKey msg.
Proof.
  intros H. unfold turnSessionKey.
  destruct (String.eqb_spec (InboundMessage.channel msg) "system"); [contradiction|reflexivity].
Qed.

Lemma isSystem_false msg : InboundMessage.channel msg <> "system" -> isSystem msg = false.
Proof. intros H. unfold isSystem. apply String.eqb_neq. exact H. Qed.

Lemma isSystem_true msg : InboundMessage.channel msg = "system" -> isSystem msg = true.
Proof. intros H. unfold isSystem. apply String.eqb_eq. exact H. Qed.

(** A turn on a consistent cache and a usable session: the result, and what
    holds of the state after it. *)
Lemma processMessage_ok (self : AgentLoop) (msg : InboundMessage) (st : AgentState) :
  cacheConsistent st ->
  usableAt (turnSessionKey msg) st ->
  exists answer times text new st',
    let session := sessionOf (turnSessionKey msg) st in
    let session2 := withTurn session (userEntry msg) answer times in
    processMessage self msg st = (Ok (Some (replyTo msg answer)), st')
    /\ cache st' !! turnSessionKey msg = Some session2
    /\ sessionText session2 = Ok text
    /\ disk st' !! getSessionPath (turnSessionKey msg) = Some (File text)
    /\ (forall key', key' <> turnSessionKey msg -> cache st' !! key' = cache st !! key')
    /\ chatLog st' = chatLog st ++ new
    /\ (Forall (fun r => hasToolCalls r = true) new ->
        answer = fallbackOf msg
        /\ List.length new = iterationCap self)
    /\ cacheConsistent st'
    /\ usableAt (turnSessionKey msg) st'.
Proof.
  intros Hcons [Hvalid Hnn].
  destruct (processMessage_spec self msg st)
    as (new & st' & Hsnd & Hlog & _ & _ & Hframe & Hdetail).
  destruct (Hdetail Hnn) as (answer & times & Hcap & Hcache & Hok & _).
  destruct (Hok Hvalid) as (text & Htext & Hfst & Hdisk & _).
  pose proof (sessionOf_key (turnSessionKey msg) st Hcons) as Hkey.
  rewrite Hkey in Hdisk, Hframe.
  exists answer, times, text, new, st'. cbn zeta.
  split; [apply pair_eta; assumption|]. split; [exact Hcache|].
  split; [exact Htext|]. split; [exact Hdisk|].
  split; [intros key' Hne; apply Hframe; exact Hne|].
  split; [exact Hlog|]. split; [exact Hcap|].
  split.
  - intros key' session' Hl.
    destruct (decide (key' = turnSessionKey msg)) as [->|Hne].
    + rewrite Hcache in Hl. injection Hl as <-.
      destruct times as [[[t1 u1] t2] u2]. exact Hkey.
    + rewrite Hframe in Hl by exact Hne. apply (Hcons _ _ Hl).
  - unfold usableAt. rewrite (sessionOf_cached _ _ _ Hcache).
    destruct times as [[[t1 u1] t2] u2]. split; [exact Hvalid|].
    cbn. rewrite <- app_assoc. apply Forall_app. split; [exact Hnn|].
    repeat constructor; discriminate.
Qed.

Lemma appended_length msgs outs times :
  List.length outs = List.length msgs -> List.length times = List.length msgs ->
  List.length (appended msgs outs times) = (2 * List.length msgs)%nat.
Proof.
  revert outs times.
  induction msgs as [|m msgs IH]; intros [|o outs] [|[[[t1 u1] t2] u2] times] Ho Ht;
    try discriminate; [reflexivity|].
  cbn in *. rewrite (IH outs times) by lia. lia.
Qed.

Lemma turnEntry_isMessageValue role content t : isMessageValue (turnEntry role content t).
Proof. split; [discriminate|]. intros fields [= <-]. discriminate. Qed.

Lemma appended_isMessageValue msgs outs times :
  Forall isMessageValue (appended msgs outs times).
Proof.
  revert outs times.
  induction msgs as [|m msgs IH]; intros [|o outs] [|[[[t1 u1] t2] u2] times];
    try constructor; [apply turnEntry_isMessageValue|].
  constructor; [apply turnEntry_isMessageValue|apply IH].
Qed.

(** The turns on the messages of one key, one after the other. *)
Lemma processSequence_ok (self : AgentLoop) (key : string)
    (msgs : list InboundMessage) (st : AgentState) :
  Forall (fun msg => InboundMessage.channel msg <> "system" /\ Events.getSessionKey msg = key) msgs ->
  cacheConsistent st ->
  usableAt key st ->
  exists outs times st',
    let before := sessionOf key st in
    let after := sessionOf key st' in
    processSequence self msgs st = (Ok (map Some outs), st')
    /\ List.length outs = List.length msgs
    /\ List.length times = List.length msgs
    /\ Session.messages after = Session.messages before ++ appended msgs outs times
    /\ Session.createdAt after = Session.createdAt before
    /\ Session.metadata after = Session.metadata before
    /\ (msgs <> [] ->
        cache st' !! key = Some after
        /\ exists text,
             sessionText after = Ok text
             /\ disk st' !! getSessionPath key = Some (File text)).
Proof.
  intros Hall. revert st. induction Hall as [|msg rest [Hns Hk] _ IH]; intros st Hcons Hsav.
  - exists [], [], st. cbn. rewrite app_nil_r.
    repeat (split; [reflexivity|]). intros H. congruence.
  - pose proof (turnSessionKey_plain msg Hns) as Htk. rewrite Hk in Htk.
    rewrite <- Htk in Hsav.
    destruct (processMessage_ok self msg st Hcons Hsav)
      as (answer & [[[t1 u1] t2] u2] & text & new1 & st1 & Hrun & Hcache & Htext & Hdisk
          & _ & _ & _ & Hcons1 & Hsav1).
    rewrite Htk in Hcache, Htext, Hdisk, Hsav1.
    unfold userEntry, replyTo in *. rewrite (isSystem_false msg Hns) in *.
    destruct (IH st1 Hcons1 Hsav1)
      as (outs & times & st' & Hseq & Hlo & Hlt & Hmsgs & Hcreated & Hmetadata & Hfile).
    set (out := Events.createOutboundMessage (InboundMessage.channel msg) (InboundMessage.chatId msg)
                  answer None (Some (InboundMessage.metadata msg))) in *.
    exists (out :: outs), ((t1, u1, t2, u2) :: times), st'. cbn zeta.
    rewrite (sessionOf_cached _ _ _ Hcache) in Hmsgs, Hcreated, Hmetadata.
    split. { cbn [processSequence]. unfold bind at 1. rewrite Hrun.
             unfold bind at 1. rewrite Hseq. reflexivity. }
    split; [cbn; lia|]. split; [cbn; lia|].
    split. { rewrite Hmsgs. cbn. rewrite <- !app_assoc. reflexivity. }
    split; [rewrite Hcreated; reflexivity|]. split; [rewrite Hmetadata; reflexivity|].
    intros _. destruct rest as [|msg2 rest].
    + cbn in Hseq. injection Hseq as _ <-.
      rewrite (sessionOf_cached _ _ _ Hcache). split; [exact Hcache|]. eauto.
    + apply Hfile. discriminate.
Qed.

(** C1, as amended. Non-system inbound messages of one session key,
    processed one at a time from a state whose cache is consistent and
    whose session of that key is usable (its creation date is a valid date
    and it holds no [null]): every call returns an outbound message, and
    the session afterwards has the entries it had before, followed, per
    message and in arrival order, by the object with role [user] and the
    inbound content and by the object with role [assistant] and the content
    of the answer; its length has grown by two per message.  This session
    is the one in the cache; the file of the key holds, one per line, the
    metadata record and these entries as [JSON.stringify] writes them; and
    [load] reads exactly this sequence from the file when [JSON.parse] reads
    back these lines. *)
Theorem C1_two_entries_per_turn (self : AgentLoop) (key : string)
    (msgs : list InboundMessage) (st : AgentState) :
  Forall (fun msg => InboundMessage.channel msg <> "system" /\ Events.getSessionKey msg = key) msgs ->
  cacheConsistent st ->
  usableAt key st ->
  exists outs times st',
    let before := sessionOf key st in
    let after := sessionOf key st' in
    let entries := appended msgs outs times in
    processSequence self msgs st = (Ok (map Some outs), st')
    /\ List.length outs = List.length msgs
    /\ List.length times = List.length msgs
    /\ Session.messages after = Session.messages before ++ entries
    /\ List.length (Session.messages after)
       = (List.length (Session.messages before) + 2 * List.length msgs)%nat
    /\ (msgs <> [] ->
        cache st' !! key = Some after
        /\ exists created updated,
             let record := metadataRecord created updated (Session.metadata before) in
             Session.createdAt before = ValidDate created
             /\ Session.updatedAt after = ValidDate updated
             /\ disk st' !! getSessionPath key
                = Some (File (linesText
                                (map JSON_stringify
                                   (JObj record :: Session.messages before ++ entries))))
             /\ (codecOk (JObj record) ->
                 Forall codecOk (Session.messages before ++ entries) ->
                 Forall isMessageValue (Session.messages before) ->
                 exists persisted st'',
                   load key st' = (Ok (Some persisted), st'')
                   /\ Session.messages persisted = Session.messages before ++ entries
                   /\ List.length (Session.messages persisted)
                      = (List.length (Session.messages before)
                         + 2 * List.length msgs)%nat)).
Proof.
  intros Hall Hcons Husable.
  destruct (processSequence_ok self key msgs st Hall Hcons Husable)
    as (outs & times & st' & Hrun & Hlo & Hlt & Hmsgs & Hcreated & Hmetadata & Hfile).
  exists outs, times, st'. cbn zeta in *.
  assert (Hlen : List.length (Session.messages (sessionOf key st'))
                 = (List.length (Session.messages (sessionOf key st))
                    + 2 * List.length msgs)%nat).
  { rewrite Hmsgs, length_app, appended_length by assumption. reflexivity. }
  split; [exact Hrun|]. split; [exact Hlo|]. split; [exact Hlt|].
  split; [exact Hmsgs|]. split; [exact Hlen|].
  intros Hne. destruct (Hfile Hne) as (Hcache & text & Htext & Hdisk).
  split; [exact Hcache|].
  destruct (sessionText_explicit _ _ Htext) as (created & updated & Hc & Hu & ->).
  rewrite Hmsgs, Hmetadata in Hdisk. rewrite Hcreated in Hc.
  exists created, updated. split; [exact Hc|]. split; [exact Hu|]. split; [exact Hdisk|].
  intros Hrecord Hcodec Hbefore.
  destruct (load_written key _ _ st' Hdisk eq_refl Hrecord Hcodec)
    as (persisted & st'' & Hload & _ & Hpersisted & _).
  { apply Forall_app. split; [exact Hbefore|apply appended_isMessageValue]. }
  exists persisted, st''. split; [exact Hload|]. split; [exact Hpersisted|].
  rewrite Hpersisted, <- Hmsgs. exact Hlen.
Qed.

Lemma replyTo_plain msg answer :
  InboundMessage.channel msg <> "system" ->
  replyTo msg answer
  = OutboundMessage.mk (InboundMessage.channel msg) (InboundMessage.chatId msg) answer []
      (InboundMessage.metadata msg).
Proof. intros H. unfold replyTo. rewrite (isSystem_false msg H). reflexivity. Qed.

Lemma replyTo_system msg answer :
  InboundMessage.channel msg = "system" ->
  replyTo msg answer
  = OutboundMessage.mk (fst (parseOrigin (InboundMessage.chatId msg)))
      (snd (parseOrigin (InboundMessage.chatId msg))) answer [] emptyObject.
Proof. intros H. unfold replyTo. rewrite (isSystem_true msg H). reflexivity. Qed.

Lemma newAgentLoop_cap (config : Config) (model : option string) :
  AgentLoop.maxIterations (newAgentLoop config model None) = Config.maxToolIterations config
  /\ AgentLoop.maxIterations
       (newAgentLoop config model (Some (Config.maxToolIterations config)))
     = Config.maxToolIterations config.
Proof.
  split; [reflexivity|]. cbn.
  destruct (Qeq_bool (Config.maxToolIterations config) 0); reflexivity.
Qed.

(** C2, as amended. A turn makes at most [iterationCap] calls of
    [provider.chat]: that is [maxIterations] when it is a whole number that
    is not negative, and for an agent built as the callers build it
    [maxIterations] is [maxToolIterations] of the configuration.  On a usable
    session the turn returns an outbound message; when every response of the
    turn asked for tool calls, the cap was reached and the content of that
    message is the fallback of its kind: "I've completed processing but have
    no response to give." for a message of a chat channel, "Background task
    completed." for a message of the system channel. *)
Theorem C2_iteration_cap (self : AgentLoop) (msg : InboundMessage) (st : AgentState) :
  (forall config model,
     AgentLoop.maxIterations (newAgentLoop config model None)
     = Config.maxToolIterations config
     /\ AgentLoop.maxIterations
          (newAgentLoop config model (Some (Config.maxToolIterations config)))
        = Config.maxToolIterations config)
  /\ (forall n : Z,
        (AgentLoop.maxIterations self == inject_Z n)%Q -> iterationCap self = Z.to_nat n)
  /\ exists new st',
       snd (processMessage self msg st) = st'
       /\ chatLog st' = chatLog st ++ new
       /\ (List.length new <= iterationCap self)%nat
       /\ (usableAt (turnSessionKey msg) st ->
           exists out,
             fst (processMessage self msg st) = Ok (Some out)
             /\ (Forall (fun r => hasToolCalls r = true) new ->
                 List.length new = iterationCap self
                 /\ (InboundMessage.channel msg <> "system" ->
                     OutboundMessage.content out = noResponseFallback)
                 /\ (InboundMessage.channel msg = "system" ->
                     OutboundMessage.content out = backgroundFallback))).
Proof.
  split; [apply newAgentLoop_cap|].
  split. { intros n Hn. unfold iterationCap. rewrite (Qceiling_comp _ _ Hn), Qceiling_Z.
           reflexivity. }
  destruct (processMessage_spec self msg st)
    as (new & st' & Hsnd & Hlog & Hlen & _ & _ & Hdetail).
  exists new, st'. repeat (split; [assumption|]).
  intros [Hvalid Hnn].
  destruct (Hdetail Hnn) as (answer & t & Hcap & _ & Hok & _).
  destruct (Hok Hvalid) as (text & _ & Hfst & _).
  exists (replyTo msg answer). split; [exact Hfst|].
  intros Hf. destruct (Hcap Hf) as [-> Hfull]. split; [exact Hfull|].
  unfold fallbackOf. split; intros Hch.
  - rewrite (replyTo_plain _ _ Hch), (isSystem_false _ Hch). reflexivity.
  - rewrite (replyTo_system _ _ Hch), (isSystem_true _ Hch). reflexivity.
Qed.

(** C3, as amended. A turn on a usable session returns exactly one
    outbound message.  For a message of a chat channel it has the channel,
    the chat id and the metadata of the inbound message; for a message of
    the system channel it has the origin channel and origin chat id parsed
    from the chat id, and empty metadata. *)
Theorem C3_one_outbound_per_turn (self : AgentLoop) (msg : InboundMessage) (st : AgentState) :
  usableAt (turnSessionKey msg) st ->
  exists out st',
    processMessage self msg st = (Ok (Some out), st')
    /\ (InboundMessage.channel msg <> "system" ->
        OutboundMessage.channel out = InboundMessage.channel msg
        /\ OutboundMessage.chatId out = InboundMessage.chatId msg
        /\ OutboundMessage.metadata out = InboundMessage.metadata msg)
    /\ (InboundMessage.channel msg = "system" ->
        OutboundMessage.channel out = fst (parseOrigin (InboundMessage.chatId msg))
        /\ OutboundMessage.chatId out = snd (parseOrigin (InboundMessage.chatId msg))
        /\ OutboundMessage.metadata out = emptyObject).
Proof.
  intros [Hvalid Hnn].
  destruct (processMessage_spec self msg st)
    as (new & st' & Hsnd & _ & _ & _ & _ & Hdetail).
  destruct (Hdetail Hnn) as (answer & t & _ & _ & Hok & _).
  destruct (Hok Hvalid) as (text & _ & Hfst & _).
  exists (replyTo msg answer), st'. split; [apply pair_eta; assumption|].
  split; intros Hch.
  - rewrite (replyTo_plain _ _ Hch). auto.
  - rewrite (replyTo_system _ _ Hch). auto.
Qed.

Lemma includes_colon (a b : string) : JS.includes (a +:+ String COLON b) ":" = true.
Proof.
  induction a as [|c a IH].
  - rewrite append_nil. destruct b; reflexivity.
  - rewrite append_cons. cbn [JS.includes]. rewrite IH. apply orb_true_r.
Qed.

Lemma parseOrigin_encoded (originChannel originChatId : string) :
  lacks COLON originChannel = true -> lacks COLON originChatId = true ->
  parseOrigin (originChannel +:+ ":" +:+ originChatId) = (originChannel, originChatId).
Proof.
  intros Hc Hi. unfold parseOrigin, JS.splitLimit.
  change (":" +:+ originChatId) with (String COLON originChatId).
  rewrite includes_colon, (split_at _ _ _ Hc), (split_lacks _ _ Hi). reflexivity.
Qed.

Lemma parseOrigin_truncates (originChannel a b : string) :
  lacks COLON originChannel = true -> lacks COLON a = true ->
  parseOrigin (originChannel +:+ ":" +:+ a +:+ ":" +:+ b) = (originChannel, a).
Proof.
  intros Hc Ha. unfold parseOrigin, JS.splitLimit.
  change (":" +:+ a +:+ ":" +:+ b) with (String COLON (a +:+ String COLON b)).
  rewrite includes_colon, (split_at _ _ _ Hc), (split_at _ _ _ Ha).
  destruct (JS.split b COLON); reflexivity.
Qed.

(** C4, at the failing input. A system message whose chat id encodes the
    origin "telegram" with the chat id "42" is resolved to the session key
    "telegram:42", and so is every origin whose chat id has no colon; but
    for an origin chat id with a colon, as in "telegram:a:b", [split(":", 2)]
    drops what follows the second colon: the key used is "telegram:a", and
    the turn stores its entries in the session of that key. *)
Theorem C4_origin_chat_id_truncated (self : AgentLoop) (senderId content : string)
    (timestamp : Date) (media : list string) (metadata : json) (st : AgentState) :
  let system := fun chatId =>
    InboundMessage.mk "system" senderId chatId content timestamp media metadata in
  turnSessionKey (system "telegram:42") = "telegram:42"
  /\ (forall originChannel originChatId,
        lacks COLON originChannel = true -> lacks COLON originChatId = true ->
        turnSessionKey (system (originChannel +:+ ":" +:+ originChatId))
        = originChannel +:+ ":" +:+ originChatId)
  /\ (forall originChannel a b,
        lacks COLON originChannel = true -> lacks COLON a = true ->
        turnSessionKey (system (originChannel +:+ ":" +:+ a +:+ ":" +:+ b))
        = originChannel +:+ ":" +:+ a)
  /\ turnSessionKey (system "telegram:a:b") = "telegram:a"
  /\ turnSessionKey (system "telegram:a:b") <> "telegram" +:+ ":" +:+ "a:b"
  /\ exists session,
       cache (snd (processMessage self (system "telegram:a:b") st)) !! "telegram:a"
       = Some session.
Proof.
  intros system. split; [reflexivity|]. split; [|split; [|split; [reflexivity|split]]].
  - intros originChannel originChatId Hc Hi. unfold turnSessionKey, system. cbn.
    rewrite (parseOrigin_encoded _ _ Hc Hi). reflexivity.
  - intros originChannel a b Hc Ha. unfold turnSessionKey, system. cbn.
    rewrite (parseOrigin_truncates _ _ _ Hc Ha). reflexivity.
  - discriminate.
  - destruct (processMessage_spec self (system "telegram:a:b") st)
      as (new & st' & Hsnd & _ & _ & Hcache & _).
    rewrite Hsnd. exact Hcache.
Qed.

(** C10. [processDirect] does not use its [sessionKey] argument: whatever
    key is passed, the call is the one made with "cli:direct"; the inbound
    message it builds has that session key.  On a consistent cache the turn
    leaves the cache entries of all other keys (among them a scheduler key)
    as they were; when the session of "cli:direct" is usable it stores its
    two entries in that session, returns, and writes the file of
    "cli:direct". *)
Theorem C10_processDirect_ignores_sessionKey (self : AgentLoop) (content sessionKey : string)
    (st : AgentState) :
  let st0 := snd (now st) in
  let st' := snd (processDirect self content sessionKey st) in
  processDirect self content sessionKey st = processDirect self content "cli:direct" st
  /\ (forall timestamp,
        turnSessionKey (InboundMessage.mk "cli" "user" "direct" content timestamp [] emptyObject)
        = "cli:direct")
  /\ (exists session, cache st' !! "cli:direct" = Some session)
  /\ (cacheConsistent st ->
      (forall key', key' <> "cli:direct" -> cache st' !! key' = cache st !! key')
      /\ (forall jobId, cache st' !! ("scheduler:" +:+ jobId)
                        = cache st !! ("scheduler:" +:+ jobId))
      /\ (usableAt "cli:direct" st ->
          exists answer times reply text,
            cache st' !! "cli:direct"
            = Some (withTurn (sessionOf "cli:direct" st0) content answer times)
            /\ fst (processDirect self content sessionKey st) = Ok reply
            /\ sessionText (sessionOf "cli:direct" st') = Ok text
            /\ disk st' !! getSessionPath "cli:direct" = Some (File text))).
Proof.
  intros st0 st'. split; [reflexivity|]. split; [reflexivity|].
  assert (Hst0 : st0 = setWorld (snd (Date_now (world st))) st).
  { unfold st0, now. destruct (Date_now (world st)); reflexivity. }
  clearbody st0.
  set (msg := InboundMessage.mk "cli" "user" "direct" content
                (ValidDate (fst (Date_now (world st)))) [] emptyObject).
  assert (Hrun : processDirect self content sessionKey st =
                 match processMessage self msg st0 with
                 | (Ok response, st1) =>
                     (Ok match response with
                         | Some r => strOr (OutboundMessage.content r) EmptyString
                         | None => EmptyString
                         end, st1)
                 | (Throw error, st1) => (Throw error, st1)
                 end).
  { rewrite Hst0. unfold processDirect, bind, now, ret, msg.
    destruct (Date_now (world st)) as [t w]. cbn [fst snd].
    destruct (processMessage _ _ (setWorld w st)) as [[response|error] st1]; reflexivity. }
  assert (Hst : st' = snd (processMessage self msg st0)).
  { unfold st'. rewrite Hrun.
    destruct (processMessage self msg st0) as [[response|error] st1]; reflexivity. }
  assert (Hcache0 : cache st0 = cache st) by (rewrite Hst0; reflexivity).
  destruct (processMessage_spec self msg st0)
    as (new & st1 & Hsnd & _ & _ & Hsome & Hframe & Hdetail).
  rewrite Hcache0 in Hframe.
  change (turnSessionKey msg) with "cli:direct" in *.
  change (userEntry msg) with content in *.
  rewrite <- Hst in Hsnd. subst st1.
  split; [exact Hsome|].
  intros Hcons.
  assert (Hcons0 : cacheConsistent st0).
  { intros key session. rewrite Hcache0. apply Hcons. }
  pose proof (sessionOf_key "cli:direct" st0 Hcons0) as Hkey.
  rewrite Hkey in Hframe, Hdetail.
  assert (Hother : forall key', key' <> "cli:direct" -> cache st' !! key' = cache st !! key').
  { intros key' Hne. apply Hframe; exact Hne. }
  split; [exact Hother|]. split; [intros jobId; apply Hother; discriminate|].
  intros Husable.
  assert (Husable0 : usableAt "cli:direct" st0).
  { rewrite Hst0. apply usableAt_setWorld. exact Husable. }
  destruct Husable0 as [Hvalid Hnn].
  destruct (Hdetail Hnn) as (answer & times & _ & Hcache & Hok & _).
  destruct (Hok Hvalid) as (text & Htext & Hfst & Hdisk & _).
  assert (Hreply : exists reply, fst (processDirect self content sessionKey st) = Ok reply).
  { rewrite Hrun. destruct (processMessage self msg st0) as [[response|error] st1].
    - eexists. reflexivity.
    - discriminate Hfst. }
  destruct Hreply as [reply Hreply]. exists answer, times, reply, text.
  rewrite (sessionOf_cached _ _ _ Hcache). auto.
Qed.

(** A turn on a session whose creation date is an Invalid Date throws at
    [save], after the two entries were pushed on the cached session. *)
Lemma unsavable_turn_throws (self : AgentLoop) (msg : InboundMessage) (st : AgentState) :
  Forall (fun m => m <> JNull) (Session.messages (sessionOf (turnSessionKey msg) st)) ->
  isValidDate (Session.createdAt (sessionOf (turnSessionKey msg) st)) = false ->
  fst (processMessage self msg st) = Throw "RangeError: Invalid time value"
  /\ exists answer times,
       cache (snd (processMessage self msg st)) !! turnSessionKey msg
       = Some (withTurn (sessionOf (turnSessionKey msg) st) (userEntry msg) answer times).
Proof.
  intros Hnn Hinv. destruct (processMessage_spec self msg st)
    as (new & st' & Hsnd & _ & _ & _ & _ & Hdetail).
  destruct (Hdetail Hnn) as (answer & times & _ & Hcache & _ & Hthrow).
  split; [apply Hthrow; exact Hinv|]. exists answer, times. rewrite Hsnd. exact Hcache.
Qed.

End Claims.

(** ** The claims on the reference runtime *)

(** C1 on two messages of the session "telegram:42", from an empty store:
    two answers, four entries in the session of the key, and the same four
    entries in the session that [load] reads from the file. *)
Lemma C1_witness :
  let self := newAgentLoop Ref.config None None in
  let msgs := [Ref.inbound "telegram" "42" "hello" emptyObject;
               Ref.inbound "telegram" "42" "again" emptyObject] in
  let st := Ref.state (Ref.mkWorld 1000 [Ref.toolAnswer; Ref.textAnswer "hi"]) ∅ ∅ in
  let run := processSequence (RT := Ref.runtime) self msgs st in
  exists outs persisted,
    fst run = Ok (map Some outs)
    /\ List.length outs = 2%nat
    /\ List.length (Session.messages (sessionOf "telegram:42" (snd run))) = 4%nat
    /\ fst (load (RT := Ref.runtime) "telegram:42" (snd run)) = Ok (Some persisted)
    /\ Session.messages persisted = Session.messages (sessionOf "telegram:42" (snd run))
    /\ map historyEntry (Session.messages persisted)
       = [Ok (HistoryEntry.mk (Some (JStr "user")) (Some (JStr "hello")));
          Ok (HistoryEntry.mk (Some (JStr "assistant")) (Some (JStr "hi")));
          Ok (HistoryEntry.mk (Some (JStr "user")) (Some (JStr "again")));
          Ok (HistoryEntry.mk (Some (JStr "assistant")) (Some (JStr "done")))].
Proof.
  intros self msgs st run.
  destruct (C1_two_entries_per_turn (RT := Ref.runtime) self "telegram:42" msgs st)
    as (outs & times & st' & Hrun & Hlo & _ & Hmsgs & Hlen & Hfile).
  - repeat constructor; discriminate.
  - intros key session H.
    change (cache st) with (∅ : gmap string Session) in H.
    rewrite lookup_empty in H. discriminate.
  - split; [vm_compute; reflexivity|vm_compute; constructor].
  - fold run in Hrun.
    assert (Hst : st' = snd run) by (rewrite Hrun; reflexivity).
    subst st'. cbn zeta in *.
    destruct (Hfile ltac:(discriminate))
      as (_ & created & updated & Hcreated & Hupdated & _ & Hload).
    vm_compute in Hcreated, Hupdated.
    injection Hcreated as <-. injection Hupdated as <-.
    rewrite <- Hmsgs in Hload.
    assert (Hentries :
              exists entries,
                Session.messages (sessionOf (RT := Ref.runtime) "telegram:42" (snd run))
                = entries
                /\ Forall (codecOk (RT := Ref.runtime)) entries
                /\ map historyEntry entries
                   = [Ok (HistoryEntry.mk (Some (JStr "user")) (Some (JStr "hello")));
                      Ok (HistoryEntry.mk (Some (JStr "assistant")) (Some (JStr "hi")));
                      Ok (HistoryEntry.mk (Some (JStr "user")) (Some (JStr "again")));
                      Ok (HistoryEntry.mk (Some (JStr "assistant")) (Some (JStr "done")))]).
    { eexists. split; [vm_compute; reflexivity|].
      split; [repeat constructor; vm_compute; reflexivity|reflexivity]. }
    destruct Hentries as (entries & Hentries & Hcodec & Hhistory).
    destruct Hload as (persisted & st'' & Hload & Hpersisted & _).
    + repeat split; vm_compute; reflexivity.
    + rewrite Hentries. exact Hcodec.
    + constructor.
    + exists outs, persisted. split; [rewrite Hrun; reflexivity|]. split; [exact Hlo|].
      split; [exact Hlen|]. split; [rewrite Hload; reflexivity|].
      split; [exact Hpersisted|]. rewrite Hpersisted, Hentries. exact Hhistory.
Defined.

(** C1, as stated, fails on a session whose creation date is an Invalid
    Date, which is what [load] makes of a file whose [createdAt] is not a
    date: the turn throws at [save], the file keeps its one line, and the
    session read from it afterwards has no entry, not two. *)
Lemma C1_counterexample :
  let self := newAgentLoop Ref.config None None in
  let path := "/home/user/.miniclawd/sessions/telegram_42.jsonl" in
  let text := Ref.stringify (JObj [("_type", JStr "metadata"); ("createdAt", JStr "garbage")])
              +:+ String LF EmptyString in
  let st := Ref.state (Ref.mkWorld 1000 [Ref.textAnswer "ok"]) {[ path := File text ]} ∅ in
  let msgs := [Ref.inbound "telegram" "42" "hello" emptyObject] in
  let run := processSequence (RT := Ref.runtime) self msgs st in
  Session.messages (sessionOf (RT := Ref.runtime) "telegram:42" st) = []
  /\ fst run = Throw "RangeError: Invalid time value"
  /\ disk (snd run) !! path = Some (File text)
  /\ exists persisted,
       fst (load (RT := Ref.runtime) "telegram:42"
              (Ref.state (world (snd run)) (disk (snd run)) ∅))
       = Ok (Some persisted)
       /\ List.length (Session.messages persisted) <> (0 + 2 * List.length msgs)%nat.
Proof.
  intros self path text st msgs run.
  split; [vm_compute; reflexivity|]. split; [vm_compute; reflexivity|].
  split; [vm_compute; reflexivity|].
  eexists. split; [vm_compute; reflexivity|]. discriminate.
Qed.

(** C2, as stated, fails on a message of the system channel: with a model
    that asks for a tool call in every response, the cap of two calls is
    reached and the content sent is "Background task completed.". *)
Lemma C2_counterexample :
  let self := newAgentLoop Ref.config None (Some (2 # 1)) in
  let msg := Ref.inbound "system" "telegram:42" "task done" emptyObject in
  let st := Ref.state (Ref.mkWorld 1000 [Ref.toolAnswer; Ref.toolAnswer; Ref.toolAnswer]) ∅ ∅ in
  let out := OutboundMessage.mk "telegram" "42" "Background task completed." [] emptyObject in
  fst (processMessage (RT := Ref.runtime) self msg st) = Ok (Some out)
  /\ List.length (chatLog (snd (processMessage (RT := Ref.runtime) self msg st)))
     = iterationCap self
  /\ Forall (fun r => hasToolCalls r = true)
       (chatLog (snd (processMessage (RT := Ref.runtime) self msg st)))
  /\ OutboundMessage.content out <> noResponseFallback.
Proof.
  intros self msg st out.
  split; [vm_compute; reflexivity|]. split; [vm_compute; reflexivity|].
  split; [vm_compute; repeat constructor|]. discriminate.
Qed.

(** C2 on the reference runtime, for a chat message and a cap of two. *)
Lemma C2_witness :
  let self := newAgentLoop Ref.config None (Some (2 # 1)) in
  let msg := Ref.inbound "telegram" "42" "hello" emptyObject in
  let st := Ref.state (Ref.mkWorld 1000 [Ref.toolAnswer; Ref.toolAnswer; Ref.toolAnswer]) ∅ ∅ in
  exists out,
    (List.length (chatLog (snd (processMessage (RT := Ref.runtime) self msg st))) <= 2)%nat
    /\ fst (processMessage (RT := Ref.runtime) self msg st) = Ok (Some out)
    /\ OutboundMessage.content out = noResponseFallback.
Proof.
  intros self msg st.
  destruct (C2_iteration_cap (RT := Ref.runtime) self msg st)
    as (_ & _ & new & st' & Hsnd & Hlog & Hlen & Hok).
  destruct (Hok ltac:(split; [vm_compute; reflexivity|vm_compute; constructor])) as (out & Hfst & Hfall).
  exists out. rewrite Hsnd, Hlog. split; [exact Hlen|]. split; [exact Hfst|].
  apply Hfall.
  - assert (Hnew : new = chatLog st') by (rewrite Hlog; reflexivity).
    rewrite Hnew, <- Hsnd. vm_compute. repeat constructor.
  - discriminate.
Defined.

(** C3, as stated, fails on a message of the system channel that carries
    metadata: the outbound message has empty metadata. *)
Lemma C3_counterexample :
  let self := newAgentLoop Ref.config None None in
  let msg := Ref.inbound "system" "telegram:42" "task done" (JObj [("message_id", JNum 7)]) in
  let st := Ref.state (Ref.mkWorld 1000 [Ref.textAnswer "ok"]) ∅ ∅ in
  let out := OutboundMessage.mk "telegram" "42" "ok" [] emptyObject in
  fst (processMessage (RT := Ref.runtime) self msg st) = Ok (Some out)
  /\ OutboundMessage.metadata out <> InboundMessage.metadata msg.
Proof.
  intros self msg st out. split; [vm_compute; reflexivity|]. discriminate.
Qed.

(** C3 on the reference runtime, for a chat message with metadata. *)
Lemma C3_witness :
  let self := newAgentLoop Ref.config None None in
  let msg := Ref.inbound "telegram" "42" "hello" (JObj [("message_id", JNum 7)]) in
  let st := Ref.state (Ref.mkWorld 1000 [Ref.textAnswer "ok"]) ∅ ∅ in
  exists out st',
    processMessage (RT := Ref.runtime) self msg st = (Ok (Some out), st')
    /\ OutboundMessage.channel out = "telegram"
    /\ OutboundMessage.chatId out = "42"
    /\ OutboundMessage.metadata out = JObj [("message_id", JNum 7)].
Proof.
  intros self msg st.
  destruct (C3_one_outbound_per_turn (RT := Ref.runtime) self msg st
              ltac:(split; [vm_compute; reflexivity|vm_compute; constructor]))
    as (out & st' & Hrun & Hplain & _).
  exists out, st'. split; [exact Hrun|]. apply Hplain. discriminate.
Defined.

(** C4 on the reference runtime: the entries of the turn for the origin
    chat id "a:b" go to the file of "telegram:a". *)
Lemma C4_witness :
  let self := newAgentLoop Ref.config None None in
  let st := Ref.state (Ref.mkWorld 1000 [Ref.textAnswer "ok"]) ∅ ∅ in
  let msg := InboundMessage.mk "system" "subagent" "telegram:a:b" "task done"
               (ValidDate 0) [] emptyObject in
  turnSessionKey msg = "telegram:a"
  /\ exists session,
       cache (snd (processMessage (RT := Ref.runtime) self msg st)) !! "telegram:a"
       = Some session.
Proof.
  intros self st msg.
  destruct (C4_origin_chat_id_truncated (RT := Ref.runtime) self "subagent" "task done"
              (ValidDate 0) [] emptyObject st)
    as (_ & _ & _ & Hkey & _ & Hcache).
  split; [exact Hkey|exact Hcache].
Defined.

(** C5 on the reference runtime: a session with two messages. *)
Lemma C5_witness :
  let session :=
    Session.mk "telegram:42"
      [newMessage (RT := Ref.runtime) "user" "hello" [] 5;
       newMessage (RT := Ref.runtime) "assistant"
         ("line one" +:+ String LF "line two") [] 6]
      (ValidDate 1) (ValidDate 6) (JObj [("topic", JStr "greeting")]) in
  exists st1 loaded st2,
    save (RT := Ref.runtime) session (Ref.state (Ref.mkWorld 7 []) ∅ ∅) = (Ok tt, st1)
    /\ load (RT := Ref.runtime) "telegram:42" st1 = (Ok (Some loaded), st2)
    /\ Session.messages loaded = Session.messages session
    /\ Session.metadata loaded = Session.metadata session.
Proof.
  intros session.
  destruct (C5_save_load_roundtrip (RT := Ref.runtime) session
              (Ref.state (Ref.mkWorld 7 []) ∅ ∅))
    as (st1 & loaded & st2 & Hsave & Hload & _ & Hm & Hmd).
  - repeat split; try reflexivity. repeat constructor.
  - intros meta H. vm_compute in H. injection H as <-. repeat split; vm_compute; reflexivity.
  - repeat constructor; vm_compute; reflexivity.
  - exists st1, loaded, st2. auto.
Defined.

(** C5, as stated, fails on a session whose creation date is an Invalid
    Date.  [load] returns such a session for a file whose [createdAt] is
    not a date; [save] throws on it and writes nothing, so that a message
    added to the session is not in the file and not in the session read
    from it. *)
Lemma C5_counterexample :
  let path := "/home/user/.miniclawd/sessions/telegram_42.jsonl" in
  let text := Ref.stringify (JObj [("_type", JStr "metadata"); ("createdAt", JStr "garbage")])
              +:+ String LF EmptyString in
  let st := Ref.state (Ref.mkWorld 7 []) {[ path := File text ]} ∅ in
  let session := Session.mk "telegram:42" [] InvalidDate (ValidDate 7) emptyObject in
  let changed := addMessage (RT := Ref.runtime) session "user" "hello" [] 8 9 in
  let saved := save (RT := Ref.runtime) changed (snd (load (RT := Ref.runtime) "telegram:42" st)) in
  fst (load (RT := Ref.runtime) "telegram:42" st) = Ok (Some session)
  /\ fst saved = Throw "RangeError: Invalid time value"
  /\ disk (snd saved) !! path = Some (File text)
  /\ exists reloaded,
       fst (load (RT := Ref.runtime) "telegram:42" (snd saved)) = Ok (Some reloaded)
       /\ Session.messages reloaded <> Session.messages changed.
Proof.
  intros path text st session changed saved.
  split; [vm_compute; reflexivity|]. split; [vm_compute; reflexivity|].
  split; [vm_compute; reflexivity|].
  eexists. split; [vm_compute; reflexivity|]. discriminate.
Qed.


(** C7 on the reference runtime: a model call that throws. *)
Lemma C7_witness :
  let self := newAIProvider Ref.config None in
  let st := Ref.state (Ref.mkWorld 0 [Throw "timeout"]) ∅ ∅ in
  exists response st',
    chat (RT := Ref.runtime) self [] None None None None st = (Ok response, st')
    /\ LLMResponse.content response = Some "Error calling LLM: timeout"
    /\ LLMResponse.toolCalls response = [].
Proof.
  intros self st.
  destruct (C7_failures_become_text (RT := Ref.runtime)) as [Hchat _].
  destruct (Hchat self [] None None None None st)
    as (response & st' & Hrun & _ & Hsdk).
  exists response, st'. split; [exact Hrun|].
  apply (Hsdk "claude-sonnet-4" "timeout" (Ref.mkWorld 1 [])); reflexivity.
Defined.

(** C8 on the reference runtime. *)
Lemma C8_witness :
  Session.messages (Session.mk "k" [JStr "m"] (ValidDate 0) (ValidDate 0) emptyObject)
  `prefix_of`
  Session.messages
    (applyOp (RT := Ref.runtime) (OpAddMessage "user" "hello" [])
       (Session.mk "k" [JStr "m"] (ValidDate 0) (ValidDate 0) emptyObject) 1 2).
Proof.
  apply (C8_append_only_except_clear (RT := Ref.runtime)). discriminate.
Defined.

(** C10 on the reference runtime, called as the scheduler calls it. *)
Lemma C10_witness :
  let self := newAgentLoop Ref.config None None in
  let st := Ref.state (Ref.mkWorld 1000 [Ref.textAnswer "ok"]) ∅ ∅ in
  let st' := snd (processDirect (RT := Ref.runtime) self "run" "scheduler:job1" st) in
  cache st' !! "scheduler:job1" = None
  /\ exists reply text,
       fst (processDirect (RT := Ref.runtime) self "run" "scheduler:job1" st) = Ok reply
       /\ disk st' !! getSessionPath (RT := Ref.runtime) "cli:direct" = Some (File text).
Proof.
  intros self st st'.
  destruct (C10_processDirect_ignores_sessionKey (RT := Ref.runtime) self "run"
              "scheduler:job1" st)
    as (_ & _ & _ & Hcons).
  destruct Hcons as (_ & Hjob & Hsav).
  - intros key session H.
    change (cache st) with (∅ : gmap string Session) in H.
    rewrite lookup_empty in H. discriminate.
  - split; [apply (Hjob "job1")|].
    destruct (Hsav ltac:(split; [vm_compute; reflexivity|vm_compute; constructor]))
      as (answer & t & reply & text & _ & Hfst & _ & Hdisk).
    exists reply, text. auto.
Defined.

(** A cap that is not a whole number: with [maxIterations] 2.5 the loop
    makes three calls. *)
Example fractional_cap_example :
  let self := newAgentLoop Ref.config None (Some (5 # 2)) in
  let msg := Ref.inbound "telegram" "42" "hello" emptyObject in
  let st :=
    Ref.state (Ref.mkWorld 1000 [Ref.toolAnswer; Ref.toolAnswer; Ref.toolAnswer;
                                  Ref.toolAnswer]) ∅ ∅ in
  iterationCap self = 3%nat
  /\ List.length (chatLog (snd (processMessage (RT := Ref.runtime) self msg st))) = 3%nat.
Proof. split; vm_compute; reflexivity. Qed.

(** The transcript that two turns leave in the file of their key, read by a
    session manager with an empty cache. *)
Example reload_after_turns_example :
  let self := newAgentLoop Ref.config None None in
  let msgs := [Ref.inbound "telegram" "42" "hello" emptyObject;
               Ref.inbound "telegram" "42" "again" emptyObject] in
  let st := Ref.state (Ref.mkWorld 1000 [Ref.toolAnswer; Ref.textAnswer "hi"]) ∅ ∅ in
  let st' := snd (processSequence (RT := Ref.runtime) self msgs st) in
  exists loaded,
    fst (load (RT := Ref.runtime) "telegram:42" (Ref.state (world st') (disk st') ∅))
    = Ok (Some loaded)
    /\ map historyEntry (Session.messages loaded)
       = [Ok (HistoryEntry.mk (Some (JStr "user")) (Some (JStr "hello")));
          Ok (HistoryEntry.mk (Some (JStr "assistant")) (Some (JStr "hi")));
          Ok (HistoryEntry.mk (Some (JStr "user")) (Some (JStr "again")));
          Ok (HistoryEntry.mk (Some (JStr "assistant")) (Some (JStr "done")))].
Proof. eexists. split; vm_compute; reflexivity. Qed.

(** A file whose [createdAt] is not a date gives a session that cannot be
    saved: the turn throws at [save], and the file keeps its one line. *)
Example unsavable_session_example :
  let self := newAgentLoop Ref.config None None in
  let text := Ref.stringify (JObj [("_type", JStr "metadata"); ("createdAt", JStr "garbage")])
              +:+ String LF EmptyString in
  let st :=
    Ref.state (Ref.mkWorld 1000 [Ref.textAnswer "ok"])
      {[ "/home/user/.miniclawd/sessions/telegram_42.jsonl" := File text ]} ∅ in
  let run := processMessage (RT := Ref.runtime) self
               (Ref.inbound "telegram" "42" "hello" emptyObject) st in
  Session.createdAt (sessionOf (RT := Ref.runtime) "telegram:42" st) = InvalidDate
  /\ fst run = Throw "RangeError: Invalid time value"
  /\ disk (snd run) !! "/home/user/.miniclawd/sessions/telegram_42.jsonl" = Some (File text).
Proof. repeat split; vm_compute; reflexivity. Qed.

(* ===================================================================== *)
(** * Part III: the code around the claims                                *)
(* ===================================================================== *)

(** ** Strings and file names ([src/utils/paths.ts]) *)

Section PathFacts.

Lemma string_app_nil_r (s : string) : s +:+ EmptyString = s.
Proof. induction s as [|c s IH]; [reflexivity|]. rewrite append_cons, IH. reflexivity. Qed.

Lemma string_app_length (a b : string) :
  String.length (a +:+ b) = (String.length a + String.length b)%nat.
Proof. induction a as [|c a IH]; [reflexivity|]. rewrite append_cons. cbn. rewrite IH. reflexivity. Qed.

Lemma firstChars_length (n : nat) (s : string) :
  String.length (JSText.firstChars n s) = Nat.min n (String.length s).
Proof.
  revert s. induction n as [|n IH]; intros [|c s]; cbn; try reflexivity.
  rewrite IH. reflexivity.
Qed.

Lemma lacks_app (c : ascii) (a b : string) :
  lacks c (a +:+ b) = lacks c a && lacks c b.
Proof.
  induction a as [|d a IH]; [reflexivity|]. rewrite append_cons. cbn. rewrite IH.
  apply andb_assoc.
Qed.

(** X1. A string that fits in [maxLen] is returned as it is; a longer one is
    cut so that, with the suffix, the result has exactly [maxLen]
    characters: provided that the suffix itself fits in [maxLen]. *)
Theorem truncateString_fits (s : string) (maxLen : Z) (suffix : string) :
  Z.of_nat (String.length suffix) <= maxLen ->
  Z.of_nat (String.length (truncateString s (Some maxLen) (Some suffix)))
  = Z.min (Z.of_nat (String.length s)) maxLen
  /\ (Z.of_nat (String.length s) <= maxLen ->
      truncateString s (Some maxLen) (Some suffix) = s)
  /\ (maxLen < Z.of_nat (String.length s) ->
      truncateString s (Some maxLen) (Some suffix)
      = JSText.firstChars (Z.to_nat (maxLen - Z.of_nat (String.length suffix))) s +:+ suffix).
Proof.
  intros Hfit. unfold truncateString.
  destruct (Z.leb_spec (Z.of_nat (String.length s)) maxLen) as [Hle|Hgt].
  - split; [lia|]. split; [reflexivity|lia].
  - assert (Hcut : JSText.sliceTo s (maxLen - Z.of_nat (String.length suffix))
                   = JSText.firstChars (Z.to_nat (maxLen - Z.of_nat (String.length suffix))) s).
    { unfold JSText.sliceTo.
      destruct (Z.ltb_spec (maxLen - Z.of_nat (String.length suffix)) 0); [lia|].
      f_equal. lia. }
    rewrite Hcut. split; [|split; [lia|reflexivity]].
    rewrite string_app_length, firstChars_length. lia.
Qed.

Lemma truncateString_fits_witness :
  truncateString "hello world" (Some 8) (Some "...") = "hello...".
Proof.
  destruct (truncateString_fits "hello world" 8 "..." ltac:(cbn; lia)) as (_ & _ & H).
  rewrite H by (cbn; lia). reflexivity.
Defined.

(** X2. When the suffix is longer than [maxLen], a string longer than
    [maxLen] is not shortened to [maxLen]: [slice] is called with a negative
    end, which counts from the end of the string, and the result is longer
    than [maxLen]. *)
Theorem truncateString_overshoots (s : string) (maxLen : Z) (suffix : string) :
  maxLen < Z.of_nat (String.length suffix) ->
  maxLen < Z.of_nat (String.length s) ->
  let cut := Z.of_nat (String.length suffix) - maxLen in
  truncateString s (Some maxLen) (Some suffix)
  = JSText.firstChars (Z.to_nat (Z.of_nat (String.length s) - cut)) s +:+ suffix
  /\ maxLen < Z.of_nat (String.length (truncateString s (Some maxLen) (Some suffix))).
Proof.
  intros Hsuffix Hlong cut. unfold truncateString.
  destruct (Z.leb_spec (Z.of_nat (String.length s)) maxLen) as [Hle|Hgt]; [lia|].
  unfold JSText.sliceTo.
  destruct (Z.ltb_spec (maxLen - Z.of_nat (String.length suffix)) 0); [|lia].
  replace (Z.to_nat (Z.max (Z.of_nat (String.length s)
                            + (maxLen - Z.of_nat (String.length suffix))) 0))
    with (Z.to_nat (Z.of_nat (String.length s) - cut)) by (unfold cut; lia).
  split; [reflexivity|]. rewrite string_app_length. lia.
Qed.

Lemma truncateString_overshoots_witness :
  truncateString "abcdefgh" (Some 2) None = "abcdefg...".
Proof.
  destruct (truncateString_overshoots "abcdefgh" 2 "..." ltac:(cbn; lia) ltac:(cbn; lia))
    as [H _].
  exact H.
Defined.

Lemma split_cons (s : string) (sep : ascii) :
  exists p rest, JS.split s sep = p :: rest.
Proof.
  induction s as [|c s (p & rest & IH)]; [cbn; eauto|].
  cbn [JS.split]. destruct (Ascii.eqb c sep); [eauto|]. rewrite IH. eauto.
Qed.

(** X3. [parseSessionKey] throws exactly on the keys without a colon; a key
    [channel:chatId] whose parts have no colon is split into its parts; of
    a chat id with a colon only the part before that colon is returned. *)
Theorem parseSessionKey_spec :
  (forall key,
     lacks COLON key = true ->
     parseSessionKey key = Throw ("Error: Invalid session key: " +:+ key))
  /\ (forall key, lacks COLON key = false -> exists parts, parseSessionKey key = Ok parts)
  /\ (forall channel chatId,
        lacks COLON channel = true -> lacks COLON chatId = true ->
        parseSessionKey (channel +:+ ":" +:+ chatId) = Ok (channel, chatId))
  /\ (forall channel a b,
        lacks COLON channel = true -> lacks COLON a = true ->
        parseSessionKey (channel +:+ ":" +:+ a +:+ ":" +:+ b) = Ok (channel, a)).
Proof.
  split; [|split; [|split]].
  - intros key H. unfold parseSessionKey, JS.splitLimit. rewrite (split_lacks _ _ H).
    reflexivity.
  - intros key H. unfold parseSessionKey, JS.splitLimit.
    assert (Hsplit : exists p0 p1 rest, JS.split key COLON = p0 :: p1 :: rest).
    { induction key as [|c key IH]; [discriminate|]. cbn [lacks] in H. cbn [JS.split].
      destruct (Ascii.eqb c COLON).
      - destruct (split_cons key COLON) as (p & rest & ->). eauto.
      - cbn in H. destruct (IH H) as (p0 & p1 & rest & ->). eauto. }
    destruct Hsplit as (p0 & p1 & rest & ->). eexists. reflexivity.
  - intros channel chatId Hc Hi. unfold parseSessionKey, JS.splitLimit.
    change (":" +:+ chatId) with (String COLON chatId).
    rewrite (split_at _ _ _ Hc), (split_lacks _ _ Hi). reflexivity.
  - intros channel a b Hc Ha. unfold parseSessionKey, JS.splitLimit.
    change (":" +:+ a +:+ ":" +:+ b) with (String COLON (a +:+ String COLON b)).
    rewrite (split_at _ _ _ Hc), (split_at _ _ _ Ha).
    destruct (JS.split b COLON); reflexivity.
Qed.

(** Reversal of strings, as [trimEnd] uses it. *)
Lemma rev_app_acc (s acc : string) :
  String.rev_app s acc = String.rev_app s EmptyString +:+ acc.
Proof.
  revert acc. induction s as [|c s IH]; intros acc; [reflexivity|].
  cbn. rewrite (IH (String c acc)), (IH (String c EmptyString)), append_assoc. reflexivity.
Qed.

Lemma rev_cons (c : ascii) (s : string) :
  String.rev (String c s) = String.rev s +:+ String c EmptyString.
Proof. unfold String.rev. cbn. apply rev_app_acc. Qed.

Lemma rev_app_app (a b acc : string) :
  String.rev_app (a +:+ b) acc = String.rev_app b (String.rev_app a acc).
Proof.
  revert acc. induction a as [|c a IH]; intros acc; [reflexivity|].
  rewrite append_cons. cbn. apply IH.
Qed.

Lemma rev_snoc (s : string) (c : ascii) :
  String.rev (s +:+ String c EmptyString) = String c (String.rev s).
Proof. unfold String.rev. rewrite rev_app_app. reflexivity. Qed.

Lemma rev_involutive (s : string) : String.rev (String.rev s) = s.
Proof.
  induction s as [|c s IH]; [reflexivity|]. rewrite rev_cons, rev_snoc, IH. reflexivity.
Qed.

Lemma lacks_rev (c : ascii) (s : string) : lacks c (String.rev s) = lacks c s.
Proof.
  induction s as [|d s IH]; [reflexivity|]. rewrite rev_cons, lacks_app, IH. cbn.
  rewrite andb_true_r. apply andb_comm.
Qed.

Lemma lacks_trimStart (c : ascii) (s : string) :
  lacks c s = true -> lacks c (JS.trimStart s) = true.
Proof.
  induction s as [|d s IH]; [reflexivity|]. intros H. cbn [JS.trimStart].
  destruct (JS.is_whitespace d); [|exact H].
  apply IH. cbn in H. apply andb_true_iff in H. apply H.
Qed.

Lemma lacks_trim (c : ascii) (s : string) :
  lacks c s = true -> lacks c (JS.trim s) = true.
Proof.
  intros H. unfold JS.trim, JS.trimEnd. rewrite lacks_rev. apply lacks_trimStart.
  rewrite lacks_rev. apply lacks_trimStart. exact H.
Qed.

(** A string that begins with no white space. *)
Lemma trimStart_fixed (s : string) :
  match s with
  | EmptyString => True
  | String c _ => JS.is_whitespace c = false
  end ->
  JS.trimStart s = s.
Proof. destruct s as [|c s]; [reflexivity|]. intros H. cbn. rewrite H. reflexivity. Qed.

Lemma trimStart_head (s : string) :
  match JS.trimStart s with
  | EmptyString => True
  | String c _ => JS.is_whitespace c = false
  end.
Proof.
  induction s as [|c s IH]; [exact I|]. cbn [JS.trimStart].
  destruct (JS.is_whitespace c) eqn:Hc; [exact IH|exact Hc].
Qed.

Lemma trimStart_keeps (a b : string) (c : ascii) :
  JS.is_whitespace c = false ->
  exists a', JS.trimStart (a +:+ String c b) = a' +:+ String c b.
Proof.
  intros Hc. induction a as [|d a [a' IH]].
  - exists EmptyString. rewrite !append_nil. cbn. rewrite Hc. reflexivity.
  - rewrite append_cons. cbn [JS.trimStart]. destruct (JS.is_whitespace d).
    + exists a'. exact IH.
    + exists (String d a). rewrite append_cons. reflexivity.
Qed.

Lemma trimEnd_head (s : string) :
  match s with
  | EmptyString => True
  | String c _ => JS.is_whitespace c = false
  end ->
  match JS.trimEnd s with
  | EmptyString => True
  | String c _ => JS.is_whitespace c = false
  end.
Proof.
  destruct s as [|c s]; [intros _; exact I|]. intros Hc. unfold JS.trimEnd.
  rewrite rev_cons.
  destruct (trimStart_keeps (String.rev s) EmptyString c Hc) as [a' ->].
  rewrite rev_snoc. exact Hc.
Qed.

Lemma trim_fixed (s : string) :
  JS.trimStart s = s -> JS.trimStart (String.rev s) = String.rev s -> JS.trim s = s.
Proof.
  intros Hs He. unfold JS.trim, JS.trimEnd. rewrite Hs, He. apply rev_involutive.
Qed.

Lemma trim_idempotent (s : string) : JS.trim (JS.trim s) = JS.trim s.
Proof.
  apply trim_fixed.
  - apply trimStart_fixed. unfold JS.trim. apply trimEnd_head. apply trimStart_head.
  - unfold JS.trim, JS.trimEnd. rewrite rev_involutive.
    apply trimStart_fixed. apply trimStart_head.
Qed.

Lemma replaceAllChar_lacks (s : string) (c : ascii) (rep : string) :
  lacks c s = true -> JS.replaceAllChar s c rep = s.
Proof.
  induction s as [|d s IH]; [reflexivity|]. cbn. intros H.
  apply andb_true_iff in H as [Hd Hs]. apply negb_true_iff in Hd. rewrite Hd, (IH Hs).
  reflexivity.
Qed.

Lemma lacks_replaceAllChar (s : string) (c d : ascii) (rep : string) :
  lacks d rep = true ->
  (lacks d s = true \/ d = c) ->
  lacks d (JS.replaceAllChar s c rep) = true.
Proof.
  intros Hrep Hd. induction s as [|e s IH]; [reflexivity|].
  cbn [JS.replaceAllChar]. rewrite lacks_app. apply andb_true_iff. split.
  - destruct (Ascii.eqb_spec e c) as [->|Hne]; [exact Hrep|].
    cbn. rewrite andb_true_r. apply negb_true_iff. apply Ascii.eqb_neq.
    destruct Hd as [Hd| ->]; [|exact Hne].
    cbn in Hd. apply andb_true_iff in Hd as [Hd _]. apply negb_true_iff in Hd.
    apply Ascii.eqb_neq in Hd. exact Hd.
  - apply IH. destruct Hd as [Hd|Hd]; [left|right; exact Hd].
    cbn in Hd. apply andb_true_iff in Hd. apply Hd.
Qed.

Lemma lacks_fold_replace (chars : list ascii) (s : string) (d : ascii) :
  lacks d "_" = true ->
  (lacks d s = true \/ In d chars) ->
  lacks d (fold_left (fun result char => JS.replaceAllChar result char "_") chars s) = true.
Proof.
  intros Hrep. revert s. induction chars as [|c chars IH]; intros s Hd; cbn.
  - destruct Hd as [Hd|[]]. exact Hd.
  - apply IH. destruct Hd as [Hd|[<-|Hin]].
    + left. apply lacks_replaceAllChar; [exact Hrep|left; exact Hd].
    + left. apply lacks_replaceAllChar; [exact Hrep|right; reflexivity].
    + right. exact Hin.
Qed.

Lemma fold_replace_lacks (chars : list ascii) (s : string) :
  Forall (fun c => lacks c s = true) chars ->
  fold_left (fun result char => JS.replaceAllChar result char "_") chars s = s.
Proof.
  induction 1 as [|c chars Hc _ IH]; [reflexivity|].
  cbn. rewrite (replaceAllChar_lacks _ _ _ Hc). exact IH.
Qed.

Lemma safeFilename_lacks (name : string) :
  Forall (fun c => lacks c (safeFilename name) = true) unsafe.
Proof.
  apply List.Forall_forall. intros c Hc. unfold safeFilename. apply lacks_trim.
  apply lacks_fold_replace.
  - cbn in Hc. repeat (destruct Hc as [<-|Hc]; [reflexivity|]). destruct Hc.
  - right. exact Hc.
Qed.

(** X4. The result of [safeFilename] holds none of the characters of
    [unsafe] (among them the colon, the slash and the backslash), and it
    neither begins nor ends with white space: [safeFilename] leaves its own
    results as they are. *)
Theorem safeFilename_safe (name : string) :
  Forall (fun c => lacks c (safeFilename name) = true) unsafe
  /\ JS.trim (safeFilename name) = safeFilename name
  /\ safeFilename (safeFilename name) = safeFilename name.
Proof.
  pose proof (safeFilename_lacks name) as Hsafe.
  assert (Htrim : JS.trim (safeFilename name) = safeFilename name).
  { unfold safeFilename. apply trim_idempotent. }
  split; [exact Hsafe|]. split; [exact Htrim|].
  unfold safeFilename at 1. rewrite (fold_replace_lacks _ _ Hsafe). exact Htrim.
Qed.

End PathFacts.

(** ** The session store, continued *)

Section StoreMore.
Context `{RT : Runtime}.

Lemma prefix_refl_app (a b : string) : String.prefix a (a +:+ b) = true.
Proof.
  induction a as [|c a IH]; [destruct b; reflexivity|].
  rewrite append_cons. cbn. destruct (ascii_dec c c); [exact IH|contradiction].
Qed.

Lemma drop_app (a b : string) : JS.drop (String.length a) (a +:+ b) = b.
Proof. induction a as [|c a IH]; [reflexivity|]. rewrite append_cons. exact IH. Qed.

Lemma includes_lacks (c : ascii) (s : string) :
  lacks c s = true -> JS.includes s (String c EmptyString) = false.
Proof.
  induction s as [|d s IH]; [reflexivity|]. intros H. cbn in H.
  apply andb_true_iff in H as [Hd Hs]. apply negb_true_iff, Ascii.eqb_neq in Hd.
  cbn [JS.includes]. rewrite (IH Hs), orb_false_r. cbn.
  destruct (ascii_dec c d); [congruence|reflexivity].
Qed.

Lemma rev_app_distr (a b : string) :
  String.rev (a +:+ b) = String.rev b +:+ String.rev a.
Proof. unfold String.rev. rewrite rev_app_app. apply rev_app_acc. Qed.

Lemma endsWith_app (a suffix : string) : JS.endsWith (a +:+ suffix) suffix = true.
Proof. unfold JS.endsWith. rewrite rev_app_distr. apply prefix_refl_app. Qed.

(** The file of a session is an entry of the sessions directory itself. *)
Lemma entryName_getSessionPath (key : string) :
  entryName homeSessionsDir (getSessionPath key)
  = Some (safeFilename (JS.replace key ":" "_") +:+ ".jsonl").
Proof.
  unfold entryName, getSessionPath, pathJoin, JS.startsWith.
  set (name := safeFilename (JS.replace key ":" "_") +:+ ".jsonl").
  rewrite <- append_assoc, prefix_refl_app.
  replace (String.length homeSessionsDir + 1)%nat
    with (String.length (homeSessionsDir +:+ "/")) by (rewrite string_app_length; reflexivity).
  rewrite drop_app.
  rewrite (includes_lacks "/" name); [reflexivity|].
  unfold name. rewrite lacks_app. apply andb_true_iff. split; [|reflexivity].
  pose proof (safeFilename_lacks (JS.replace key ":" "_")) as Hsafe.
  rewrite List.Forall_forall in Hsafe. apply Hsafe. cbn. tauto.
Qed.

(** X5. After [save], the file of the session is among the files that
    [listSessions] goes through (an entry of the sessions directory whose
    name ends in [.jsonl]), and the entry that [listSessions] makes of it
    has the key computed from the file name, the two dates as [save] wrote
    them, and the path of the file: provided that the metadata record is
    written on one line and read back by the JSON codec. *)
Theorem saved_session_is_listed (session : Session) (st : AgentState)
    (created updated : string) :
  toISOString (Session.createdAt session) = Ok created ->
  toISOString (Session.updatedAt session) = Ok updated ->
  codecOk (JObj [("_type", JStr "metadata"); ("createdAt", JStr created);
                 ("updatedAt", JStr updated); ("metadata", Session.metadata session)]) ->
  Forall (fun m => noLineFeed (JSON_stringify m) = true) (Session.messages session) ->
  let name := safeFilename (JS.replace (Session.key session) ":" "_") +:+ ".jsonl" in
  exists st',
    save session st = (Ok tt, st')
    /\ In name (List.filter (fun f => JS.endsWith f ".jsonl")
                  (readdirSync homeSessionsDir (disk st')))
    /\ sessionInfo name st'
       = (Ok (Some (SessionInfo.mk (listedKey name) (Some (JStr created))
                      (Some (JStr updated)) (getSessionPath (Session.key session)))), st').
Proof.
  intros Hc Hu (Hparse & Hlf & Hnb) Hlines name.
  set (meta := JObj [("_type", JStr "metadata"); ("createdAt", JStr created);
                     ("updatedAt", JStr updated); ("metadata", Session.metadata session)])
    in *.
  assert (Htext : sessionText session
                  = Ok (fileText (JSON_stringify meta
                                  :: map JSON_stringify (Session.messages session)))).
  { unfold sessionText, metadataLine. rewrite Hc, Hu. reflexivity. }
  rewrite (save_ok _ _ st Htext). eexists. split; [reflexivity|].
  cbn [disk setCache setDisk]. split.
  - apply List.filter_In. split; [|apply endsWith_app].
    apply list_elem_of_In. unfold readdirSync. apply list_elem_of_omap.
    eexists (getSessionPath (Session.key session), _). split.
    + apply elem_of_map_to_list. apply lookup_insert_eq.
    + cbn [fst]. apply entryName_getSessionPath.
  - unfold sessionInfo, tryCatch, bind, readFileSync.
    change (pathJoin homeSessionsDir name) with (getSessionPath (Session.key session)).
    cbn [disk setCache setDisk]. rewrite lookup_insert_eq.
    rewrite split_fileText; [|discriminate|].
    2:{ constructor; [exact Hlf|]. apply Forall_map. exact Hlines. }
    cbn [app].
    destruct (String.eqb_spec (JSON_stringify meta) EmptyString) as [Hempty|_].
    { rewrite Hempty in Hnb. discriminate Hnb. }
    rewrite Hparse. reflexivity.
Qed.

Lemma replace_first_char (a b rep : string) (c : ascii) :
  lacks c a = true ->
  JS.replace (a +:+ String c b) (String c EmptyString) rep = a +:+ rep +:+ b.
Proof.
  induction a as [|d a IH]; intros H.
  - rewrite !append_nil. cbn. destruct (ascii_dec c c); [|contradiction].
    destruct b; reflexivity.
  - cbn in H. apply andb_true_iff in H as [Hd Ha]. apply negb_true_iff, Ascii.eqb_neq in Hd.
    rewrite !append_cons. cbn. destruct (ascii_dec c d); [congruence|].
    rewrite (IH Ha). reflexivity.
Qed.

Lemma prefix_cons (a b : ascii) (s1 s2 : string) :
  String.prefix (String a s1) (String b s2) = Ascii.eqb a b && String.prefix s1 s2.
Proof.
  cbn. destruct (ascii_dec a b) as [->|Hne].
  - rewrite Ascii.eqb_refl. reflexivity.
  - apply Ascii.eqb_neq in Hne. rewrite Hne. reflexivity.
Qed.

Lemma prefix_nil (s : string) : String.prefix EmptyString s = true.
Proof. destruct s; reflexivity. Qed.

(** The pattern [.jsonl] does not overlap itself. *)
Lemma prefix_jsonl_app (s : string) :
  s <> EmptyString ->
  String.prefix ".jsonl" (s +:+ ".jsonl") = true -> String.prefix ".jsonl" s = true.
Proof.
  destruct s as [|c1 [|c2 [|c3 [|c4 [|c5 [|c6 s]]]]]]; [congruence|..];
    intros _; rewrite ?append_cons, ?append_nil, ?prefix_cons, ?prefix_nil; intros H;
    repeat (apply andb_true_iff in H; destruct H as [?H H]);
    repeat match goal with
           | E : Ascii.eqb _ _ = true |- _ => apply Ascii.eqb_eq in E
           end;
    try discriminate.
  subst. reflexivity.
Qed.

Lemma replace_jsonl_suffix (name : string) :
  JS.includes name ".jsonl" = false ->
  JS.replace (name +:+ ".jsonl") ".jsonl" EmptyString = name.
Proof.
  induction name as [|c name IH]; intros H; [reflexivity|].
  cbn [JS.includes] in H. apply orb_false_iff in H as [Hhere Hrest].
  rewrite append_cons.
  destruct (String.prefix ".jsonl" (String c (name +:+ ".jsonl"))) eqn:Hp.
  - rewrite <- append_cons in Hp. apply prefix_jsonl_app in Hp; [congruence|discriminate].
  - unfold JS.replace at 1. fold JS.replace. rewrite Hp. rewrite (IH Hrest). reflexivity.
Qed.

(** X6. For a key [channel:chatId] the key that [listSessions] shows for
    the file of the session is the key itself, provided that neither part
    holds a character that [safeFilename] replaces, the channel holds no
    underscore, and the name of the file is not changed by trimming nor
    holds [.jsonl] itself. *)
Theorem listedKey_recovers (channel chatId : string) :
  Forall (fun c => lacks c channel = true) unsafe ->
  lacks "_" channel = true ->
  Forall (fun c => lacks c chatId = true) unsafe ->
  JS.trim (channel +:+ "_" +:+ chatId) = channel +:+ "_" +:+ chatId ->
  JS.includes (channel +:+ "_" +:+ chatId) ".jsonl" = false ->
  exists name,
    getSessionPath (channel +:+ ":" +:+ chatId) = pathJoin homeSessionsDir name
    /\ listedKey name = channel +:+ ":" +:+ chatId.
Proof.
  intros Hchannel Hunder HchatId Htrim Hjsonl.
  assert (Hcolon : lacks ":" channel = true).
  { rewrite List.Forall_forall in Hchannel. apply Hchannel. cbn. tauto. }
  eexists. split; [reflexivity|].
  change (":" +:+ chatId) with (String ":" chatId).
  rewrite (replace_first_char channel chatId "_" ":" Hcolon).
  assert (Hsafe : safeFilename (channel +:+ "_" +:+ chatId) = channel +:+ "_" +:+ chatId).
  { unfold safeFilename. rewrite fold_replace_lacks; [exact Htrim|].
    apply List.Forall_forall. intros c Hc.
    rewrite List.Forall_forall in Hchannel, HchatId.
    rewrite !lacks_app, (Hchannel c Hc), (HchatId c Hc), andb_true_r. cbn.
    repeat (destruct Hc as [<-|Hc]; [reflexivity|]). destruct Hc. }
  rewrite Hsafe. unfold listedKey.
  rewrite (replace_jsonl_suffix _ Hjsonl).
  change ("_" +:+ chatId) with (String "_" chatId).
  apply (replace_first_char channel chatId ":" "_" Hunder).
Qed.

End StoreMore.

Lemma saved_session_is_listed_witness :
  let session :=
    Session.mk "telegram:42" [newMessage (RT := Ref.runtime) "user" "hello" [] 5]
      (ValidDate 1) (ValidDate 6) emptyObject in
  exists st' info,
    save (RT := Ref.runtime) session (Ref.state (Ref.mkWorld 7 []) ∅ ∅) = (Ok tt, st')
    /\ In "telegram_42.jsonl"
         (List.filter (fun f => JS.endsWith f ".jsonl")
            (readdirSync "/home/user/.miniclawd/sessions" (disk st')))
    /\ sessionInfo (RT := Ref.runtime) "telegram_42.jsonl" st' = (Ok (Some info), st')
    /\ SessionInfo.key info = "telegram:42".
Proof.
  intros session.
  destruct (saved_session_is_listed (RT := Ref.runtime) session
              (Ref.state (Ref.mkWorld 7 []) ∅ ∅) "1" "6")
    as (st' & Hsave & Hin & Hinfo).
  - reflexivity.
  - reflexivity.
  - repeat split; vm_compute; reflexivity.
  - repeat constructor.
  - exists st'. eexists. split; [exact Hsave|]. split; [exact Hin|].
    split; [exact Hinfo|]. reflexivity.
Defined.

Lemma listedKey_recovers_witness :
  exists name,
    getSessionPath (RT := Ref.runtime) "telegram:user_42"
    = pathJoin "/home/user/.miniclawd/sessions" name
    /\ listedKey name = "telegram:user_42".
Proof.
  apply (listedKey_recovers (RT := Ref.runtime) "telegram" "user_42").
  - repeat constructor.
  - reflexivity.
  - repeat constructor.
  - reflexivity.
  - reflexivity.
Defined.

Section StoreOperations.
Context `{RT : Runtime}.

Lemma historyEntries_length (recent : list json) (entries : list HistoryEntry.t) :
  historyEntries recent = Ok entries -> List.length entries = List.length recent.
Proof.
  revert entries. induction recent as [|m recent IH]; intros entries H.
  - injection H as <-. reflexivity.
  - cbn [historyEntries] in H. destruct (historyEntry m); [|discriminate].
    destruct (historyEntries recent) as [rest|]; [|discriminate].
    injection H as <-. cbn. rewrite (IH rest eq_refl). reflexivity.
Qed.

(** X7. [getHistory] returns the entries of the last [maxMessages] messages,
    in their order, and of all messages when there are fewer; but for
    [maxMessages] zero it returns the entries of the whole history, since
    [slice(-0)] is [slice(0)]. *)
Theorem getHistory_window (session : Session) (maxMessages : nat) :
  let messages := Session.messages session in
  getHistory session maxMessages
  = historyEntries (if (maxMessages =? 0)%nat then messages
                    else List.skipn (List.length messages - maxMessages) messages)
  /\ forall entries,
       getHistory session maxMessages = Ok entries ->
       List.length entries
       = if (maxMessages =? 0)%nat then List.length messages
         else Nat.min maxMessages (List.length messages).
Proof.
  intros messages.
  assert (Heq : getHistory session maxMessages
                = historyEntries (if (maxMessages =? 0)%nat then messages
                                  else List.skipn (List.length messages - maxMessages)
                                         messages)).
  { unfold getHistory. fold messages. destruct maxMessages as [|n].
    - cbn. destruct (List.length messages); reflexivity.
    - cbn [Nat.eqb]. destruct (Nat.ltb_spec (S n) (List.length messages)) as [Hlt|Hge].
      + reflexivity.
      + replace (List.length messages - S n)%nat with 0%nat by lia. reflexivity. }
  split; [exact Heq|]. intros entries H. rewrite Heq in H.
  apply historyEntries_length in H. rewrite H.
  destruct (maxMessages =? 0)%nat eqn:Hz; [reflexivity|].
  apply Nat.eqb_neq in Hz. rewrite List.length_skipn. lia.
Qed.

(** X8. [delete] removes the cache entry and the file of the key and of no
    other key or path, and returns whether the file existed; the next
    [getOrCreate] of the key starts an empty session. *)
Theorem delete_spec (key : string) (st : AgentState) :
  exists st',
    delete key st = (Ok (existsSync (getSessionPath key) (disk st)), st')
    /\ cache st' !! key = None
    /\ disk st' !! getSessionPath key = None
    /\ (forall key', key' <> key -> cache st' !! key' = cache st !! key')
    /\ (forall path, path <> getSessionPath key -> disk st' !! path = disk st !! path)
    /\ exists st'',
         getOrCreate key st' = (Ok (fst (freshSession key (world st'))), st'').
Proof.
  assert (Hrun : exists st',
             delete key st = (Ok (existsSync (getSessionPath key) (disk st)), st')
             /\ cache st' = base.delete key (cache st)
             /\ disk st' = base.delete (getSessionPath key) (disk st)).
  { unfold delete, bind, modify, get, unlinkSync, ret. cbn [disk setCache].
    rewrite existsSync_lookup.
    destruct (disk st !! getSessionPath key) as [entry|] eqn:Hd.
    - eexists. split; [reflexivity|]. split; reflexivity.
    - eexists. split; [reflexivity|]. split; [reflexivity|].
      cbn. symmetry. apply delete_id. exact Hd. }
  destruct Hrun as (st' & Hrun & Hcache & Hdisk).
  exists st'. split; [exact Hrun|].
  assert (Hnone : cache st' !! key = None) by (rewrite Hcache; apply lookup_delete_eq).
  assert (Hfile : disk st' !! getSessionPath key = None)
    by (rewrite Hdisk; apply lookup_delete_eq).
  split; [exact Hnone|]. split; [exact Hfile|].
  split; [intros key' Hne; rewrite Hcache; apply lookup_delete_ne; congruence|].
  split; [intros path Hne; rewrite Hdisk; apply lookup_delete_ne; congruence|].
  rewrite (getOrCreate_miss _ _ Hnone). unfold resolved. rewrite Hfile. eauto.
Qed.

(** X9. [getOrCreate] is stable: it returns a session, a second call for the
    key returns the same session and changes nothing, and so does a call for
    the key of a session that [save] has written. *)
Theorem getOrCreate_stable (key : string) (st : AgentState) :
  exists session st1,
    getOrCreate key st = (Ok session, st1)
    /\ getOrCreate key st1 = (Ok session, st1)
    /\ forall saved st2 st3,
         save saved st2 = (Ok tt, st3) ->
         getOrCreate (Session.key saved) st3 = (Ok saved, st3).
Proof.
  destruct (getOrCreate_sessionOf key st) as [st1 Hget].
  exists (sessionOf key st), st1. split; [exact Hget|]. split.
  - apply getOrCreate_cached. apply (getOrCreate_inv _ _ _ _ Hget).
  - intros saved st2 st3 H. apply getOrCreate_cached. unfold save, bind, lift in H.
    destruct (sessionText saved) as [text|error]; [|discriminate].
    cbn in H. injection H as <-. cbn. apply lookup_insert_eq.
Qed.

Lemma loadLine_metadata_created (created updated : string) (md : json) :
  let meta := JObj [("_type", JStr "metadata"); ("createdAt", JStr created);
                    ("updatedAt", JStr updated); ("metadata", md)] in
  JSON_parse (JSON_stringify meta) = Some meta ->
  truthy md = true ->
  created <> EmptyString ->
  loadLine ([], emptyObject, None) (JSON_stringify meta)
  = Ok ([], md, Some (Date_of (JStr created))).
Proof.
  intros meta Hp Hmd Hcreated. unfold loadLine. rewrite Hp. cbn.
  rewrite Hmd. apply String.eqb_neq in Hcreated. rewrite Hcreated. reflexivity.
Qed.

(** X10. Across [save] and [load] the creation date of a session is kept,
    provided that [new Date] reads back what [toISOString] wrote; the date
    of the last update is not: [load] sets it to the time of loading,
    whatever the file says. *)
Theorem load_dates (session : Session) (st : AgentState) (created : Z) :
  writable session ->
  Session.createdAt session = ValidDate created ->
  Date_toISO created <> EmptyString ->
  Date_of (JStr (Date_toISO created)) = ValidDate created ->
  (forall meta, metadataLine session = Ok meta -> codecOk meta) ->
  Forall codecOk (Session.messages session) ->
  exists st1 loaded st2,
    save session st = (Ok tt, st1)
    /\ load (Session.key session) st1 = (Ok (Some loaded), st2)
    /\ Session.createdAt loaded = Session.createdAt session
    /\ Session.updatedAt loaded = ValidDate (fst (Date_now (world st))).
Proof.
  intros Hw Hcreated Hiso Hdate Hmeta Hcodec.
  destruct Hw as (Hc & Hu & Hmd & Hms).
  destruct (toISOString_valid _ Hu) as [updated Hupdated].
  assert (Hline : metadataLine session
                  = Ok (JObj [("_type", JStr "metadata");
                              ("createdAt", JStr (Date_toISO created));
                              ("updatedAt", JStr updated);
                              ("metadata", Session.metadata session)])).
  { unfold metadataLine. rewrite Hcreated, Hupdated. reflexivity. }
  destruct (Hmeta _ Hline) as (Hp & Hlf & Hnb).
  assert (Htext : sessionText session
                  = Ok (fileText
                          (JSON_stringify
                             (JObj [("_type", JStr "metadata");
                                    ("createdAt", JStr (Date_toISO created));
                                    ("updatedAt", JStr updated);
                                    ("metadata", Session.metadata session)])
                           :: map JSON_stringify (Session.messages session)))).
  { unfold sessionText. rewrite Hline. reflexivity. }
  rewrite (save_ok _ _ st Htext). eexists _, _, _. split; [reflexivity|].
  rewrite load_cases. cbn [disk world setCache setDisk]. rewrite lookup_insert_eq.
  unfold readRecord.
  rewrite split_fileText; [|discriminate|].
  2:{ constructor; [exact Hlf|]. apply Forall_map.
      eapply Forall_impl; [exact Hcodec|]. intros m (_ & H & _). exact H. }
  rewrite filter_nonBlank_lines.
  2:{ constructor; [exact Hnb|]. apply Forall_map.
      eapply Forall_impl; [exact Hcodec|]. intros m (_ & _ & H). exact H. }
  cbn [loadLines].
  rewrite (loadLine_metadata_created _ _ _ Hp Hmd Hiso).
  rewrite (loadLines_messages _ _ _ _ Hcodec Hms).
  split; [reflexivity|]. unfold loadedSession. rewrite Hdate, Hcreated.
  destruct (Date_now (world st)) as [now w]. split; reflexivity.
Qed.

End StoreOperations.

Lemma load_dates_witness :
  let session :=
    Session.mk "telegram:42" [newMessage (RT := Ref.runtime) "user" "hello" [] 5]
      (ValidDate 1) (ValidDate 6) emptyObject in
  exists st1 loaded st2,
    save (RT := Ref.runtime) session (Ref.state (Ref.mkWorld 70 []) ∅ ∅) = (Ok tt, st1)
    /\ load (RT := Ref.runtime) "telegram:42" st1 = (Ok (Some loaded), st2)
    /\ Session.createdAt loaded = ValidDate 1
    /\ Session.updatedAt loaded = ValidDate 70.
Proof.
  intros session.
  destruct (load_dates (RT := Ref.runtime) session (Ref.state (Ref.mkWorld 70 []) ∅ ∅) 1)
    as (st1 & loaded & st2 & Hsave & Hload & Hc & Hu).
  - repeat split; try reflexivity. repeat constructor.
  - reflexivity.
  - discriminate.
  - reflexivity.
  - intros meta H. vm_compute in H. injection H as <-. repeat split; vm_compute; reflexivity.
  - repeat constructor; vm_compute; reflexivity.
  - exists st1, loaded, st2. auto.
Defined.

(** ** The model provider, continued *)

Section ProviderMore.
Context `{RT : Runtime}.

Lemma join_split (s : string) (sep : ascii) :
  JS.join (JS.split s sep) (String sep EmptyString) = s.
Proof.
  induction s as [|c s IH]; [reflexivity|]. cbn [JS.split].
  destruct (split_cons s sep) as (p & rest & Hs). rewrite Hs in *.
  destruct (Ascii.eqb_spec c sep) as [->|Hne].
  - change (JS.join (EmptyString :: p :: rest) (String sep EmptyString))
      with (EmptyString +:+ String sep EmptyString
            +:+ JS.join (p :: rest) (String sep EmptyString)).
    rewrite IH. reflexivity.
  - destruct rest as [|q rest].
    + cbn in *. rewrite IH. reflexivity.
    + change (JS.join (String c p :: q :: rest) (String sep EmptyString))
        with (String c p +:+ String sep EmptyString +:+ JS.join (q :: rest) (String sep EmptyString)).
      change (JS.join (p :: q :: rest) (String sep EmptyString))
        with (p +:+ String sep EmptyString +:+ JS.join (q :: rest) (String sep EmptyString))
        in IH.
      rewrite append_cons, IH. reflexivity.
Qed.

Lemma includes_char (a b : string) (c : ascii) :
  JS.includes (a +:+ String c b) (String c EmptyString) = true.
Proof.
  induction a as [|d a IH].
  - rewrite append_nil. cbn [JS.includes]. rewrite prefix_cons, Ascii.eqb_refl, prefix_nil.
    reflexivity.
  - rewrite append_cons. cbn [JS.includes]. rewrite IH. apply orb_true_r.
Qed.

(** The provider name and the model name that [getProvider] reads from a
    model id with a slash. *)
Lemma getProvider_parts (p rest : string) :
  lacks "/" p = true ->
  JS.includes (p +:+ "/" +:+ rest) "/" = true
  /\ JS.split (p +:+ "/" +:+ rest) "/" = p :: JS.split rest "/"
  /\ JS.join (JS.split rest "/") "/" = rest.
Proof.
  intros Hp. change ("/" +:+ rest) with (String "/" rest).
  split; [apply includes_char|]. split; [apply (split_at _ _ _ Hp)|apply join_split].
Qed.

(** X11. [getProvider] takes the text before the first slash of a model id,
    in any letter case, for the provider, and all of the text after it for
    the model: slashes in the model name are kept.  A model name that is
    empty is replaced by the default of the provider, except for
    OpenRouter; a provider that is not known, and a model id without a
    slash, go to Anthropic, the first with the whole id as the model
    name. *)
Theorem getProvider_routing (self : AIProvider) :
  let cfg := AIProvider.config self in
  let anthropicKey :=
    [("apiKey", keyOrEnv (ProviderConfig.apiKey (Config.anthropic cfg)) "ANTHROPIC_API_KEY")] in
  (forall p rest,
     lacks "/" p = true ->
     let name := JS.toLowerCase p in
     let modelId := p +:+ "/" +:+ rest in
     (name = "anthropic" ->
      getProvider self modelId
      = sdkModel "anthropic" anthropicKey (strOr rest "claude-sonnet-4-20250514"))
     /\ (name = "openai" ->
         getProvider self modelId
         = sdkModel "openai"
             [("apiKey", keyOrEnv (ProviderConfig.apiKey (Config.openai cfg)) "OPENAI_API_KEY");
              ("baseURL", Some (optStrOr (ProviderConfig.apiBase (Config.openai cfg))
                                  "https://api.openai.com/v1"))]
             (strOr rest "gpt-4o"))
     /\ (name = "openrouter" ->
         getProvider self modelId
         = sdkModel "openai"
             [("apiKey",
               keyOrEnv (ProviderConfig.apiKey (Config.openrouter cfg)) "OPENROUTER_API_KEY");
              ("baseURL", Some (optStrOr (ProviderConfig.apiBase (Config.openrouter cfg))
                                  "https://openrouter.ai/api/v1"))]
             rest)
     /\ (name = "google" \/ name = "gemini" ->
         getProvider self modelId
         = sdkModel "google"
             [("apiKey", keyOrEnv (ProviderConfig.apiKey (Config.google cfg)) "GOOGLE_API_KEY")]
             (strOr rest "gemini-2.0-flash"))
     /\ (name = "groq" ->
         getProvider self modelId
         = sdkModel "openai"
             [("apiKey", keyOrEnv (ProviderConfig.apiKey (Config.groq cfg)) "GROQ_API_KEY");
              ("baseURL", Some "https://api.groq.com/openai/v1")]
             (strOr rest "llama-3.3-70b-versatile"))
     /\ (name = "bedrock" ->
         getProvider self modelId
         = sdkModel "amazon-bedrock"
             [("region", keyOrEnv (BedrockConfig.region (Config.bedrock cfg)) "AWS_REGION");
              ("accessKeyId",
               optOrEnv (BedrockConfig.accessKeyId (Config.bedrock cfg)) "AWS_ACCESS_KEY_ID");
              ("secretAccessKey",
               optOrEnv (BedrockConfig.secretAccessKey (Config.bedrock cfg))
                 "AWS_SECRET_ACCESS_KEY");
              ("sessionToken",
               optOrEnv (BedrockConfig.sessionToken (Config.bedrock cfg)) "AWS_SESSION_TOKEN")]
             (strOr rest "anthropic.claude-3-5-sonnet-20241022-v2:0"))
     /\ (~ In name ["anthropic"; "openai"; "openrouter"; "google"; "gemini"; "bedrock"; "groq"] ->
         getProvider self modelId = sdkModel "anthropic" anthropicKey modelId))
  /\ (forall modelId,
        lacks "/" modelId = true ->
        getProvider self modelId
        = sdkModel "anthropic" anthropicKey (strOr modelId "claude-sonnet-4-20250514")).
Proof.
  intros cfg anthropicKey. split.
  - intros p rest Hp name modelId.
    destruct (getProvider_parts p rest Hp) as (Hinc & Hsplit & Hjoin).
    assert (Hrun : forall P : result LanguageModel -> Prop,
              P (let modelName := rest in
                 if String.eqb name "anthropic" then
                   sdkModel "anthropic" anthropicKey (strOr modelName "claude-sonnet-4-20250514")
                 else if String.eqb name "openai" then
                   sdkModel "openai"
                     [("apiKey", keyOrEnv (ProviderConfig.apiKey (Config.openai cfg))
                                   "OPENAI_API_KEY");
                      ("baseURL", Some (optStrOr (ProviderConfig.apiBase (Config.openai cfg))
                                          "https://api.openai.com/v1"))]
                     (strOr modelName "gpt-4o")
                 else if String.eqb name "openrouter" then
                   sdkModel "openai"
                     [("apiKey", keyOrEnv (ProviderConfig.apiKey (Config.openrouter cfg))
                                   "OPENROUTER_API_KEY");
                      ("baseURL", Some (optStrOr (ProviderConfig.apiBase (Config.openrouter cfg))
                                          "https://openrouter.ai/api/v1"))]
                     modelName
                 else if String.eqb name "google" || String.eqb name "gemini" then
                   sdkModel "google"
                     [("apiKey", keyOrEnv (ProviderConfig.apiKey (Config.google cfg))
                                   "GOOGLE_API_KEY")]
                     (strOr modelName "gemini-2.0-flash")
                 else if String.eqb name "bedrock" then
                   sdkModel "amazon-bedrock"
                     [("region", keyOrEnv (BedrockConfig.region (Config.bedrock cfg)) "AWS_REGION");
                      ("accessKeyId",
                       optOrEnv (BedrockConfig.accessKeyId (Config.bedrock cfg))
                         "AWS_ACCESS_KEY_ID");
                      ("secretAccessKey",
                       optOrEnv (BedrockConfig.secretAccessKey (Config.bedrock cfg))
                         "AWS_SECRET_ACCESS_KEY");
                      ("sessionToken",
                       optOrEnv (BedrockConfig.sessionToken (Config.bedrock cfg))
                         "AWS_SESSION_TOKEN")]
                     (strOr modelName "anthropic.claude-3-5-sonnet-20241022-v2:0")
                 else if String.eqb name "groq" then
                   sdkModel "openai"
                     [("apiKey", keyOrEnv (ProviderConfig.apiKey (Config.groq cfg)) "GROQ_API_KEY");
                      ("baseURL", Some "https://api.groq.com/openai/v1")]
                     (strOr modelName "llama-3.3-70b-versatile")
                 else sdkModel "anthropic" anthropicKey modelId) ->
              P (getProvider self modelId)).
    { intros P H. unfold getProvider. fold cfg. unfold modelId in *.
      rewrite Hinc, Hsplit. cbn [List.tl]. rewrite Hjoin. exact H. }
    repeat split.
    + intros Hn. apply Hrun. rewrite Hn. reflexivity.
    + intros Hn. apply Hrun. rewrite Hn. reflexivity.
    + intros Hn. apply Hrun. rewrite Hn. reflexivity.
    + intros [Hn|Hn]; apply Hrun; rewrite Hn; reflexivity.
    + intros Hn. apply Hrun. rewrite Hn. reflexivity.
    + intros Hn. apply Hrun. rewrite Hn. reflexivity.
    + intros Hn. apply Hrun. cbn zeta.
      repeat match goal with
             | |- context [String.eqb name ?x] =>
                 destruct (String.eqb_spec name x) as [Heq|_];
                 [exfalso; apply Hn; rewrite Heq; cbn; tauto|]
             end.
      reflexivity.
  - intros modelId Hm. unfold getProvider. fold cfg.
    rewrite (includes_lacks "/" modelId Hm). reflexivity.
Qed.

Lemma hasToolCalls_steps (steps : list SdkStep.t) :
  parseToolCalls steps <> []
  <-> exists step tc tcs, In step steps /\ SdkStep.toolCalls step = Some (tc :: tcs).
Proof.
  induction steps as [|step steps IH]; cbn.
  - split; [congruence|]. intros (? & ? & ? & [] & _).
  - destruct (SdkStep.toolCalls step) as [[|tc tcs]|] eqn:Hs; cbn.
    + rewrite IH. split.
      * intros (s' & tc & tcs & Hin & H). eauto 10.
      * intros (s' & tc & tcs & [<-|Hin] & H); [congruence|eauto 10].
    + split; [|discriminate]. intros _. exists step, tc, tcs. auto.
    + rewrite IH. split.
      * intros (s' & tc & tcs & Hin & H). eauto 10.
      * intros (s' & tc & tcs & [<-|Hin] & H); [congruence|eauto 10].
Qed.

(** X12. When the provider is built and [generateText] returns, [chat]
    returns a response whose content is the text of the result, or [null]
    when the text is empty, and whose tool calls are those of all steps of
    the result in their order; the response has tool calls exactly when some
    step has one.  The content of a response is never the empty string. *)
Theorem chat_success (self : AIProvider) (messages : list CoreMessage) (tools : option json)
    (model : option string) (maxTokens : option Z) (temperature : option Q)
    (st : AgentState) (provider : LanguageModel) (result : GenerateTextResult.t) (w : World) :
  getProvider self (resolveModel self model) = Ok provider ->
  generateText provider messages (toolsOrEmpty tools) (resolveMaxTokens self maxTokens)
    (resolveTemperature self temperature) (world st) = (Ok result, w) ->
  exists response st',
    chat self messages tools model maxTokens temperature st = (Ok response, st')
    /\ world st' = w
    /\ chatLog st' = chatLog st ++ [response]
    /\ LLMResponse.content response
       = (if String.eqb (GenerateTextResult.text result) EmptyString then None
          else Some (GenerateTextResult.text result))
    /\ LLMResponse.content response <> Some EmptyString
    /\ LLMResponse.toolCalls response = parseToolCalls (GenerateTextResult.steps result)
    /\ LLMResponse.finishReason response = GenerateTextResult.finishReason result
    /\ (hasToolCalls response = true
        <-> exists step tc tcs,
              In step (GenerateTextResult.steps result)
              /\ SdkStep.toolCalls step = Some (tc :: tcs)).
Proof.
  intros Hp Hg. unfold chat, chatBody, tryCatch, chatTry, bind, lift, sdkGenerate, ret,
    logResponse, modify.
  rewrite Hp, Hg. cbn. eexists _, _. split; [reflexivity|]. cbn.
  repeat (split; [reflexivity|]).
  split.
  { destruct (String.eqb_spec (GenerateTextResult.text result) EmptyString); congruence. }
  repeat (split; [reflexivity|]).
  rewrite <- hasToolCalls_steps. unfold hasToolCalls. cbn.
  destruct (parseToolCalls (GenerateTextResult.steps result)); cbn.
  - split; [discriminate|congruence].
  - split; [discriminate|reflexivity].
Qed.

End ProviderMore.

Lemma chat_success_witness :
  exists response st',
    chat (RT := Ref.runtime) (newAIProvider Ref.config None) [] None None None None
      (Ref.state (Ref.mkWorld 0 [Ref.toolAnswer]) ∅ ∅) = (Ok response, st')
    /\ LLMResponse.content response = None
    /\ hasToolCalls response = true.
Proof.
  destruct (chat_success (RT := Ref.runtime) (newAIProvider Ref.config None) [] None None
              None None (Ref.state (Ref.mkWorld 0 [Ref.toolAnswer]) ∅ ∅)
              "claude-sonnet-4"
              (GenerateTextResult.mk EmptyString
                 [SdkStep.mk (Some [SdkToolCall.mk "call_1" "list_dir"
                                      (JObj [("path", JStr ".")])])]
                 "tool-calls" None)
              (Ref.mkWorld 1 []) eq_refl eq_refl)
    as (response & st' & Hrun & _ & _ & Hcontent & _ & _ & _ & Htools).
  exists response, st'. split; [exact Hrun|]. split; [exact Hcontent|].
  apply Htools. eexists _, _, _. split; [left; reflexivity|reflexivity].
Defined.

(** ** The agent loop, continued *)

Section AgentMore.
Context `{RT : Runtime}.

Lemma chat_content_nonempty self messages tools model maxTokens temperature st response st' :
  chat self messages tools model maxTokens temperature st = (Ok response, st') ->
  LLMResponse.content response <> Some EmptyString.
Proof.
  unfold chat, chatBody, tryCatch, chatTry, bind, lift, sdkGenerate, ret, logResponse, modify.
  destruct (getProvider self (resolveModel self model)) as [provider|error].
  - destruct (generateText _ _ _ _ _ _) as [[result|error] w]; cbn; intros [= <- _]; cbn.
    + destruct (String.eqb_spec (GenerateTextResult.text result) EmptyString); congruence.
    + discriminate.
  - cbn. intros [= <- _]. discriminate.
Qed.

Lemma turnLoop_final_nonempty (self : AgentLoop) (n : nat) :
  forall iteration messages st final st',
    Z.to_nat (Qceiling (AgentLoop.maxIterations self) - iteration) = n ->
    turnLoop self iteration messages st = (Ok final, st') ->
    final <> Some EmptyString.
Proof.
  induction n as [|n IH]; intros iteration messages st final st' Hn; rewrite turnLoop_while;
    destruct (Qlt_le_dec (inject_Z iteration) (AgentLoop.maxIterations self)) as [Hlt|Hge];
    try (intros [= <- _]; discriminate).
  - exfalso. apply (below_cap self iteration) in Hlt. lia.
  - unfold bind at 1.
    destruct (chat _ _ _ _ _ _ st) as [[response|error] st1] eqn:Hchat; [|discriminate].
    destruct (hasToolCalls response).
    + unfold bind at 1.
      destruct (executeToolCalls _ _ st1) as [[messages'|error] st2]; [|discriminate].
      apply (IH (iteration + 1)). apply (below_cap self iteration) in Hlt. lia.
    + intros [= <- _]. apply (chat_content_nonempty _ _ _ _ _ _ _ _ _ Hchat).
Qed.

Lemma persistTurn_chatLog sessionKey session userContent finalContent st :
  chatLog (snd (persistTurn sessionKey session userContent finalContent st)) = chatLog st.
Proof.
  destruct (persistTurn_cases sessionKey session userContent finalContent st)
    as (t1 & u1 & t2 & u2 & w & H). cbn zeta in H. rewrite H.
  destruct (sessionText _); reflexivity.
Qed.

(** A turn that returns: the run of the loop behind its result. *)
Lemma turn_result (self : AgentLoop) (sessionKey channel chatId : string) (metadata : json)
    (content : string) (media : option (list string)) (userContent fallback : string)
    (outMetadata : option json) (st : AgentState) (r : option OutboundMessage)
    (st' : AgentState) :
  turn self sessionKey channel chatId metadata content media userContent fallback outMetadata st
  = (Ok r, st') ->
  exists messages st2 final st3,
    chatLog st2 = chatLog st
    /\ turnLoop self 0 messages st2 = (Ok final, st3)
    /\ chatLog st' = chatLog st3
    /\ r = Some (Events.createOutboundMessage channel chatId
                   (match final with Some c => c | None => fallback end) None outMetadata).
Proof.
  unfold turn. unfold bind at 1.
  destruct (getOrCreate sessionKey st) as [[session|error] st0] eqn:Hget; [|discriminate].
  unfold bind at 1. unfold setToolContexts, modify. cbn beta iota.
  unfold bind at 1. unfold lift.
  destruct (getHistory session 50) as [history|error]; [|discriminate].
  unfold bind at 1. unfold contextBuild. cbn [world disk cache messageContext spawnContext chatLog].
  destruct (buildMessages history content None media (world st0)) as [messages w].
  match goal with
  | |- bind _ _ ?s = _ -> _ => set (st2 := s)
  end.
  unfold bind at 1.
  destruct (turnLoop self 0 messages st2) as [[final|error] st3] eqn:Hloop; [|discriminate].
  unfold bind at 1.
  pose proof (persistTurn_chatLog sessionKey session userContent
                (match final with Some c => c | None => fallback end) st3) as Hlog.
  destruct (persistTurn _ _ _ _ st3) as [[[]|error] st4]; [|discriminate].
  unfold ret. intros [= <- <-]. cbn in Hlog.
  exists messages, st2, final, st3.
  split; [apply (getOrCreate_inv _ _ _ _ Hget)|]. auto.
Qed.

Lemma processMessage_result (self : AgentLoop) (msg : InboundMessage) (st : AgentState)
    (r : option OutboundMessage) (st' : AgentState) :
  processMessage self msg st = (Ok r, st') ->
  exists messages st2 final st3,
    chatLog st2 = chatLog st
    /\ turnLoop self 0 messages st2 = (Ok final, st3)
    /\ chatLog st' = chatLog st3
    /\ r = Some (replyTo msg (match final with Some c => c | None => fallbackOf msg end)).
Proof.
  rewrite processMessage_turn. unfold replyTo, fallbackOf, isSystem.
  destruct (String.eqb (InboundMessage.channel msg) "system"); apply turn_result.
Qed.

Lemma processMessage_reply (self : AgentLoop) (msg : InboundMessage) (st : AgentState)
    (r : option OutboundMessage) :
  fst (processMessage self msg st) = Ok r ->
  exists out, r = Some out /\ OutboundMessage.content out <> EmptyString.
Proof.
  intros H.
  destruct (processMessage self msg st) as [res st'] eqn:Hrun. cbn in H. subst res.
  destruct (processMessage_result _ _ _ _ _ Hrun)
    as (messages & st2 & final & st3 & _ & Hloop & _ & ->).
  eexists. split; [reflexivity|].
  pose proof (turnLoop_final_nonempty self _ _ _ _ _ _ eq_refl Hloop) as Hne.
  unfold replyTo, fallbackOf.
  destruct (isSystem msg); cbn; destruct final as [c|]; try discriminate; congruence.
Qed.

(** X13. A turn never returns [null] and never an empty reply: the content
    of the outbound message is a text of the model that is not empty or
    the fallback text; [processDirect] therefore never returns the empty
    string that it has for a missing reply. *)
Theorem reply_never_empty (self : AgentLoop) (st : AgentState) :
  (forall msg, fst (processMessage self msg st) <> Ok None)
  /\ (forall msg out,
        fst (processMessage self msg st) = Ok (Some out) ->
        OutboundMessage.content out <> EmptyString)
  /\ (forall content sessionKey reply,
        fst (processDirect self content sessionKey st) = Ok reply ->
        reply <> EmptyString).
Proof.
  split; [|split].
  - intros msg H. destruct (processMessage_reply _ _ _ _ H) as (out & Hout & _). discriminate.
  - intros msg out H. destruct (processMessage_reply _ _ _ _ H) as (out' & [= <-] & Hne).
    exact Hne.
  - intros content sessionKey reply. unfold processDirect, bind, now, ret.
    destruct (Date_now (world st)) as [t w].
    destruct (processMessage self _ (setWorld w st)) as [[r|error] st'] eqn:Hrun;
      [|discriminate].
    destruct (processMessage_reply self _ (setWorld w st) r ltac:(rewrite Hrun; reflexivity))
      as (out & -> & Hne).
    cbn. intros [= <-]. unfold strOr.
    destruct (String.eqb_spec (OutboundMessage.content out) EmptyString); congruence.
Qed.

(** X14. [run] answers every message that it consumes from the bus, and
    no exception of a turn leaves its loop, if publishing does not throw:
    the body of the loop ends with a call of [publishOutbound] of its own,
    made in the state that the turn left, with the reply of the turn or,
    when the turn throws, with an apology that names the error and is
    addressed to the channel and the chat of the inbound message with its
    metadata (for a message of the system channel that channel is the
    system channel, not the origin).  What the message tool sends over the
    same bus while the turn runs is sent in addition and is not counted
    here. *)
Theorem runStep_answers (self : AgentLoop)
    (publishOutbound : OutboundMessage -> M unit) (msg : InboundMessage) (st : AgentState) :
  (forall m s, exists s', publishOutbound m s = (Ok tt, s')) ->
  exists m st2,
    runStep self publishOutbound msg st = (Ok tt, st2)
    /\ publishOutbound m (snd (processMessage self msg st)) = (Ok tt, st2)
    /\ (fst (processMessage self msg st) = Ok (Some m)
        \/ exists error,
             fst (processMessage self msg st) = Throw error
             /\ m = OutboundMessage.mk (InboundMessage.channel msg) (InboundMessage.chatId msg)
                      ("Sorry, I encountered an error: " +:+ error) []
                      (InboundMessage.metadata msg)).
Proof.
  intros Hpublish. unfold runStep, tryCatch, bind.
  destruct (processMessage self msg st) as [[r|error] st1] eqn:Hrun.
  - destruct r as [out|].
    + cbn. destruct (Hpublish out st1) as [s' Hs']. rewrite Hs'.
      exists out, s'. cbn. auto.
    + destruct (processMessage_reply self msg st None ltac:(rewrite Hrun; reflexivity))
        as (out & Hout & _). discriminate.
  - cbn. destruct (Hpublish (errorReply msg error) st1) as [s' Hs']. rewrite Hs'.
    exists (errorReply msg error), s'. cbn. split; [reflexivity|]. split; [exact Hs'|].
    right. exists error. auto.
Qed.

(** X15. While the session of a chat has an Invalid Date as its creation
    date, [run] answers a message of that chat with the apology for a
    RangeError, and the two entries of the turn are in the cached session
    only. *)
Theorem run_unsavable_session (self : AgentLoop)
    (publishOutbound : OutboundMessage -> M unit) (msg : InboundMessage) (st : AgentState) :
  Forall (fun m => m <> JNull) (Session.messages (sessionOf (turnSessionKey msg) st)) ->
  isValidDate (Session.createdAt (sessionOf (turnSessionKey msg) st)) = false ->
  let st1 := snd (processMessage self msg st) in
  runStep self publishOutbound msg st
  = publishOutbound (errorReply msg "RangeError: Invalid time value") st1
  /\ isValidDate (Session.createdAt (sessionOf (turnSessionKey msg) st1)) = false
  /\ List.length (Session.messages (sessionOf (turnSessionKey msg) st1))
     = (List.length (Session.messages (sessionOf (turnSessionKey msg) st)) + 2)%nat.
Proof.
  intros Hnn Hinv st1.
  destruct (unsavable_turn_throws self msg st Hnn Hinv) as (Hthrow & answer & times & Hcache).
  fold st1 in Hcache. split.
  - unfold runStep, tryCatch, bind. unfold st1.
    destruct (processMessage self msg st) as [res st2]. cbn in Hthrow. subst res. reflexivity.
  - rewrite (sessionOf_cached _ _ _ Hcache). destruct times as [[[t1 u1] t2] u2]. cbn.
    split; [exact Hinv|]. rewrite !length_app. cbn. lia.
Qed.

Lemma executeToolCalls_contexts toolCalls messages st r st' :
  executeToolCalls toolCalls messages st = (r, st') ->
  messageContext st' = messageContext st /\ spawnContext st' = spawnContext st.
Proof.
  revert messages st. induction toolCalls as [|tc rest IH]; intros messages st.
  - intros [= _ <-]. split; reflexivity.
  - cbn [executeToolCalls]. unfold bind at 1. unfold toolsExecute.
    destruct (tools_execute _ _ _ _ _ _) as [[text w] d].
    intros H. apply IH in H. exact H.
Qed.

Lemma turnLoop_contexts (self : AgentLoop) (n : nat) :
  forall iteration messages st r st',
    Z.to_nat (Qceiling (AgentLoop.maxIterations self) - iteration) = n ->
    turnLoop self iteration messages st = (r, st') ->
    messageContext st' = messageContext st /\ spawnContext st' = spawnContext st.
Proof.
  induction n as [|n IH]; intros iteration messages st r st' Hn; rewrite turnLoop_while;
    destruct (Qlt_le_dec (inject_Z iteration) (AgentLoop.maxIterations self)) as [Hlt|Hge];
    try (intros [= _ <-]; split; reflexivity).
  - exfalso. apply (below_cap self iteration) in Hlt. lia.
  - destruct (chat_total (AgentLoop.provider self) messages (Some tools_getDefinitions)
                (Some (AgentLoop.model self)) None None st)
      as (response & st1 & Hchat & _ & _ & _ & Hm1 & Hs1 & _).
    unfold bind at 1. rewrite Hchat.
    destruct (hasToolCalls response); [|intros [= _ <-]; auto].
    unfold bind at 1.
    destruct (executeToolCalls _ _ st1) as [[messages'|error] st2] eqn:Hexec;
      destruct (executeToolCalls_contexts _ _ _ _ _ Hexec) as [Hm2 Hs2].
    + intros H. apply IH in H; [|apply (below_cap self iteration) in Hlt; lia].
      destruct H as [Hm3 Hs3]. split; congruence.
    + intros [= _ <-]. split; congruence.
Qed.

Lemma turn_contexts (self : AgentLoop) (sessionKey channel chatId : string) (metadata : json)
    (content : string) (media : option (list string)) (userContent fallback : string)
    (outMetadata : option json) (st : AgentState) (r : result (option OutboundMessage))
    (st' : AgentState) :
  turn self sessionKey channel chatId metadata content media userContent fallback outMetadata st
  = (r, st') ->
  messageContext st' = setContext channel chatId (Some metadata)
  /\ spawnContext st' = (channel, chatId).
Proof.
  destruct (getOrCreate_sessionOf sessionKey st) as [st0 Hget].
  unfold turn. unfold bind at 1. rewrite Hget.
  unfold bind at 1. unfold setToolContexts, modify. cbn beta iota.
  unfold bind at 1. unfold lift.
  destruct (getHistory (sessionOf sessionKey st) 50) as [history|error];
    [|intros [= _ <-]; split; reflexivity].
  unfold bind at 1. unfold contextBuild.
  cbn [world disk cache messageContext spawnContext chatLog].
  destruct (buildMessages history content None media (world st0)) as [messages w].
  match goal with
  | |- bind _ _ ?s = _ -> _ => set (st2 := s)
  end.
  unfold bind at 1.
  destruct (turnLoop self 0 messages st2) as [[final|error] st3] eqn:Hloop;
    destruct (turnLoop_contexts self _ _ _ _ _ _ eq_refl Hloop) as [Hm Hs];
    [|intros [= _ <-]; split; assumption].
  unfold bind at 1.
  destruct (persistTurn_cases sessionKey (sessionOf sessionKey st) userContent
              (match final with Some c => c | None => fallback end) st3)
    as (t1 & u1 & t2 & u2 & w4 & Hpersist).
  cbn zeta in Hpersist. rewrite Hpersist.
  destruct (sessionText _); intros [= _ <-]; cbn; split; assumption.
Qed.

(** X16. After a turn, and also when the turn throws, the message tool and
    the spawn tool have the context of the inbound message: its channel,
    chat id and metadata, and for a message of the system channel the
    origin channel and origin chat id parsed from its chat id. *)
Theorem turn_tool_context (self : AgentLoop) (msg : InboundMessage) (st : AgentState) :
  let target :=
    if isSystem msg then parseOrigin (InboundMessage.chatId msg)
    else (InboundMessage.channel msg, InboundMessage.chatId msg) in
  let st' := snd (processMessage self msg st) in
  messageContext st'
  = setContext (fst target) (snd target) (Some (InboundMessage.metadata msg))
  /\ spawnContext st' = target.
Proof.
  intros target st'. unfold st', target, isSystem.
  destruct (processMessage self msg st) as [r st1] eqn:Hrun. cbn [snd].
  rewrite processMessage_turn in Hrun.
  destruct (String.eqb (InboundMessage.channel msg) "system").
  - destruct (turn_contexts _ _ _ _ _ _ _ _ _ _ _ _ _ Hrun) as [Hm Hs].
    split; [exact Hm|]. rewrite Hs. destruct (parseOrigin _); reflexivity.
  - apply (turn_contexts _ _ _ _ _ _ _ _ _ _ _ _ _ Hrun).
Qed.

(** X17. A turn on a message of the system channel appends two entries to
    the session of the origin: the announce, marked with the sender as
    [[System: sender] content], as the user entry, and the answer as the
    assistant entry; the reply goes to the origin channel and chat. *)
Theorem system_turn_entries (self : AgentLoop) (msg : InboundMessage) (st : AgentState) :
  InboundMessage.channel msg = "system" ->
  cacheConsistent st ->
  usableAt (turnSessionKey msg) st ->
  exists answer t1 t2 after st',
    processMessage self msg st
    = (Ok (Some (OutboundMessage.mk (fst (parseOrigin (InboundMessage.chatId msg)))
                   (snd (parseOrigin (InboundMessage.chatId msg))) answer [] emptyObject)),
       st')
    /\ cache st' !! turnSessionKey msg = Some after
    /\ Session.messages after
       = Session.messages (sessionOf (turnSessionKey msg) st)
         ++ [newMessage "user"
               ("[System: " +:+ InboundMessage.senderId msg +:+ "] "
                +:+ InboundMessage.content msg) [] t1;
             newMessage "assistant" answer [] t2].
Proof.
  intros Hsys Hcons Husable.
  destruct (processMessage_ok self msg st Hcons Husable)
    as (answer & [[[t1 u1] t2] u2] & text & new & st' & Hrun & Hcache & _).
  cbn zeta in Hrun, Hcache.
  rewrite (replyTo_system _ _ Hsys) in Hrun.
  unfold userEntry in Hcache. rewrite (isSystem_true _ Hsys) in Hcache.
  eexists answer, t1, t2, _, st'. split; [exact Hrun|]. split; [exact Hcache|].
  cbn. rewrite <- app_assoc. reflexivity.
Qed.

Lemma chat_provider_failure self messages tools model maxTokens temperature st error :
  getProvider self (resolveModel self model) = Throw error ->
  chat self messages tools model maxTokens temperature st
  = (Ok (errorResponse error),
     mkState (world st) (disk st) (cache st) (messageContext st) (spawnContext st)
       (chatLog st ++ [errorResponse error])).
Proof.
  intros H. unfold chat, chatBody, tryCatch, bind.
  rewrite (chatTry_provider_failure _ _ _ _ _ _ st _ H). reflexivity.
Qed.

Lemma replyTo_content (msg : InboundMessage) (answer : string) :
  OutboundMessage.content (replyTo msg answer) = answer.
Proof. unfold replyTo. destruct (isSystem msg); reflexivity. Qed.

(** X18. When the provider of the configured model cannot be built, a turn
    on a usable session makes one model call and ends with it: the reply is
    the text "Error calling LLM: " followed by the error, and this text is
    stored in the session as the assistant entry of the turn. *)
Theorem turn_provider_failure (self : AgentLoop) (msg : InboundMessage) (st : AgentState)
    (error : string) :
  getProvider (AgentLoop.provider self)
    (resolveModel (AgentLoop.provider self) (Some (AgentLoop.model self))) = Throw error ->
  (0 < AgentLoop.maxIterations self)%Q ->
  usableAt (turnSessionKey msg) st ->
  exists out st' after t,
    processMessage self msg st = (Ok (Some out), st')
    /\ OutboundMessage.content out = "Error calling LLM: " +:+ error
    /\ chatLog st' = chatLog st ++ [errorResponse error]
    /\ cache st' !! turnSessionKey msg = Some after
    /\ last (Session.messages after)
       = Some (newMessage "assistant" ("Error calling LLM: " +:+ error) [] t).
Proof.
  intros Hprovider Hcap [Hvalid Hnn].
  destruct (processMessage_spec self msg st)
    as (new & st' & Hsnd & _ & _ & _ & _ & Hdetail).
  destruct (Hdetail Hnn) as (answer & [[[t1 u1] t2] u2] & _ & Hcache & Hok & _).
  destruct (Hok Hvalid) as (text & _ & Hfst & _).
  assert (Hrun : processMessage self msg st = (Ok (Some (replyTo msg answer)), st'))
    by (apply pair_eta; assumption).
  destruct (processMessage_result _ _ _ _ _ Hrun)
    as (messages & st2 & final & st3 & Hlog2 & Hloop & Hlog3 & Hreply).
  rewrite turnLoop_while in Hloop.
  destruct (Qlt_le_dec (inject_Z 0) (AgentLoop.maxIterations self)) as [_|Hge].
  2:{ exfalso. apply (Qle_not_lt _ _ Hge). exact Hcap. }
  unfold bind at 1 in Hloop. rewrite (chat_provider_failure _ _ _ _ _ _ _ _ Hprovider) in Hloop.
  cbn in Hloop. injection Hloop as <- <-.
  assert (Hanswer : answer = "Error calling LLM: " +:+ error).
  { injection Hreply as Hreply. apply (f_equal OutboundMessage.content) in Hreply.
    rewrite !replyTo_content in Hreply. exact Hreply. }
  subst answer.
  eexists _, st', _, t2. split; [exact Hrun|]. split; [apply replyTo_content|].
  split; [rewrite Hlog3; cbn; rewrite Hlog2; reflexivity|].
  split; [exact Hcache|]. unfold withTurn, addMessage. cbn [Session.messages].
  apply last_snoc.
Qed.

End AgentMore.

Lemma runStep_answers_witness :
  let self := newAgentLoop Ref.config None None in
  let msg := Ref.inbound "telegram" "42" "hello" emptyObject in
  let st := Ref.state (Ref.mkWorld 1000 [Ref.textAnswer "hi"]) ∅ ∅ in
  exists st2,
    runStep (RT := Ref.runtime) self (fun _ => ret tt) msg st = (Ok tt, st2).
Proof.
  intros self msg st.
  destruct (runStep_answers (RT := Ref.runtime) self (fun _ => ret tt) msg st)
    as (m & st2 & Hrun & _).
  - intros m s. exists s. reflexivity.
  - exists st2. exact Hrun.
Defined.

Lemma run_unsavable_session_witness :
  let self := newAgentLoop Ref.config None None in
  let text := Ref.stringify (JObj [("_type", JStr "metadata"); ("createdAt", JStr "garbage")])
              +:+ String LF EmptyString in
  let st :=
    Ref.state (Ref.mkWorld 1000 [Ref.textAnswer "ok"])
      {[ "/home/user/.miniclawd/sessions/telegram_42.jsonl" := File text ]} ∅ in
  let msg := Ref.inbound "telegram" "42" "hello" emptyObject in
  runStep (RT := Ref.runtime) self (fun _ => ret tt) msg st
  = (Ok tt, snd (processMessage (RT := Ref.runtime) self msg st)).
Proof.
  intros self text st msg.
  destruct (run_unsavable_session (RT := Ref.runtime) self (fun _ => ret tt) msg st)
    as (Hrun & _).
  - vm_compute. constructor.
  - vm_compute. reflexivity.
  - exact Hrun.
Defined.

Lemma system_turn_entries_witness :
  let self := newAgentLoop Ref.config None None in
  let msg := InboundMessage.mk "system" "subagent" "telegram:42" "task done"
               (ValidDate 0) [] emptyObject in
  let st := Ref.state (Ref.mkWorld 1000 [Ref.textAnswer "ok"]) ∅ ∅ in
  exists answer st',
    processMessage (RT := Ref.runtime) self msg st
    = (Ok (Some (OutboundMessage.mk "telegram" "42" answer [] emptyObject)), st').
Proof.
  intros self msg st.
  destruct (system_turn_entries (RT := Ref.runtime) self msg st)
    as (answer & t1 & t2 & after & st' & Hrun & _).
  - reflexivity.
  - intros key session H.
    change (cache st) with (∅ : gmap string Session) in H.
    rewrite lookup_empty in H. discriminate.
  - split; [vm_compute; reflexivity|vm_compute; constructor].
  - exists answer, st'. exact Hrun.
Defined.

Lemma turn_provider_failure_witness :
  let self := newAgentLoop Ref.config None None in
  let msg := Ref.inbound "telegram" "42" "hello" emptyObject in
  let st := Offline.state (Ref.mkWorld 1000 []) ∅ ∅ in
  exists out st',
    processMessage (RT := Offline.runtime) self msg st = (Ok (Some out), st')
    /\ OutboundMessage.content out = "Error calling LLM: Error: API key is missing".
Proof.
  intros self msg st.
  destruct (turn_provider_failure (RT := Offline.runtime) self msg st
              "Error: API key is missing")
    as (out & st' & after & t & Hrun & Hcontent & _).
  - reflexivity.
  - reflexivity.
  - split; [vm_compute; reflexivity|vm_compute; constructor].
  - exists out, st'. split; [exact Hrun|exact Hcontent].
Defined.

Section CorruptFiles.
Context `{RT : Runtime}.

(** X25. A session file with a line that [JSON.parse] rejects is not
    repaired but replaced: the next turn of its chat starts from an empty
    session, and [save] overwrites the file with the two entries of that
    turn, so that the lines that could be read are lost as well. *)
Theorem corrupt_file_is_replaced (self : AgentLoop) (msg : InboundMessage) (st : AgentState)
    (content line : string) :
  InboundMessage.channel msg <> "system" ->
  cacheConsistent st ->
  cache st !! Events.getSessionKey msg = None ->
  disk st !! getSessionPath (Events.getSessionKey msg) = Some (File content) ->
  In line (List.filter nonBlank (JS.split content LF)) ->
  JSON_parse line = None ->
  exists out st' after text t1 t2,
    processMessage self msg st = (Ok (Some out), st')
    /\ cache st' !! Events.getSessionKey msg = Some after
    /\ Session.messages after
       = [newMessage "user" (InboundMessage.content msg) [] t1;
          newMessage "assistant" (OutboundMessage.content out) [] t2]
    /\ sessionText after = Ok text
    /\ disk st' !! getSessionPath (Events.getSessionKey msg) = Some (File text).
Proof.
  intros Hplain Hcons Hcache Hfile Hline Hparse.
  pose proof (turnSessionKey_plain msg Hplain) as Hkey.
  assert (Hfresh : sessionOf (Events.getSessionKey msg) st
                   = fst (freshSession (Events.getSessionKey msg) (world st))).
  { unfold sessionOf, resolved. rewrite Hcache, Hfile.
    destruct (loadLines_parse_error _ ([], emptyObject, None) _ Hline Hparse) as [error He].
    unfold readRecord. rewrite He. reflexivity. }
  destruct (freshSession_shape (Events.getSessionKey msg) (world st))
    as (created & updated & Hshape).
  assert (Husable : usableAt (turnSessionKey msg) st).
  { unfold usableAt. rewrite Hkey, Hfresh, Hshape. split; [reflexivity|constructor]. }
  destruct (processMessage_ok self msg st Hcons Husable)
    as (answer & [[[t1 u1] t2] u2] & text & new & st' & Hrun & Hafter & Htext & Hdisk & _).
  cbn zeta in Hafter, Htext. rewrite Hkey in *. rewrite Hfresh, Hshape in Hafter, Htext.
  unfold userEntry in *. rewrite (isSystem_false _ Hplain) in *.
  eexists _, st', _, text, t1, t2. split; [exact Hrun|]. split; [exact Hafter|].
  split; [|split; [exact Htext|exact Hdisk]].
  rewrite replyTo_content. reflexivity.
Qed.

End CorruptFiles.

Lemma corrupt_file_is_replaced_witness :
  let self := newAgentLoop Ref.config None None in
  let msg := Ref.inbound "telegram" "42" "hello" emptyObject in
  let old :=
    Ref.stringify (JObj [("role", JStr "user"); ("content", JStr "earlier")])
    +:+ String LF ("not json" +:+ String LF EmptyString) in
  let st :=
    Ref.state (Ref.mkWorld 1000 [Ref.textAnswer "hi"])
      {[ "/home/user/.miniclawd/sessions/telegram_42.jsonl" := File old ]} ∅ in
  exists out st' after,
    processMessage (RT := Ref.runtime) self msg st = (Ok (Some out), st')
    /\ cache st' !! "telegram:42" = Some after
    /\ List.length (Session.messages after) = 2%nat.
Proof.
  intros self msg old st.
  destruct (corrupt_file_is_replaced (RT := Ref.runtime) self msg st old "not json")
    as (out & st' & after & text & t1 & t2 & Hrun & Hcache & Hmessages & _).
  - discriminate.
  - intros key session H.
    change (cache st) with (∅ : gmap string Session) in H.
    rewrite lookup_empty in H. discriminate.
  - reflexivity.
  - reflexivity.
  - vm_compute. auto.
  - reflexivity.
  - exists out, st', after. split; [exact Hrun|]. split; [exact Hcache|].
    rewrite Hmessages. reflexivity.
Defined.

(** ** The message tool, continued *)

Section MessageToolMore.
Context `{RT : Runtime}.

(** X19. The message tool sends to the channel and chat of its parameters,
    and for a parameter that is missing or empty to that of its context,
    with the metadata of its context: when the send callback returns, the
    tool reports the message as sent to that target; when it throws, the
    tool returns the error as a text. *)
Theorem execute_sends_to_target (tool : MessageTool) (params : MessageParams.t)
    (callback : OutboundMessage -> M unit) (st : AgentState) :
  sendCallback tool = Some callback ->
  fst (messageTarget tool params) <> EmptyString ->
  snd (messageTarget tool params) <> EmptyString ->
  let channel := fst (messageTarget tool params) in
  let chatId := snd (messageTarget tool params) in
  let msg := OutboundMessage.mk channel chatId (MessageParams.content params) []
               (ToolContext.defaultMetadata (context tool)) in
  (forall st', callback msg st = (Ok tt, st') ->
               execute tool params st
               = (Ok ("Message sent to " +:+ channel +:+ ":" +:+ chatId), st'))
  /\ (forall error st', callback msg st = (Throw error, st') ->
                        execute tool params st
                        = (Ok ("Error sending message: " +:+ error), st'))
  /\ messageTarget tool (MessageParams.mk (MessageParams.content params)
                           (Some EmptyString) (Some EmptyString))
     = (ToolContext.defaultChannel (context tool), ToolContext.defaultChatId (context tool)).
Proof.
  intros Hcb Hchannel HchatId channel chatId msg.
  assert (Hrun : execute tool params st
                 = tryCatch (callback msg;;
                             ret ("Message sent to " +:+ channel +:+ ":" +:+ chatId))
                     (fun error => ret ("Error sending message: " +:+ error)) st).
  { unfold execute. fold (messageTarget tool params). unfold messageTarget in *.
    cbn [fst snd] in *. apply String.eqb_neq in Hchannel, HchatId.
    rewrite Hchannel, HchatId, Hcb. reflexivity. }
  split; [|split].
  - intros st' H. rewrite Hrun. unfold tryCatch, bind. rewrite H. reflexivity.
  - intros error st' H. rewrite Hrun. unfold tryCatch, bind. rewrite H. reflexivity.
  - reflexivity.
Qed.

(** X20. Without a target (the channel or the chat id is empty in both the
    parameters and the context) or without a send callback, the message
    tool sends nothing: it returns an error text, the callback is not
    called and the state is as before. *)
Theorem execute_sends_nothing (tool : MessageTool) (params : MessageParams.t)
    (st : AgentState) :
  fst (messageTarget tool params) = EmptyString
  \/ snd (messageTarget tool params) = EmptyString
  \/ sendCallback tool = None ->
  exists text,
    execute tool params st = (Ok text, st)
    /\ JS.startsWith text "Error" = true
    /\ (fst (messageTarget tool params) = EmptyString
        \/ snd (messageTarget tool params) = EmptyString ->
        text = "Error: No target channel/chat specified").
Proof.
  intros H. unfold execute. unfold messageTarget in *. cbn [fst snd] in *.
  destruct (String.eqb_spec (optStrOr (MessageParams.channel params)
                               (ToolContext.defaultChannel (context tool))) EmptyString)
    as [Hc|Hc].
  { eexists. split; [reflexivity|]. split; [reflexivity|]. reflexivity. }
  destruct (String.eqb_spec (optStrOr (MessageParams.chat_id params)
                               (ToolContext.defaultChatId (context tool))) EmptyString)
    as [Hi|Hi].
  { eexists. split; [reflexivity|]. split; [reflexivity|]. reflexivity. }
  destruct H as [H|[H|H]]; [contradiction|contradiction|].
  rewrite H. eexists. split; [reflexivity|]. split; [reflexivity|].
  intros [H'|H']; contradiction.
Qed.

End MessageToolMore.

Lemma execute_sends_to_target_witness :
  let tool := mkMessageTool (RT := Ref.runtime) (Some (fun _ => ret tt))
                (setContext "telegram" "42" None) in
  let st := Ref.state (Ref.mkWorld 0 []) ∅ ∅ in
  execute tool (MessageParams.mk "hello" None (Some "43")) st
  = (Ok "Message sent to telegram:43", st).
Proof.
  intros tool st.
  destruct (execute_sends_to_target (RT := Ref.runtime) tool
              (MessageParams.mk "hello" None (Some "43")) (fun _ => ret tt) st
              eq_refl ltac:(discriminate) ltac:(discriminate)) as (H & _ & _).
  apply H. reflexivity.
Defined.

Lemma execute_sends_nothing_witness :
  let tool := mkMessageTool (RT := Ref.runtime) (Some (fun _ => ret tt))
                (setContext "telegram" EmptyString None) in
  let st := Ref.state (Ref.mkWorld 0 []) ∅ ∅ in
  execute tool (MessageParams.mk "hello" None None) st
  = (Ok "Error: No target channel/chat specified", st).
Proof.
  intros tool st.
  destruct (execute_sends_nothing (RT := Ref.runtime) tool
              (MessageParams.mk "hello" None None) st ltac:(right; left; reflexivity))
    as (text & Hrun & _ & Htext).
  rewrite Hrun, Htext; [reflexivity|right; reflexivity].
Defined.

(** ** API keys: the command line, the schema and the provider *)

Section ApiKeys.
Context `{RT : Runtime}.

Lemma usableKey_iff (apiKey envName : string) :
  usableKey apiKey envName
  <-> negb (String.eqb apiKey EmptyString) || envSet envName = true.
Proof.
  unfold usableKey, keyOrEnv, envSet.
  destruct (String.eqb_spec apiKey EmptyString) as [->|Hne]; cbn.
  - destruct (process_env envName) as [v|].
    + destruct (String.eqb_spec v EmptyString) as [->|Hv]; cbn.
      * split; [intros (k & [= <-] & Hk); congruence|discriminate].
      * split; [reflexivity|]. intros _. exists v. auto.
    + split; [intros (k & Hk & _); discriminate|discriminate].
  - split; [reflexivity|]. intros _. exists apiKey. auto.
Qed.

Lemma orb_ten (a1 a2 a3 a4 a5 e1 e2 e3 e4 e5 : bool) :
  a1 || a2 || a3 || a4 || a5 || e1 || e2 || e3 || e4 || e5
  = (a1 || e1) || (a2 || e2) || (a3 || e3) || (a4 || e4) || (a5 || e5).
Proof. destruct a1, a2, a3, a4, a5, e1, e2, e3, e4; reflexivity. Qed.

(** X21. The check of the command line before it starts the agent,
    [hasApiKey], holds exactly when [getProvider] would hand a key that is
    not empty to one of the providers Anthropic, OpenAI, OpenRouter, Google
    or Groq; the Bedrock settings play no part in it. *)
Theorem hasApiKey_spec (config : Config) :
  (hasApiKey config = true
   <-> usableKey (ProviderConfig.apiKey (Config.anthropic config)) "ANTHROPIC_API_KEY"
       \/ usableKey (ProviderConfig.apiKey (Config.openai config)) "OPENAI_API_KEY"
       \/ usableKey (ProviderConfig.apiKey (Config.openrouter config)) "OPENROUTER_API_KEY"
       \/ usableKey (ProviderConfig.apiKey (Config.google config)) "GOOGLE_API_KEY"
       \/ usableKey (ProviderConfig.apiKey (Config.groq config)) "GROQ_API_KEY")
  /\ forall bedrock,
       hasApiKey (Config.mk (Config.model config) (Config.maxTokens config)
                    (Config.temperature config) (Config.maxToolIterations config)
                    (Config.anthropic config) (Config.openai config)
                    (Config.openrouter config) (Config.groq config) (Config.google config)
                    bedrock)
       = hasApiKey config.
Proof.
  split; [|reflexivity].
  rewrite !usableKey_iff. unfold hasApiKey. rewrite orb_ten.
  rewrite !orb_true_iff. tauto.
Qed.

(** X22. [getApiKey] returns no key exactly when the keys of OpenRouter,
    Anthropic, OpenAI, Google and Groq are all empty; a key that it returns
    is one of them and not empty, and it is the key of OpenRouter whenever
    that is not empty.  [getApiBase] returns a base URL, which is not
    empty, exactly when the key of OpenRouter is not empty, so that a base
    URL is only reported together with the key of OpenRouter.  When
    [getApiKey] returns a key, the check [hasApiKey] of the command line
    holds. *)
Theorem getApiKey_spec (config : Config) :
  let key (p : ProviderConfig.t) := ProviderConfig.apiKey p in
  let keys := [key (Config.openrouter config); key (Config.anthropic config);
               key (Config.openai config); key (Config.google config);
               key (Config.groq config)] in
  (getApiKey config = None <-> Forall (fun k => k = EmptyString) keys)
  /\ (forall k, getApiKey config = Some k -> k <> EmptyString /\ In k keys)
  /\ (key (Config.openrouter config) <> EmptyString ->
      getApiKey config = Some (key (Config.openrouter config)))
  /\ (getApiBase config = None <-> key (Config.openrouter config) = EmptyString)
  /\ (forall base,
        getApiBase config = Some base ->
        base <> EmptyString /\ getApiKey config = Some (key (Config.openrouter config)))
  /\ (getApiKey config <> None -> hasApiKey config = true).
Proof.
  intros key keys. unfold keys, key. clear key keys.
  set (r := ProviderConfig.apiKey (Config.openrouter config)).
  set (a := ProviderConfig.apiKey (Config.anthropic config)).
  set (o := ProviderConfig.apiKey (Config.openai config)).
  set (g := ProviderConfig.apiKey (Config.google config)).
  set (q := ProviderConfig.apiKey (Config.groq config)).
  assert (Hkey : getApiKey config
                 = if negb (String.eqb r EmptyString) then Some r
                   else if negb (String.eqb a EmptyString) then Some a
                   else if negb (String.eqb o EmptyString) then Some o
                   else if negb (String.eqb g EmptyString) then Some g
                   else if negb (String.eqb q EmptyString) then Some q
                   else None) by reflexivity.
  assert (Hbase : getApiBase config
                  = if negb (String.eqb r EmptyString)
                    then Some (match ProviderConfig.apiBase (Config.openrouter config) with
                               | Some base =>
                                   if String.eqb base EmptyString
                                   then "https://openrouter.ai/api/v1" else base
                               | None => "https://openrouter.ai/api/v1"
                               end)
                    else None) by reflexivity.
  assert (Hhas : negb (String.eqb a EmptyString) || negb (String.eqb o EmptyString)
                 || negb (String.eqb r EmptyString) || negb (String.eqb g EmptyString)
                 || negb (String.eqb q EmptyString) = true -> hasApiKey config = true).
  { intros H. unfold hasApiKey. fold r a o g q. rewrite H. reflexivity. }
  rewrite Hkey, Hbase. clear Hkey Hbase.
  split; [|split; [|split; [|split; [|split]]]].
  - rewrite !Forall_cons, Forall_nil.
    destruct (String.eqb_spec r EmptyString), (String.eqb_spec a EmptyString),
      (String.eqb_spec o EmptyString), (String.eqb_spec g EmptyString),
      (String.eqb_spec q EmptyString); cbn [negb]; split; intros H;
      try discriminate; try tauto.
  - intros k.
    destruct (String.eqb_spec r EmptyString), (String.eqb_spec a EmptyString),
      (String.eqb_spec o EmptyString), (String.eqb_spec g EmptyString),
      (String.eqb_spec q EmptyString); cbn [negb]; intros H;
      try discriminate; injection H as <-; (split; [assumption|cbn; tauto]).
  - intros Hr. apply String.eqb_neq in Hr. rewrite Hr. reflexivity.
  - destruct (String.eqb_spec r EmptyString); cbn [negb]; split; intros H;
      try discriminate; try reflexivity; congruence.
  - intros base. destruct (String.eqb_spec r EmptyString) as [|Hr]; cbn [negb];
      [discriminate|].
    intros [= <-]. split; [|reflexivity].
    destruct (ProviderConfig.apiBase (Config.openrouter config)) as [b|]; [|discriminate].
    destruct (String.eqb_spec b EmptyString); [discriminate|assumption].
  - intros H. apply Hhas.
    destruct (String.eqb_spec r EmptyString), (String.eqb_spec a EmptyString),
      (String.eqb_spec o EmptyString), (String.eqb_spec g EmptyString),
      (String.eqb_spec q EmptyString); cbn [negb orb] in *; try reflexivity; congruence.
Qed.

End ApiKeys.

(** ** The names of configuration keys *)

Section KeyNames.

Lemma upper_lower (c : ascii) :
  JSText.isUpper c = true ->
  JSText.isLower (JS.lowerChar c) = true
  /\ JSText.upperChar (JS.lowerChar c) = c
  /\ Ascii.eqb (JS.lowerChar c) "_" = false.
Proof.
  destruct c as [[] [] [] [] [] [] [] []]; intros H; try discriminate H;
    repeat split; reflexivity.
Qed.

Lemma lower_upper (c : ascii) :
  JSText.isLower c = true ->
  JSText.isUpper (JSText.upperChar c) = true
  /\ JS.lowerChar (JSText.upperChar c) = c.
Proof.
  destruct c as [[] [] [] [] [] [] [] []]; intros H; try discriminate H;
    split; reflexivity.
Qed.

Lemma underscore_class :
  JSText.isUpper "_" = false /\ JSText.isLower "_" = false.
Proof. split; reflexivity. Qed.

Lemma upper_not_lower (c : ascii) : JSText.isUpper c = true -> JSText.isLower c = false.
Proof. destruct c as [[] [] [] [] [] [] [] []]; intros H; try discriminate H; reflexivity. Qed.

Lemma camelToSnakeFrom_cons (offset : nat) (c : ascii) (rest : string) :
  camelToSnakeFrom offset (String c rest)
  = if JSText.isUpper c then
      if (0 <? offset)%nat
      then String "_" (String (JS.lowerChar c) (camelToSnakeFrom (S offset) rest))
      else String (JS.lowerChar c) (camelToSnakeFrom (S offset) rest)
    else String c (camelToSnakeFrom (S offset) rest).
Proof.
  cbn [camelToSnakeFrom]. destruct (JSText.isUpper c); [destruct (0 <? offset)%nat|];
    reflexivity.
Qed.

(** The first character of the snake form of a name that is read from an
    offset above zero. *)
Lemma camelToSnakeFrom_head (offset : nat) (name : string) :
  headIsLower (camelToSnakeFrom (S offset) name)
  = headIsLower name.
Proof.
  destruct name as [|c rest]; [reflexivity|]. rewrite camelToSnakeFrom_cons.
  destruct (JSText.isUpper c) eqn:Hc; [|reflexivity].
  cbn. symmetry. apply upper_not_lower. exact Hc.
Qed.

Lemma snakeToCamel_cons (c : ascii) (rest : string) :
  snakeToCamel (String c rest)
  = if Ascii.eqb c "_" && headIsLower rest then
      match rest with
      | String d rest' => String (JSText.upperChar d) (snakeToCamel rest')
      | EmptyString => String c EmptyString
      end
    else String c (snakeToCamel rest).
Proof.
  cbn [snakeToCamel]. destruct (Ascii.eqb c "_"); [|reflexivity].
  destruct rest as [|d rest']; [reflexivity|]. cbn. destruct (JSText.isLower d); reflexivity.
Qed.

Lemma snakeToCamel_camelToSnakeFrom (name : string) :
  forall offset,
    noSnakePair name = true ->
    snakeToCamel (camelToSnakeFrom (S offset) name) = name.
Proof.
  induction name as [|c rest IH]; intros offset H; [reflexivity|].
  cbn [noSnakePair] in H. apply andb_true_iff in H as [Hpair Hrest].
  apply negb_true_iff in Hpair.
  rewrite camelToSnakeFrom_cons. destruct (JSText.isUpper c) eqn:Hc.
  - destruct (upper_lower c Hc) as (Hl & Hu & _). cbn [Nat.ltb Nat.leb].
    rewrite snakeToCamel_cons. cbn [headIsLower]. rewrite Hl.
    change (Ascii.eqb "_" "_") with true. cbn [andb].
    rewrite Hu, (IH _ Hrest). reflexivity.
  - rewrite snakeToCamel_cons, camelToSnakeFrom_head, Hpair, (IH _ Hrest). reflexivity.
Qed.

Lemma snakeToCamel_camelToSnake_name (name : string) :
  isCamelName name = true -> snakeToCamel (camelToSnake name) = name.
Proof.
  unfold isCamelName, camelToSnake. intros H. apply andb_true_iff in H as [Hhead Hpairs].
  destruct name as [|c rest]; [reflexivity|].
  cbn [headIsUpper] in Hhead. apply negb_true_iff in Hhead.
  cbn [noSnakePair] in Hpairs. apply andb_true_iff in Hpairs as [Hpair Hrest].
  apply negb_true_iff in Hpair.
  rewrite camelToSnakeFrom_cons, Hhead.
  rewrite snakeToCamel_cons, camelToSnakeFrom_head, Hpair.
  rewrite (snakeToCamel_camelToSnakeFrom _ _ Hrest). reflexivity.
Qed.

(** X23. [snakeToCamel] undoes [camelToSnake] on a name that does not begin
    with a capital and in which no underscore is followed by a small
    letter: the keys of a configuration that [saveConfig] writes are read
    back by [loadConfig] under their names. *)
Theorem snakeToCamel_camelToSnake (name : string) :
  isCamelName name = true ->
  snakeToCamel (camelToSnake name) = name.
Proof. apply snakeToCamel_camelToSnake_name. Qed.

Lemma snakeToCamel_camelToSnake_witness :
  camelToSnake "maxToolIterations" = "max_tool_iterations"
  /\ snakeToCamel (camelToSnake "maxToolIterations") = "maxToolIterations".
Proof.
  split; [reflexivity|]. apply snakeToCamel_camelToSnake. reflexivity.
Defined.

Lemma camelToSnakeFrom_snakeToCamel (n : nat) :
  forall name offset,
    (String.length name <= n)%nat ->
    noUpper name = true ->
    (offset = 0%nat ->
     match name with
     | String c rest => Ascii.eqb c "_" && headIsLower rest
     | EmptyString => false
     end = false) ->
    camelToSnakeFrom offset (snakeToCamel name) = name.
Proof.
  induction n as [|n IH]; intros name offset Hlen Hupper Hfirst;
    destruct name as [|c rest]; try reflexivity; cbn in Hlen; [lia|].
  cbn [noUpper] in Hupper. apply andb_true_iff in Hupper as [Hc Hrest].
  apply negb_true_iff in Hc.
  rewrite snakeToCamel_cons.
  destruct (Ascii.eqb c "_" && headIsLower rest) eqn:Hpair.
  - apply andb_true_iff in Hpair as [Hunder Hlower]. apply Ascii.eqb_eq in Hunder. subst c.
    destruct rest as [|d rest']; [discriminate Hlower|]. cbn [headIsLower] in Hlower.
    destruct (lower_upper d Hlower) as [Hu Hl].
    cbn [noUpper] in Hrest. apply andb_true_iff in Hrest as [_ Hrest'].
    rewrite camelToSnakeFrom_cons, Hu.
    destruct offset as [|offset].
    { specialize (Hfirst eq_refl). discriminate Hfirst. }
    cbn [Nat.ltb Nat.leb]. rewrite Hl. f_equal. f_equal.
    apply IH; [cbn in Hlen; lia|exact Hrest'|discriminate].
  - rewrite camelToSnakeFrom_cons, Hc. f_equal.
    apply IH; [lia|exact Hrest|discriminate].
Qed.

(** X24. [camelToSnake] undoes [snakeToCamel] on a name without capitals
    that does not begin with an underscore and a small letter: the keys of a
    configuration file in snake case, as [loadConfig] reads them, are
    written back by [saveConfig] under their names. *)
Theorem camelToSnake_snakeToCamel (name : string) :
  isSnakeName name = true ->
  camelToSnake (snakeToCamel name) = name.
Proof.
  unfold isSnakeName, camelToSnake. intros H. apply andb_true_iff in H as [Hupper Hfirst].
  apply negb_true_iff in Hfirst.
  apply (camelToSnakeFrom_snakeToCamel (String.length name));
    [lia|exact Hupper|intros _; exact Hfirst].
Qed.

Lemma camelToSnake_snakeToCamel_witness :
  snakeToCamel "api_key" = "apiKey"
  /\ camelToSnake (snakeToCamel "api_key") = "api_key".
Proof.
  split; [reflexivity|]. apply camelToSnake_snakeToCamel. reflexivity.
Defined.

Lemma json_nested_ind (P : json -> Prop) :
  P JNull -> (forall b, P (JBool b)) -> (forall n, P (JNum n)) -> (forall s, P (JStr s)) ->
  (forall items, Forall P items -> P (JArr items)) ->
  (forall fields, Forall (fun entry => P (snd entry)) fields -> P (JObj fields)) ->
  forall v, P v.
Proof.
  intros Hnull Hbool Hnum Hstr Harr Hobj.
  fix IH 1. intros [| b | n | s | items | fields].
  - exact Hnull.
  - apply Hbool.
  - apply Hnum.
  - apply Hstr.
  - apply Harr. induction items as [|item items IHitems]; constructor; [apply IH|exact IHitems].
  - apply Hobj. induction fields as [|[k v] fields IHfields]; constructor;
      [apply IH|exact IHfields].
Qed.

Lemma existsb_eqb_In (name : string) (names : list string) :
  existsb (String.eqb name) names = true <-> In name names.
Proof.
  rewrite existsb_exists. split.
  - intros (x & Hin & Heq). apply String.eqb_eq in Heq. subst. exact Hin.
  - intros Hin. exists name. split; [exact Hin|apply String.eqb_refl].
Qed.

Lemma distinct_NoDup (names : list string) : distinct names = true <-> List.NoDup names.
Proof.
  induction names as [|name rest IH]; cbn.
  - split; [constructor|reflexivity].
  - rewrite andb_true_iff, negb_true_iff, IH. split.
    + intros [Hnot Hrest]. constructor; [|exact Hrest].
      intros Hin. apply existsb_eqb_In in Hin. congruence.
    + intros H. inversion H as [|? ? Hnot Hrest]; subst. split; [|exact Hrest].
      destruct (existsb (String.eqb name) rest) eqn:He; [|reflexivity].
      apply existsb_eqb_In in He. contradiction.
Qed.

Lemma setField_fresh (k : string) (v : json) (fields : list (string * json)) :
  ~ In k (map fst fields) -> setField k v fields = fields ++ [(k, v)].
Proof.
  induction fields as [|[k' v'] fields IH]; intros H; [reflexivity|].
  cbn in *. destruct (String.eqb_spec k k') as [->|Hne]; [tauto|].
  rewrite IH by tauto. reflexivity.
Qed.

Lemma fold_assignField_fresh (f : string -> string) (g : json -> json)
    (fields acc : list (string * json)) :
  Forall (fun name => f name <> "__proto__") (map fst fields) ->
  List.NoDup (map fst acc ++ map f (map fst fields)) ->
  fold_left (fun result entry => assignField (f (fst entry)) (g (snd entry)) result) fields acc
  = acc ++ map (fun entry => (f (fst entry), g (snd entry))) fields.
Proof.
  revert acc. induction fields as [|[k v] fields IH]; intros acc Hown H; cbn.
  - rewrite app_nil_r. reflexivity.
  - cbn in H, Hown. apply List.NoDup_remove in H as [Hrest Hk].
    inversion Hown as [|? ? Hne Hown']; subst.
    unfold assignField at 2. apply String.eqb_neq in Hne. rewrite Hne.
    rewrite setField_fresh.
    2:{ intros Hin. apply Hk. apply in_or_app. left. exact Hin. }
    rewrite IH.
    + rewrite <- app_assoc. reflexivity.
    + exact Hown'.
    + rewrite map_app. cbn. rewrite <- app_assoc. cbn.
      apply (List.NoDup_Add (List.Add_app (f k) (map fst acc) (map f (map fst fields)))).
      split; [exact Hrest|exact Hk].
Qed.

Lemma NoDup_map_roundtrip (f g : string -> string) (names : list string) :
  Forall (fun name => g (f name) = name) names ->
  List.NoDup names -> List.NoDup (map f names).
Proof.
  intros Hinv Hnd. apply List.NoDup_map_inv with (f := g).
  rewrite List.map_map. rewrite (List.map_ext_Forall _ id); [rewrite List.map_id; exact Hnd|].
  exact Hinv.
Qed.

(** X26. [convertToCamel] undoes [convertToSnake] on every value whose
    objects have configuration keys (camel names, [__proto__] apart), each
    key once: a configuration that [saveConfig] converts for the file is
    converted back by [loadConfig] to itself, at every depth and with the
    entries in the same order. *)
Theorem convertToCamel_convertToSnake (data : json) :
  camelKeys data = true -> convertToCamel (convertToSnake data) = data.
Proof.
  induction data as [| b | n | s | items IH | fields IH] using json_nested_ind;
    intros Hkeys; try reflexivity.
  - cbn [convertToSnake convertToCamel]. f_equal.
    cbn [camelKeys] in Hkeys. rewrite List.map_map.
    rewrite List.forallb_forall in Hkeys. rewrite List.Forall_forall in IH.
    rewrite (List.map_ext_in _ id); [apply List.map_id|].
    intros item Hin. apply IH; [exact Hin|]. apply Hkeys. exact Hin.
  - cbn [convertToSnake camelKeys] in *.
    apply andb_true_iff in Hkeys as [Hkeys Hdistinct]. apply distinct_NoDup in Hdistinct.
    rewrite List.forallb_forall in Hkeys. rewrite List.Forall_forall in IH.
    assert (Hconfig : forall name, In name (map fst fields) -> isConfigKey name = true).
    { intros name Hin. apply List.in_map_iff in Hin as (e & <- & He).
      specialize (Hkeys e He). apply andb_true_iff in Hkeys. apply Hkeys. }
    assert (Hnames : Forall (fun name => snakeToCamel (camelToSnake name) = name)
                       (map fst fields)).
    { apply List.Forall_forall. intros name Hin. apply Hconfig in Hin.
      apply andb_true_iff in Hin as [Hcamel _].
      apply snakeToCamel_camelToSnake_name. exact Hcamel. }
    rewrite (fold_assignField_fresh camelToSnake convertToSnake fields []).
    2:{ apply List.Forall_forall. intros name Hin. apply Hconfig in Hin.
        apply andb_true_iff in Hin as [_ Hown]. apply negb_true_iff in Hown.
        apply String.eqb_neq. exact Hown. }
    2:{ cbn. apply (NoDup_map_roundtrip _ snakeToCamel); assumption. }
    cbn [app convertToCamel].
    assert (Hback : map (fun name => snakeToCamel (camelToSnake name)) (map fst fields)
                    = map fst fields).
    { rewrite (List.map_ext_Forall _ id) by exact Hnames. apply List.map_id. }
    rewrite (fold_assignField_fresh snakeToCamel convertToCamel _ []).
    2:{ rewrite !List.map_map. cbn [fst]. apply List.Forall_forall. intros name Hin.
        apply List.in_map_iff in Hin as (e & <- & He).
        assert (Hin : In (fst e) (map fst fields)) by (apply List.in_map; exact He).
        pose proof (proj1 (List.Forall_forall _ _) Hnames _ Hin) as Hname.
        cbn beta in Hname. rewrite Hname. intros Heq. apply Hconfig in Hin.
        rewrite Heq in Hin. discriminate Hin. }
    2:{ cbn [map app]. rewrite !List.map_map. cbn [fst].
        rewrite <- (List.map_map fst (fun name => snakeToCamel (camelToSnake name))).
        rewrite Hback. exact Hdistinct. }
    cbn [app]. f_equal. rewrite List.map_map. cbn [fst snd].
    rewrite (List.map_ext_in _ id); [apply List.map_id|].
    intros [k v] Hin. unfold id. cbn [fst snd].
    specialize (Hkeys _ Hin). apply andb_true_iff in Hkeys as [Hk Hv]. cbn [fst snd] in *.
    apply andb_true_iff in Hk as [Hk _].
    rewrite (snakeToCamel_camelToSnake_name _ Hk).
    specialize (IH _ Hin Hv). cbn [snd] in IH. rewrite IH. reflexivity.
Qed.

(** The key [_Proto__] is a camel name, and its snake form is [__proto__]:
    the entry is lost by [convertToSnake]. *)
Example convertToSnake_proto_example :
  isCamelName "_Proto__" = true
  /\ convertToSnake (JObj [("_Proto__", JNum 1); ("apiKey", JStr "k")])
     = JObj [("api_key", JStr "k")].
Proof. split; reflexivity. Qed.

Lemma convertToCamel_convertToSnake_witness :
  let config :=
    JObj [("agents", JObj [("defaults", JObj [("maxToolIterations", JNum 20)])]);
          ("providers", JObj [("openrouter", JObj [("apiKey", JStr "k");
                                                   ("apiBase", JStr "u")])])] in
  convertToSnake config
  = JObj [("agents", JObj [("defaults", JObj [("max_tool_iterations", JNum 20)])]);
          ("providers", JObj [("openrouter", JObj [("api_key", JStr "k");
                                                   ("api_base", JStr "u")])])]
  /\ convertToCamel (convertToSnake config) = config.
Proof.
  intros config. split; [reflexivity|].
  apply convertToCamel_convertToSnake. reflexivity.
Defined.

End KeyNames.
